(** * Session and event-capture core of the Playwright tool server

    A shallow embedding of [playwright_server/handlers/base_handler.py],
    [console_log_handler.py], [network_handler.py], [session_initializer.py]
    and of the tool handlers of [playwright_server/server.py].

    Conventions of the embedding:
    - a Python [str] is the list of its code points ([pystr]);
    - [bytes] is [list Byte.byte];
    - the class-level registries ([_sessions], [_console_logs],
      [_network_events]) are fields of one explicit [state], threaded through
      every handler; a raised exception leaves the mutations made so far in
      place, as in Python;
    - every [await] on the browser driver is answered by an oracle (the
      [Driver] record, or the fields of the delivered browser event), which
      either returns a value or raises. *)

From Stdlib Require Import ZArith NArith String Ascii DecimalString.
From Stdlib.Strings Require Import Byte.
From stdpp Require Import base option list gmap strings numbers.

Local Open Scope Z_scope.

(** ** Python values *)

(** A Python [str]: the sequence of its Unicode code points. *)
Definition pystr := list N.

(** A string literal of the source. *)
Fixpoint py (s : string) : pystr :=
  match s with
  | EmptyString => []
  | String a s' => N_of_ascii a :: py s'
  end.

Arguments py : simpl never.

(** The newline character written [\n] in the source. *)
Definition nl : pystr := [10%N].

(** [s.startswith(p)]. *)
Fixpoint startswith (s p : pystr) : bool :=
  match p, s with
  | [], _ => true
  | _ :: _, [] => false
  | a :: p', b :: s' => (a =? b)%N && startswith s' p'
  end.

(** [needle in hay] for two strings: substring test. *)
Fixpoint str_in (needle hay : pystr) : bool :=
  startswith hay needle ||
  match hay with
  | [] => false
  | _ :: hay' => str_in needle hay'
  end.

(** Truthiness of a string: [if s:] holds for a non-empty string. *)
Definition str_truthy (s : pystr) : bool :=
  match s with [] => false | _ :: _ => true end.

(** Truthiness of [d.get(key)]: [None] and the empty string are falsy. *)
Definition opt_truthy (o : option pystr) : bool :=
  match o with Some s => str_truthy s | None => false end.

(** [str(n)] for an integer. *)
Definition str_int (n : Z) : pystr := py (NilZero.string_of_int (Z.to_int n)).

(** [sep.join(parts)]. *)
Fixpoint str_join (sep : pystr) (parts : list pystr) : pystr :=
  match parts with
  | [] => []
  | [p] => p
  | p :: rest => p ++ sep ++ str_join sep rest
  end.

(** [s.split("\n")]: the maximal runs between newline characters. *)
Fixpoint split_lines_aux (cur : pystr) (s : pystr) : list pystr :=
  match s with
  | [] => [rev cur]
  | c :: s' =>
      if (c =? 10)%N then rev cur :: split_lines_aux [] s'
      else split_lines_aux (c :: cur) s'
  end.
Definition split_lines (s : pystr) : list pystr := split_lines_aux [] s.

(** A Python slice [l[start:]] for an integer [start]: a negative start counts
    from the end, and the bounds are clamped to the list. *)
Definition slice_from {A} (start : Z) (l : list A) : list A :=
  let len := Z.of_nat (length l) in
  let lo := if start <? 0 then Z.max (len + start) 0 else Z.min start len in
  drop (Z.to_nat lo) l.

(** A Python slice [l[:stop]] for a non-negative constant [stop]. *)
Definition slice_to {A} (stop : nat) (l : list A) : list A := take stop l.

(** ** [bytes.decode('utf-8')] *)

Definition is_cont (b : N) : bool := (128 <=? b)%N && (b <=? 191)%N.
Definition in_range (lo hi b : N) : bool := (lo <=? b)%N && (b <=? hi)%N.

(** Strict UTF-8 decoding of the standard codec: shortest forms only, no
    surrogates, nothing above U+10FFFF. [None] is [UnicodeDecodeError]. *)
Fixpoint decode_utf8_N (bs : list N) : option pystr :=
  match bs with
  | [] => Some []
  | b0 :: r0 =>
    if (b0 <? 128)%N then cons b0 <$> decode_utf8_N r0
    else if in_range 194 223 b0 then
      match r0 with
      | b1 :: r1 =>
          if is_cont b1
          then cons ((b0 - 192) * 64 + (b1 - 128))%N <$> decode_utf8_N r1
          else None
      | _ => None
      end
    else if in_range 224 239 b0 then
      match r0 with
      | b1 :: b2 :: r2 =>
          let lo := if (b0 =? 224)%N then 160%N else 128%N in
          let hi := if (b0 =? 237)%N then 159%N else 191%N in
          if in_range lo hi b1 && is_cont b2
          then cons ((b0 - 224) * 4096 + (b1 - 128) * 64 + (b2 - 128))%N
                 <$> decode_utf8_N r2
          else None
      | _ => None
      end
    else if in_range 240 244 b0 then
      match r0 with
      | b1 :: b2 :: b3 :: r3 =>
          let lo := if (b0 =? 240)%N then 144%N else 128%N in
          let hi := if (b0 =? 244)%N then 143%N else 191%N in
          if in_range lo hi b1 && is_cont b2 && is_cont b3
          then cons ((b0 - 240) * 262144 + (b1 - 128) * 4096
                     + (b2 - 128) * 64 + (b3 - 128))%N
                 <$> decode_utf8_N r3
          else None
      | _ => None
      end
    else None
  end.

Definition decode_utf8 (body : list byte) : option pystr :=
  decode_utf8_N (Byte.to_N <$> body).

(** ** Exceptions and the handler monad *)

(** The exception classes that occur. All derive from [Exception] except
    [CancelledError], which derives from [BaseException] only. *)
Inductive exn_class :=
  | ValueError | UnicodeDecodeError | KeyError | IndexError | TypeError
  | AttributeError | PlaywrightError | TimeoutError | CancelledError.

Record exn := mk_exn { exn_cls : exn_class; exn_msg : pystr }.

(** [isinstance(e, Exception)]: what [except Exception] catches. *)
Definition isinstance_Exception (e : exn) : bool :=
  match exn_cls e with CancelledError => false | _ => true end.

(** [isinstance(e, ValueError)]: what [except ValueError] catches;
    [UnicodeDecodeError] is a subclass of [ValueError]. *)
Definition isinstance_ValueError (e : exn) : bool :=
  match exn_cls e with ValueError | UnicodeDecodeError => true | _ => false end.

(** [str(e)]. *)
Definition str_exn (e : exn) : pystr := exn_msg e.

Inductive outcome (A : Type) :=
  | Ok (a : A)
  | Raise (e : exn).
Arguments Ok {A} a.
Arguments Raise {A} e.

(** A computation of a handler: it reads and mutates the shared state and
    either returns or raises; the state survives a raise. *)
Definition M (S A : Type) : Type := S → S * outcome A.

Definition ret {S A} (a : A) : M S A := λ s, (s, Ok a).
Definition raise {S A} (e : exn) : M S A := λ s, (s, Raise e).
Definition bind {S A B} (m : M S A) (k : A → M S B) : M S B :=
  λ s, match m s with
       | (s', Ok a) => k a s'
       | (s', Raise e) => (s', Raise e)
       end.

#[global] Instance M_ret {S} : MRet (M S) := λ A, ret.
#[global] Instance M_bind {S} : MBind (M S) := λ A B k m, bind m k.

(** [await] on a driver call whose result the oracle gives. *)
Definition await {S A} (o : outcome A) : M S A := λ s, (s, o).
Definition gets {S A} (f : S → A) : M S A := λ s, (s, Ok (f s)).
Definition modify {S} (f : S → S) : M S unit := λ s, (f s, Ok tt).

(** The first [except] clause whose class test accepts the exception. *)
Fixpoint select_clause {S A} (clauses : list ((exn → bool) * (exn → M S A)))
    (e : exn) : option (exn → M S A) :=
  match clauses with
  | [] => None
  | (catches, handler) :: rest =>
      if catches e then Some handler else select_clause rest e
  end.

(** [try: body  except C1 as e: h1(e)  except C2 as e: h2(e) ...]: the first
    matching clause handles the exception; without one it propagates. *)
Definition try_except {S A} (body : M S A)
    (clauses : list ((exn → bool) * (exn → M S A))) : M S A :=
  λ s, match body s with
       | (s', Raise e) =>
           match select_clause clauses e with
           | Some handler => handler e s'
           | None => (s', Raise e)
           end
       | r => r
       end.

(** A bare [except:] catches every exception. *)
Definition bare : exn → bool := λ _, true.

(** ** Insertion-ordered dictionaries

    A Python [dict] keeps its keys in insertion order; assigning to a key that
    is already present replaces the value and keeps the key's position. *)
Section Dict.
Context {V : Type}.

Definition dict_keys (d : list (pystr * V)) : list pystr := d.*1.

Fixpoint dict_get (k : pystr) (d : list (pystr * V)) : option V :=
    match d with
    | [] => None
    | (k', v) :: d' => if decide (k = k') then Some v else dict_get k d'
    end.

Fixpoint dict_set (k : pystr) (v : V) (d : list (pystr * V))
      : list (pystr * V) :=
    match d with
    | [] => [(k, v)]
    | (k', v') :: d' =>
        if decide (k = k') then (k, v) :: d' else (k', v') :: dict_set k v d'
    end.

  (** [not d]. *)
Definition dict_empty (d : list (pystr * V)) : bool :=
    match d with [] => true | _ :: _ => false end.
End Dict.

(** ** Data model *)

(** The value stored for a session: [{"browser": browser, "page": page}]; the
    driver's handles are object identities. *)
Record Session := mk_session { browser : nat; page : nat }.

(** HTTP headers, a [dict[str, str]]. *)
Definition Headers := list (pystr * pystr).

(** A console log entry, as built by [handle_console]. *)
Record ConsoleEntry := mk_log {
  log_type : pystr;
  log_text : pystr;
  log_url : pystr;
  log_lineNumber : option Z;
  log_columnNumber : option Z;
  log_timestamp : pystr
}.

(** A network event, as built by [handle_request] and patched by
    [handle_response]. *)
Record NetEvent := mk_event {
  ev_id : Z;
  ev_type : pystr;
  ev_url : pystr;
  ev_method : pystr;
  ev_headers : Headers;
  ev_post_data : option pystr;
  ev_resource_type : pystr;
  ev_timestamp : pystr;
  ev_status : option Z;
  ev_status_text : option pystr;
  ev_response_headers : option Headers;
  ev_response_size : option Z;
  ev_response_body : option pystr
}.

(** The three closures that [page.on] subscribes; each captures the
    [session_id] and the [page] of the [_setup_*] call that made it. *)
Inductive Callback :=
  | ConsoleCallback (session_id : pystr) (page : nat)
  | RequestCallback (session_id : pystr) (page : nat)
  | ResponseCallback (session_id : pystr) (page : nat).

(** What the server keeps on a driver [Page] object: the attributes it set
    with [setattr] and the subscriptions it made with [page.on]. *)
Record PageObj := mk_page {
  attrs : gset string;
  subscriptions : list (string * Callback)
}.

Definition fresh_page : PageObj := mk_page ∅ [].

Record state := mk_state {
  _sessions : list (pystr * Session);
  _console_logs : gmap pystr (list ConsoleEntry);
  _network_events : gmap pystr (list NetEvent);
  pages : gmap nat PageObj
}.

(** The state of a freshly started server. *)
Definition initial_state : state := mk_state [] ∅ ∅ ∅.

Definition set_sessions (f : list (pystr * Session) → list (pystr * Session))
    (st : state) : state :=
  mk_state (f (_sessions st)) (_console_logs st) (_network_events st) (pages st).
Definition set_console_logs
    (f : gmap pystr (list ConsoleEntry) → gmap pystr (list ConsoleEntry))
    (st : state) : state :=
  mk_state (_sessions st) (f (_console_logs st)) (_network_events st) (pages st).
Definition set_network_events
    (f : gmap pystr (list NetEvent) → gmap pystr (list NetEvent))
    (st : state) : state :=
  mk_state (_sessions st) (_console_logs st) (f (_network_events st)) (pages st).
Definition set_pages (f : gmap nat PageObj → gmap nat PageObj)
    (st : state) : state :=
  mk_state (_sessions st) (_console_logs st) (_network_events st) (f (pages st)).

(** The object behind a page handle; a page the server never touched has no
    attribute of the server's and no subscription. *)
Definition page_obj (p : nat) (st : state) : PageObj :=
  default fresh_page (pages st !! p).

(** [hasattr(page, name)]. *)
Definition hasattr (p : nat) (name : string) (st : state) : bool :=
  bool_decide (name ∈ attrs (page_obj p st)).

(** [setattr(page, name, True)]. *)
Definition setattr (p : nat) (name : string) : M state unit :=
  modify (λ st, set_pages
    <[p := mk_page ({[name]} ∪ attrs (page_obj p st))
                   (subscriptions (page_obj p st))]> st).

(** [page.on(event, callback)]. *)
Definition page_on (p : nat) (event : string) (cb : Callback) : M state unit :=
  modify (λ st, set_pages
    <[p := mk_page (attrs (page_obj p st))
                   (subscriptions (page_obj p st) ++ [(event, cb)])]> st).

(** What the responses of a tool are made of. *)
Inductive Content :=
  | TextContent (text : pystr)
  | ImageContent (data : pystr) (mimeType : pystr).

(** ** base_handler.py *)

Module BaseToolHandler.

(** [_get_active_session]. The message of the error renders the mapping,
    which is empty whenever the error is raised. *)
Definition _get_active_session : M state (pystr * Session) :=
  sessions ← gets _sessions;
  if dict_empty sessions then
    raise (mk_exn ValueError
      (py "No active browser session(self._sessions={}). Please create a new session first."))
  else
    match list.last (dict_keys sessions) with
    | None => raise (mk_exn IndexError (py "list index out of range"))
    | Some session_id =>
        match dict_get session_id sessions with
        | None => raise (mk_exn KeyError session_id)
        | Some session => mret (session_id, session)
        end
    end.

(** [_get_active_page]. *)
Definition _get_active_page : M state nat :=
  '(_, session) ← _get_active_session;
  mret (page session).

End BaseToolHandler.

(** ** The browser driver *)

(** The answers of the driver to the calls a handler awaits: each either
    returns or raises. Handles of browsers and pages are object identities. *)
Record Driver := mk_driver {
  async_playwright_start : outcome unit;
  chromium_launch : outcome nat;
  browser_new_page : nat → outcome nat;
  uuid4 : pystr;
  page_goto : nat → pystr → outcome unit;
  page_evaluate : nat → option pystr → outcome pystr;
  page_unique_texts : nat → outcome (list pystr);
  locator_click : nat → option pystr → outcome unit;
  locator_click_text : nat → option pystr → outcome unit;
  locator_fill : nat → option pystr → option pystr → outcome unit;
  locator_inner_html : nat → option pystr → outcome pystr;
  take_screenshot : nat → option pystr → option pystr → outcome pystr;
  wait_for_new_page : nat → outcome nat;
  wait_for_load_state : nat → outcome unit
}.

(** A console message delivered by the driver. [msg.page] may be [None]. *)
Record ConsoleMessage := mk_msg {
  msg_type : pystr;
  msg_text : pystr;
  msg_page_url : option pystr;
  msg_lineNumber : option Z;
  msg_columnNumber : option Z
}.

(** A request delivered by the driver; [req_id] is [id(request)]. *)
Record Request := mk_request {
  req_id : Z;
  req_url : pystr;
  req_method : pystr;
  req_resource_type : pystr;
  req_all_headers : outcome Headers;
  req_post_data : outcome (option pystr)
}.

(** A response delivered by the driver; [resp_request_id] is
    [id(response.request)]. *)
Record Response := mk_response {
  resp_request_id : Z;
  resp_status : Z;
  resp_status_text : pystr;
  resp_all_headers : outcome Headers;
  resp_body : outcome (list byte)
}.

(** The [arguments] dictionary of a tool call, restricted to the keys the
    handlers read and typed as the tools' input schemas declare them. A field
    is [None] when the key is absent. *)
Record Arguments := mk_args {
  arg_url : option pystr;
  arg_name : option pystr;
  arg_selector : option pystr;
  arg_value : option pystr;
  arg_script : option pystr;
  arg_text : option pystr;
  arg_type : option pystr;
  arg_method : option pystr;
  arg_status_min : option Z;
  arg_status_max : option Z;
  arg_resource_type : option pystr;
  arg_limit : option Z;
  arg_show_headers : option bool;
  arg_show_body : option bool
}.

(** The empty dictionary [{}]. *)
Definition no_arguments : Arguments :=
  mk_args None None None None None None None None None None None None None None.

(** [key in d]. *)
Definition is_Some_b {A} (o : option A) : bool :=
  match o with Some _ => true | None => false end.

(** [if arguments:] holds for a non-empty dictionary. *)
Definition args_truthy (a : Arguments) : bool :=
  is_Some_b (arg_url a) || is_Some_b (arg_name a) || is_Some_b (arg_selector a)
  || is_Some_b (arg_value a) || is_Some_b (arg_script a) || is_Some_b (arg_text a)
  || is_Some_b (arg_type a) || is_Some_b (arg_method a)
  || is_Some_b (arg_status_min a) || is_Some_b (arg_status_max a)
  || is_Some_b (arg_resource_type a) || is_Some_b (arg_limit a)
  || is_Some_b (arg_show_headers a) || is_Some_b (arg_show_body a).

(** [str(x)] for a value that is an integer or [None]. *)
Definition str_opt_int (o : option Z) : pystr :=
  match o with Some n => str_int n | None => py "None" end.

(** ** console_log_handler.py *)

Module ConsoleLogHandler.

(** The closure [handle_console] made by [_setup_console_log_listener]. It has
    no exception handler of its own. *)
Definition handle_console (drv : Driver) (session_id : pystr) (page : nat)
    (msg : ConsoleMessage) : M state unit :=
  url ← match msg_page_url msg with
        | Some url => mret url
        | None => raise (mk_exn AttributeError
                    (py "'NoneType' object has no attribute 'url'"))
        end;
  timestamp ← await (page_evaluate drv page (Some (py "new Date().toISOString()")));
  let log_entry :=
    mk_log (msg_type msg) (msg_text msg) url
           (msg_lineNumber msg) (msg_columnNumber msg) timestamp in
  logs ← gets (λ st, _console_logs st !! session_id);
  match logs with
  | None => raise (mk_exn KeyError session_id)
  | Some logs =>
      modify (set_console_logs <[session_id := logs ++ [log_entry]]>)
  end.

(** [_setup_console_log_listener]. *)
Definition _setup_console_log_listener (page : nat) (session_id : pystr)
    : M state unit :=
  logs ← gets (λ st, _console_logs st !! session_id);
  (if logs is None then modify (set_console_logs <[session_id := []]>)
   else mret tt);;
  added ← gets (hasattr page "_console_listener_added");
  if negb added then
    page_on page "console" (ConsoleCallback session_id page);;
    setattr page "_console_listener_added"
  else mret tt.

(** The filter on the log type, applied only for a non-empty [type]. *)
Definition filter_logs (arguments : Arguments) (logs : list ConsoleEntry)
    : list ConsoleEntry :=
  let wanted := if args_truthy arguments then arg_type arguments else None in
  match wanted with
  | Some t =>
      if str_truthy t then filter (λ log, log_type log = t) logs else logs
  | None => logs
  end.

(** Filter, then [logs[-limit:]] with the default limit of 100. *)
Definition select_logs (arguments : Arguments) (logs : list ConsoleEntry)
    : list ConsoleEntry :=
  let logs := filter_logs arguments logs in
  let limit :=
    if args_truthy arguments then default 100 (arg_limit arguments) else 100 in
  slice_from (- limit) logs.

(** One line of the formatted result. *)
Definition format_log (log : ConsoleEntry) : pystr :=
  py "[" ++ log_timestamp log ++ py "] [" ++ log_type log ++ py "] "
  ++ log_text log
  ++ match log_lineNumber log with
     | Some n =>
         py " (at " ++ log_url log ++ py ":" ++ str_int n ++ py ":"
         ++ str_opt_int (log_columnNumber log) ++ py ")"
     | None => []
     end.

(** The body of [handle], inside its [try]. *)
Definition handle_body (arguments : Arguments) : M state (list Content) :=
  '(session_id, session) ← BaseToolHandler._get_active_session;
  let page := page session in
  _setup_console_log_listener page session_id;;
  logs ← gets (λ st, default [] (_console_logs st !! session_id));
  let logs := select_logs arguments logs in
  let formatted_logs := format_log <$> logs in
  let result :=
    match formatted_logs with
    | [] => py "No console logs available."
    | _ :: _ => str_join nl formatted_logs
    end in
  mret [TextContent result].

(** The [except] clauses of [handle]. *)
Definition except_clauses
    : list ((exn → bool) * (exn → M state (list Content))) :=
  [ (isinstance_ValueError, λ e, mret [TextContent (str_exn e)]);
    (isinstance_Exception, λ e,
       mret [TextContent (py "Error retrieving console logs: " ++ str_exn e)]) ].

(** [handle]. *)
Definition handle (arguments : Arguments) : M state (list Content) :=
  try_except (handle_body arguments) except_clauses.

End ConsoleLogHandler.

(** ** Renderings done by libraries

    The exact text of [repr] of a string, of the [repr] of a list of content
    objects and of [json.dumps(json.loads(s), indent=2)] belongs to the Python
    runtime and to the libraries; the handlers only splice it into their
    results. *)
Class Render := {
  repr_str : pystr → pystr;
  repr_contents : list Content → pystr;
  json_pretty : pystr → option pystr
}.

(** [headers.get(key, default)]. *)
Definition headers_get (key : pystr) (dflt : pystr) (h : Headers) : pystr :=
  default dflt (dict_get key h).

(** ** network_handler.py *)

Module NetworkHandler.

(** The closure [handle_request] made by [_setup_network_listener]. *)
Definition handle_request (drv : Driver) (session_id : pystr) (page : nat)
    (request : Request) : M state unit :=
  try_except
    (headers ← await (req_all_headers request);
     post_data ← try_except (await (req_post_data request))
                   [ (bare, λ _, mret None) ];
     timestamp ← await (page_evaluate drv page (Some (py "new Date().toISOString()")));
     let request_data :=
       mk_event (req_id request) (py "request") (req_url request)
                (req_method request) headers post_data
                (req_resource_type request) timestamp
                None None None None None in
     events ← gets (λ st, _network_events st !! session_id);
     match events with
     | None => raise (mk_exn KeyError session_id)
     | Some events =>
         modify (set_network_events <[session_id := events ++ [request_data]]>)
     end)
    [ (isinstance_Exception, λ _, mret tt) ].

(** A mutation of the event object at position [i] of a session's list: the
    list holds the object itself, so the change is seen through the list. *)
Definition update_event (session_id : pystr) (i : nat)
    (f : NetEvent → NetEvent) : M state unit :=
  modify (set_network_events (alter (alter f i) session_id)).

(** [event.update({"status": ..., "status_text": ..., "response_headers": ...})]. *)
Definition set_response (status : Z) (status_text : pystr) (headers : Headers)
    (event : NetEvent) : NetEvent :=
  mk_event (ev_id event) (ev_type event) (ev_url event) (ev_method event)
           (ev_headers event) (ev_post_data event) (ev_resource_type event)
           (ev_timestamp event)
           (Some status) (Some status_text) (Some headers)
           (ev_response_size event) (ev_response_body event).

(** [event["response_size"] = size]. *)
Definition set_response_size (size : Z) (event : NetEvent) : NetEvent :=
  mk_event (ev_id event) (ev_type event) (ev_url event) (ev_method event)
           (ev_headers event) (ev_post_data event) (ev_resource_type event)
           (ev_timestamp event)
           (ev_status event) (ev_status_text event) (ev_response_headers event)
           (Some size) (ev_response_body event).

(** [event["response_body"] = text]. *)
Definition set_response_body (text : pystr) (event : NetEvent) : NetEvent :=
  mk_event (ev_id event) (ev_type event) (ev_url event) (ev_method event)
           (ev_headers event) (ev_post_data event) (ev_resource_type event)
           (ev_timestamp event)
           (ev_status event) (ev_status_text event) (ev_response_headers event)
           (ev_response_size event) (Some text).

(** The test on the content type that lets a body be kept. *)
Definition textual (content_type : pystr) : bool :=
  str_in (py "json") content_type || str_in (py "text") content_type
  || str_in (py "javascript") content_type || str_in (py "css") content_type.

(** The closure [handle_response] made by [_setup_network_listener]: the loop
    stops at the first event whose [id] is that of the response's request. *)
Definition handle_response (session_id : pystr) (response : Response)
    : M state unit :=
  try_except
    (let request_id := resp_request_id response in
     events ← gets (λ st, _network_events st !! session_id);
     match events with
     | None => raise (mk_exn KeyError session_id)
     | Some events =>
         match list_find (λ event, ev_id event = request_id) events with
         | None => mret tt
         | Some (i, _) =>
             headers ← await (resp_all_headers response);
             update_event session_id i
               (set_response (resp_status response)
                             (resp_status_text response) headers);;
             try_except
               (body ← await (resp_body response);
                update_event session_id i
                  (set_response_size (Z.of_nat (length body)));;
                let content_type := headers_get (py "content-type") [] headers in
                if (Z.of_nat (length body) <? 10240) && textual content_type
                then
                  try_except
                    (match decode_utf8 body with
                     | Some text =>
                         update_event session_id i (set_response_body text)
                     | None =>
                         raise (mk_exn UnicodeDecodeError
                                  (py "'utf-8' codec can't decode bytes"))
                     end)
                    [ (bare, λ _, mret tt) ]
                else mret tt)
               [ (bare, λ _, mret tt) ]
         end
     end)
    [ (isinstance_Exception, λ _, mret tt) ].

(** [_setup_network_listener]. *)
Definition _setup_network_listener (page : nat) (session_id : pystr)
    : M state unit :=
  events ← gets (λ st, _network_events st !! session_id);
  (if events is None then modify (set_network_events <[session_id := []]>)
   else mret tt);;
  added ← gets (hasattr page "_network_listener_added");
  if negb added then
    page_on page "request" (RequestCallback session_id page);;
    page_on page "response" (ResponseCallback session_id page);;
    setattr page "_network_listener_added"
  else mret tt.

(** [e["status"] is not None and e["status"] >= status_min]. *)
Definition status_ge (status_min : Z) (e : NetEvent) : bool :=
  match ev_status e with Some s => status_min <=? s | None => false end.

(** [e["status"] is not None and e["status"] <= status_max]. *)
Definition status_le (status_max : Z) (e : NetEvent) : bool :=
  match ev_status e with Some s => s <=? status_max | None => false end.

(** The filters of [handle], applied one after the other. *)
Definition filter_events (arguments : Arguments) (events : list NetEvent)
    : list NetEvent :=
  if args_truthy arguments then
    let events :=
      match arg_url arguments with
      | Some url_filter =>
          if str_truthy url_filter
          then filter (λ e, str_in url_filter (ev_url e)) events else events
      | None => events
      end in
    let events :=
      match arg_method arguments with
      | Some method_filter =>
          if str_truthy method_filter
          then filter (λ e, ev_method e = method_filter) events else events
      | None => events
      end in
    let events :=
      match arg_status_min arguments with
      | Some status_min => filter (λ e, status_ge status_min e) events
      | None => events
      end in
    let events :=
      match arg_status_max arguments with
      | Some status_max => filter (λ e, status_le status_max e) events
      | None => events
      end in
    match arg_resource_type arguments with
    | Some resource_type =>
        if str_truthy resource_type
        then filter (λ e, ev_resource_type e = resource_type) events else events
    | None => events
    end
  else events.

(** Filter, then [events[-limit:]] with the default limit of 50. *)
Definition select_events (arguments : Arguments) (events : list NetEvent)
    : list NetEvent :=
  let events := filter_events arguments events in
  let limit :=
    if args_truthy arguments then default 50 (arg_limit arguments) else 50 in
  slice_from (- limit) events.

(** [f"    {key}: {value}"] for every header. *)
Definition format_headers (h : Headers) : list pystr :=
  (λ kv, py "    " ++ kv.1 ++ py ": " ++ kv.2) <$> h.

(** The [except] clauses of [handle]. *)
Definition except_clauses
    : list ((exn → bool) * (exn → M state (list Content))) :=
  [ (isinstance_ValueError, λ e, mret [TextContent (str_exn e)]);
    (isinstance_Exception, λ e,
       mret [TextContent
               (py "Error retrieving network activity: " ++ str_exn e)]) ].

Section format.
Context `{Render}.

  (** The lines that show a response body. *)
Definition format_body (event : NetEvent) (body : pystr) : list pystr :=
    let body :=
      match ev_response_headers event with
      | Some h =>
          if str_in (py "json") (headers_get (py "content-type") [] h)
          then default body (json_pretty body) else body
      | None => body
      end in
    let body :=
      if (1000 <? length body)%nat
      then slice_to 1000 body ++ py "... [truncated]" else body in
    (λ line, py "    " ++ line) <$> split_lines body.

  (** The lines of the result for one event. *)
Definition format_event (arguments : Arguments) (event : NetEvent)
      : list pystr :=
    let entry :=
      py "[" ++ ev_timestamp event ++ py "] " ++ ev_method event ++ py " "
      ++ ev_url event ++ py " (" ++ ev_resource_type event ++ py ")" in
    let entry :=
      match ev_status event with
      | Some status =>
          entry ++ py " - Status: " ++ str_int status ++ py " "
          ++ default (py "None") (ev_status_text event)
      | None => entry
      end in
    let entry :=
      match ev_response_size event with
      | Some size => entry ++ py ", Size: " ++ str_int size ++ py " bytes"
      | None => entry
      end in
    [entry]
    ++ (if args_truthy arguments && default false (arg_show_headers arguments)
        then
          (match ev_headers event with
           | [] => []
           | h => py "  Request Headers:" :: format_headers h
           end)
          ++ (match ev_response_headers event with
              | None | Some [] => []
              | Some h => py "  Response Headers:" :: format_headers h
              end)
        else [])
    ++ (if args_truthy arguments && default false (arg_show_body arguments)
           && opt_truthy (ev_response_body event)
        then py "  Response Body:"
             :: format_body event (default [] (ev_response_body event))
        else []).

  (** The body of [handle], inside its [try]. *)
Definition handle_body (arguments : Arguments) : M state (list Content) :=
    '(session_id, session) ← BaseToolHandler._get_active_session;
    let page := page session in
    _setup_network_listener page session_id;;
    events ← gets (λ st, default [] (_network_events st !! session_id));
    let events := select_events arguments events in
    let result := mjoin (format_event arguments <$> events) in
    let formatted_result :=
      match result with
      | [] => py "No network activity recorded."
      | _ :: _ => str_join nl result
      end in
    mret [TextContent formatted_result].

  (** [handle]. *)
Definition handle (arguments : Arguments) : M state (list Content) :=
    try_except (handle_body arguments) except_clauses.
End format.

End NetworkHandler.

(** ** session_initializer.py *)

Module SessionInitializer.

(** [initialize_session]; [handlers] is the list of keys of the dictionary of
    handlers that is passed in, every handler object being truthy. *)
Definition initialize_session (session_id : pystr) (page : nat)
    (handlers : list pystr) : M state unit :=
  let console_handler :=
    bool_decide (py "playwright_get_console_logs" ∈ handlers) in
  let network_handler :=
    bool_decide (py "playwright_get_network_activity" ∈ handlers) in
  (if console_handler
   then ConsoleLogHandler._setup_console_log_listener page session_id
   else mret tt);;
  (if network_handler
   then NetworkHandler._setup_network_listener page session_id
   else mret tt).

End SessionInitializer.

(** ** server.py *)

(** The keys of the module-level dictionary [tool_handlers], in the order of
    its display. *)
Definition tool_names : list pystr :=
  [ py "playwright_navigate"; py "playwright_screenshot";
    py "playwright_click"; py "playwright_fill"; py "playwright_evaluate";
    py "playwright_click_text"; py "playwright_get_text_content";
    py "playwright_get_html_content"; py "playwright_new_session";
    py "playwright_get_console_logs"; py "playwright_get_network_activity" ].

(** The response of the handlers of server.py when the mapping is empty. *)
Definition no_active_session : list Content :=
  [TextContent (py "No active session. Please create a new session first.")].

(** [session_id = list(self._sessions.keys())[-1]] followed by
    [page = self._sessions[session_id]["page"]]. *)
Definition last_session_page : M state (pystr * nat) :=
  sessions ← gets _sessions;
  match list.last (dict_keys sessions) with
  | None => raise (mk_exn IndexError (py "list index out of range"))
  | Some session_id =>
      match dict_get session_id sessions with
      | None => raise (mk_exn KeyError session_id)
      | Some session => mret (session_id, page session)
      end
  end.

(** The opening of the handlers of server.py: the textual answer when the
    mapping is empty, and otherwise the rest of the handler on the page of the
    last session. *)
Definition with_active_page (rest : pystr → nat → M state (list Content))
    : M state (list Content) :=
  sessions ← gets _sessions;
  if dict_empty sessions then mret no_active_session
  else '(session_id, page) ← last_session_page; rest session_id page.

(** [self._sessions[session_id]["page"] = new_page]. *)
Definition set_session_page (session_id : pystr) (new_page : nat)
    : M state unit :=
  sessions ← gets _sessions;
  match dict_get session_id sessions with
  | None => raise (mk_exn KeyError session_id)
  | Some session =>
      modify (set_sessions
                (dict_set session_id (mk_session (browser session) new_page)))
  end.

(** The decorator [update_page_after_click]: the wait for a new page is armed
    on the page that is current before [func] runs. *)
Definition update_page_after_click (drv : Driver)
    (func : Arguments → M state (list Content)) (arguments : Arguments)
    : M state (list Content) :=
  with_active_page (λ session_id page,
    result ← func arguments;
    try_except
      (new_page ← await (wait_for_new_page drv page);
       await (wait_for_load_state drv new_page);;
       set_session_page session_id new_page)
      [ (bare, λ _, mret tt) ];;
    mret result).

(** [if not url.startswith("http://") and not url.startswith("https://"):
    url = "https://" + url]. *)
Definition normalize_url (url : pystr) : pystr :=
  if negb (startswith url (py "http://")) && negb (startswith url (py "https://"))
  then py "https://" ++ url else url.

Module NewSessionToolHandler.
Section handle.
Context `{Render}.

Definition handle (drv : Driver) (arguments : Arguments)
      : M state (list Content) :=
    await (async_playwright_start drv);;
    browser ← await (chromium_launch drv);
    page ← await (browser_new_page drv browser);
    let session_id := uuid4 drv in
    modify (set_sessions (dict_set session_id (mk_session browser page)));;
    SessionInitializer.initialize_session session_id page tool_names;;
    let url := arg_url arguments in
    url ← (if opt_truthy url then
             let url := normalize_url (default [] url) in
             await (page_goto drv page url);; mret (Some url)
           else mret url);
    count ← gets (λ st, length (_sessions st));
    mret [TextContent
            (py "session_id=" ++ repr_str session_id ++ py " New session (url="
             ++ from_option repr_str (py "None") url ++ py ") created.("
             ++ str_int (Z.of_nat count) ++ py ")")].
End handle.
End NewSessionToolHandler.

Module GetTextContentToolHandler.
Section handle.
Context `{Render}.

  (** [str] of the list of strings that the page script returns. *)
Definition str_texts (texts : list pystr) : pystr :=
    py "[" ++ str_join (py ", ") (repr_str <$> texts) ++ py "]".

Definition handle (drv : Driver) (arguments : Arguments)
      : M state (list Content) :=
    with_active_page (λ session_id page,
      text_contents ← await (page_unique_texts drv page);
      mret [TextContent
              (py "Text content of all elements: " ++ str_texts text_contents)]).
End handle.
End GetTextContentToolHandler.

Module NavigateToolHandler.
Section handle.
Context `{Render}.

Definition handle (drv : Driver) (arguments : Arguments)
      : M state (list Content) :=
    sessions ← gets _sessions;
    (if dict_empty sessions
     then NewSessionToolHandler.handle drv no_arguments;; mret tt
     else mret tt);;
    '(session_id, page) ← last_session_page;
    url ← match arg_url arguments with
          | Some url => mret url
          | None => raise (mk_exn AttributeError
                      (py "'NoneType' object has no attribute 'startswith'"))
          end;
    let url := normalize_url url in
    await (page_goto drv page url);;
    text_content ← GetTextContentToolHandler.handle drv no_arguments;
    mret [TextContent
            (py "session_id=" ++ repr_str session_id ++ py " Navigated to "
             ++ url ++ nl ++ py "page_text_content[:200]:" ++ nl ++ nl
             ++ repr_contents (slice_to 200 text_content))].
End handle.
End NavigateToolHandler.

Module ScreenshotToolHandler.
  (** The screenshot, the reading and the removal of the file and the base64
      encoding are one answer of the oracle. *)
Definition handle (drv : Driver) (arguments : Arguments)
      : M state (list Content) :=
    with_active_page (λ session_id page,
      let name := arg_name arguments in
      let selector := arg_selector arguments in
      encoded_string ← await (take_screenshot drv page selector name);
      mret [ImageContent encoded_string (py "image/png")]).
End ScreenshotToolHandler.

Module ClickToolHandler.
Definition handle_inner (drv : Driver) (arguments : Arguments)
      : M state (list Content) :=
    with_active_page (λ session_id page,
      let selector := arg_selector arguments in
      await (locator_click drv page selector);;
      mret [TextContent (py "Clicked element with selector "
                         ++ default (py "None") selector)]).

Definition handle (drv : Driver) (arguments : Arguments)
      : M state (list Content) :=
    update_page_after_click drv (handle_inner drv) arguments.
End ClickToolHandler.

Module FillToolHandler.
Definition handle (drv : Driver) (arguments : Arguments)
      : M state (list Content) :=
    with_active_page (λ session_id page,
      let selector := arg_selector arguments in
      let value := arg_value arguments in
      await (locator_fill drv page selector value);;
      mret [TextContent (py "Filled element with selector "
                         ++ default (py "None") selector ++ py " with value "
                         ++ default (py "None") value)]).
End FillToolHandler.

Module EvaluateToolHandler.
  (** The oracle answers with [str] of the value of the script. *)
Definition handle (drv : Driver) (arguments : Arguments)
      : M state (list Content) :=
    with_active_page (λ session_id page,
      let script := arg_script arguments in
      result ← await (page_evaluate drv page script);
      mret [TextContent (py "Evaluated script, result: " ++ result)]).
End EvaluateToolHandler.

Module ClickTextToolHandler.
Definition handle_inner (drv : Driver) (arguments : Arguments)
      : M state (list Content) :=
    with_active_page (λ session_id page,
      let text := arg_text arguments in
      await (locator_click_text drv page text);;
      mret [TextContent (py "Clicked element with text "
                         ++ default (py "None") text)]).

Definition handle (drv : Driver) (arguments : Arguments)
      : M state (list Content) :=
    update_page_after_click drv (handle_inner drv) arguments.
End ClickTextToolHandler.

Module GetHtmlContentToolHandler.
Definition handle (drv : Driver) (arguments : Arguments)
      : M state (list Content) :=
    with_active_page (λ session_id page,
      let selector := arg_selector arguments in
      html_content ← await (locator_inner_html drv page selector);
      mret [TextContent (py "HTML content of element with selector "
                         ++ default (py "None") selector ++ py ": "
                         ++ html_content)]).
End GetHtmlContentToolHandler.

Section dispatch.
Context `{Render}.

  (** The module-level dictionary [tool_handlers]. *)
Definition tool_handlers
      : list (pystr * (Driver → Arguments → M state (list Content))) :=
    [ (py "playwright_navigate", NavigateToolHandler.handle);
      (py "playwright_screenshot", ScreenshotToolHandler.handle);
      (py "playwright_click", ClickToolHandler.handle);
      (py "playwright_fill", FillToolHandler.handle);
      (py "playwright_evaluate", EvaluateToolHandler.handle);
      (py "playwright_click_text", ClickTextToolHandler.handle);
      (py "playwright_get_text_content", GetTextContentToolHandler.handle);
      (py "playwright_get_html_content", GetHtmlContentToolHandler.handle);
      (py "playwright_new_session", NewSessionToolHandler.handle);
      (py "playwright_get_console_logs", λ _, ConsoleLogHandler.handle);
      (py "playwright_get_network_activity", λ _, NetworkHandler.handle) ].

  (** [handle_call_tool]. *)
Definition handle_call_tool (drv : Driver) (name : pystr)
      (arguments : Arguments) : M state (list Content) :=
    match dict_get name tool_handlers with
    | Some handler => handler drv arguments
    | None => raise (mk_exn ValueError (py "Unknown tool: " ++ name))
    end.
End dispatch.

(** ** Delivery of browser events to the subscriptions *)

Inductive BrowserEvent :=
  | ConsoleEvent (msg : ConsoleMessage)
  | RequestEvent (request : Request)
  | ResponseEvent (response : Response).

(** The event name under which the driver delivers an event. *)
Definition event_name (ev : BrowserEvent) : string :=
  match ev with
  | ConsoleEvent _ => "console"
  | RequestEvent _ => "request"
  | ResponseEvent _ => "response"
  end.

(** The call of a subscribed closure on the event it is subscribed to. *)
Definition invoke (drv : Driver) (cb : Callback) (ev : BrowserEvent)
    : M state unit :=
  match cb, ev with
  | ConsoleCallback session_id page, ConsoleEvent msg =>
      ConsoleLogHandler.handle_console drv session_id page msg
  | RequestCallback session_id page, RequestEvent request =>
      NetworkHandler.handle_request drv session_id page request
  | ResponseCallback session_id _, ResponseEvent response =>
      NetworkHandler.handle_response session_id response
  | _, _ => mret tt
  end.

(** The driver calls, in the order of subscription, every closure subscribed
    on the page under the name of the event; the exceptions that escape the
    closures are collected. *)
Fixpoint deliver (drv : Driver) (subs : list (string * Callback))
    (ev : BrowserEvent) (st : state) : state * list exn :=
  match subs with
  | [] => (st, [])
  | (name, cb) :: subs' =>
      if bool_decide (name = event_name ev) then
        match invoke drv cb ev st with
        | (st', Ok _) => deliver drv subs' ev st'
        | (st', Raise e) =>
            let '(st'', escaped) := deliver drv subs' ev st' in
            (st'', e :: escaped)
        end
      else deliver drv subs' ev st
  end.

Definition emit (drv : Driver) (page : nat) (ev : BrowserEvent) (st : state)
    : state * list exn :=
  deliver drv (subscriptions (page_obj page st)) ev st.

(** ** Runs and predicates used in the statements *)

Section runs.
Context `{Render}.

(** A sequence of calls of the tool that creates sessions, each with the
    answers of the driver to it. *)
Definition run_sessions (calls : list (Driver * Arguments)) (st : state)
    : state :=
  foldl (λ st c, (NewSessionToolHandler.handle c.1 c.2 st).1) st calls.

End runs.

(** A filter on a string field passes everything when it is absent or empty. *)
Definition field_matches (wanted : option pystr) (x : pystr) : bool :=
  match wanted with
  | Some t => if str_truthy t then bool_decide (x = t) else true
  | None => true
  end.

(** The filter of the console query, as one predicate on a log entry. *)
Definition log_matches (arguments : Arguments) (log : ConsoleEntry) : bool :=
  field_matches (arg_type arguments) (log_type log).

(** The filters of the network query, as one conjunction on an event. *)
Definition event_matches (arguments : Arguments) (e : NetEvent) : bool :=
  match arg_url arguments with
  | Some u => if str_truthy u then str_in u (ev_url e) else true
  | None => true
  end
  && field_matches (arg_method arguments) (ev_method e)
  && match arg_status_min arguments with
     | Some m => NetworkHandler.status_ge m e
     | None => true
     end
  && match arg_status_max arguments with
     | Some m => NetworkHandler.status_le m e
     | None => true
     end
  && field_matches (arg_resource_type arguments) (ev_resource_type e).

(** The last [n] elements of a list, in their order. *)
Definition lastn {A} (n : nat) (l : list A) : list A :=
  drop (length l - n) l.

(** The calls that attach listeners to a page. *)
Inductive AttachCall :=
  | InitializeSession (session_id : pystr)
  | SetupConsoleLogListener (session_id : pystr)
  | SetupNetworkListener (session_id : pystr).

Definition attach (page : nat) (c : AttachCall) : M state unit :=
  match c with
  | InitializeSession session_id =>
      SessionInitializer.initialize_session session_id page tool_names
  | SetupConsoleLogListener session_id =>
      ConsoleLogHandler._setup_console_log_listener page session_id
  | SetupNetworkListener session_id =>
      NetworkHandler._setup_network_listener page session_id
  end.

Definition attach_all (page : nat) (calls : list AttachCall) (st : state)
    : state :=
  foldl (λ st c, (attach page c st).1) st calls.

(** The session of the first call that sets up the console listener. *)
Fixpoint first_console (calls : list AttachCall) : option pystr :=
  match calls with
  | [] => None
  | InitializeSession sid :: _ | SetupConsoleLogListener sid :: _ => Some sid
  | SetupNetworkListener _ :: calls' => first_console calls'
  end.

(** The session of the first call that sets up the network listeners. *)
Fixpoint first_network (calls : list AttachCall) : option pystr :=
  match calls with
  | [] => None
  | InitializeSession sid :: _ | SetupNetworkListener sid :: _ => Some sid
  | SetupConsoleLogListener _ :: calls' => first_network calls'
  end.

(** The subscriptions of a page under one event name. *)
Definition subscribed (name : string) (page : nat) (st : state)
    : list (string * Callback) :=
  filter (λ s, s.1 = name) (subscriptions (page_obj page st)).

(** The event at the matched position once [handle_response] has run, when
    the driver has returned [headers]: the three response fields are set,
    then the size if the body can be read, then the text of the body if it is
    small, textual and decodes. *)
Definition patched (response : Response) (headers : Headers)
    (event : NetEvent) : NetEvent :=
  let event :=
    NetworkHandler.set_response (resp_status response)
      (resp_status_text response) headers event in
  match resp_body response with
  | Raise _ => event
  | Ok body =>
      let event :=
        NetworkHandler.set_response_size (Z.of_nat (length body)) event in
      if (Z.of_nat (length body) <? 10240)
         && NetworkHandler.textual (headers_get (py "content-type") [] headers)
      then match decode_utf8 body with
           | Some text => NetworkHandler.set_response_body text event
           | None => event
           end
      else event
  end.

(** The bucket of a session, made empty when the session has none. *)
Definition ensure_logs (sid : pystr) (st : state) : state :=
  if _console_logs st !! sid is None then set_console_logs <[sid := []]> st else st.

(** The same for the network events. *)
Definition ensure_events (sid : pystr) (st : state) : state :=
  if _network_events st !! sid is None then set_network_events <[sid := []]> st else st.

(** The state of the console instrumentation of page [p]: [o] is the session
    the console closure was made for, if the page has one. *)
Definition console_inv (p : nat) (o : option pystr) (st : state) : Prop :=
  hasattr p "_console_listener_added" st = is_Some_b o
  ∧ subscribed "console" p st
    = match o with Some sid => [("console", ConsoleCallback sid p)] | None => [] end
  ∧ match o with Some sid => is_Some (_console_logs st !! sid) | None => True end.

(** The state of the network instrumentation of page [p]. *)
Definition network_inv (p : nat) (o : option pystr) (st : state) : Prop :=
  hasattr p "_network_listener_added" st = is_Some_b o
  ∧ subscribed "request" p st
    = match o with Some sid => [("request", RequestCallback sid p)] | None => [] end
  ∧ subscribed "response" p st
    = match o with Some sid => [("response", ResponseCallback sid p)] | None => [] end.

(** The tools that act on the page of the active session. *)
Definition page_tools : list pystr :=
  [ py "playwright_screenshot"; py "playwright_click"; py "playwright_fill";
    py "playwright_evaluate"; py "playwright_click_text";
    py "playwright_get_text_content"; py "playwright_get_html_content" ].

(** The tools that read the logs of the active session. *)
Definition log_tools : list pystr :=
  [ py "playwright_get_console_logs"; py "playwright_get_network_activity" ].

(** ** Sample data for the concrete evaluations *)

(** A rendering that quotes without escaping. *)
Definition plain_render : Render := {|
  repr_str s := py "'" ++ s ++ py "'";
  repr_contents cs :=
    py "["
    ++ str_join (py ", ")
         ((λ c, match c with
                | TextContent t => py "TextContent(type='text', text='" ++ t ++ py "')"
                | ImageContent _ m => py "ImageContent(type='image', mimeType='" ++ m ++ py "')"
                end) <$> cs)
    ++ py "]";
  json_pretty _ := None
|}.

(** A driver whose calls all succeed; no new page opens after a click. *)
Definition sample_driver (session_id : pystr) (browser page : nat) : Driver := {|
  async_playwright_start := Ok tt;
  chromium_launch := Ok browser;
  browser_new_page _ := Ok page;
  uuid4 := session_id;
  page_goto _ _ := Ok tt;
  page_evaluate _ _ := Ok (py "2024-05-01T10:00:00.000Z");
  page_unique_texts _ := Ok [py "Example Domain"];
  locator_click _ _ := Ok tt;
  locator_click_text _ _ := Ok tt;
  locator_fill _ _ _ := Ok tt;
  locator_inner_html _ _ := Ok (py "<h1>Example Domain</h1>");
  take_screenshot _ _ _ := Ok (py "iVBORw0KGgo=");
  wait_for_new_page _ := Raise (mk_exn TimeoutError (py "Timeout 3000ms exceeded."));
  wait_for_load_state _ := Ok tt
|}.

(** The failure of a script evaluation in a page that is navigating. *)
Definition context_destroyed : exn :=
  mk_exn PlaywrightError (py "Execution context was destroyed").

(** A driver whose [page.evaluate] fails. *)
Definition failing_driver : Driver := {|
  async_playwright_start := Ok tt;
  chromium_launch := Ok 1%nat;
  browser_new_page _ := Ok 2%nat;
  uuid4 := py "sid-1";
  page_goto _ _ := Ok tt;
  page_evaluate _ _ := Raise context_destroyed;
  page_unique_texts _ := Ok [py "Example Domain"];
  locator_click _ _ := Ok tt;
  locator_click_text _ _ := Ok tt;
  locator_fill _ _ _ := Ok tt;
  locator_inner_html _ _ := Ok (py "<h1>Example Domain</h1>");
  take_screenshot _ _ _ := Ok (py "iVBORw0KGgo=");
  wait_for_new_page _ := Raise (mk_exn TimeoutError (py "Timeout 3000ms exceeded."));
  wait_for_load_state _ := Ok tt
|}.

(** A page text of 300 characters. *)
Definition long_text : pystr := replicate 300 97%N.

(** A driver whose page shows [long_text]. *)
Definition long_page_driver : Driver := {|
  async_playwright_start := Ok tt;
  chromium_launch := Ok 1%nat;
  browser_new_page _ := Ok 2%nat;
  uuid4 := py "sid-1";
  page_goto _ _ := Ok tt;
  page_evaluate _ _ := Ok (py "2024-05-01T10:00:00.000Z");
  page_unique_texts _ := Ok [long_text];
  locator_click _ _ := Ok tt;
  locator_click_text _ _ := Ok tt;
  locator_fill _ _ _ := Ok tt;
  locator_inner_html _ _ := Ok (py "<p>a</p>");
  take_screenshot _ _ _ := Ok (py "iVBORw0KGgo=");
  wait_for_new_page _ := Raise (mk_exn TimeoutError (py "Timeout 3000ms exceeded."));
  wait_for_load_state _ := Ok tt
|}.

(** The state after one session was created on page 2 of browser 1. *)
Definition one_session : state :=
  (NewSessionToolHandler.handle (H := plain_render)
     (sample_driver (py "sid-1") 1 2) no_arguments initial_state).1.

Definition url_arguments (url : pystr) : Arguments :=
  mk_args (Some url) None None None None None None None None None None None
          None None.

Definition script_arguments (script : pystr) : Arguments :=
  mk_args None None None None (Some script) None None None None None None None
          None None.

Definition limit_arguments (type : option pystr) (limit : Z) : Arguments :=
  mk_args None None None None None None type None None None None (Some limit)
          None None.

Definition status_arguments (status_min : Z) : Arguments :=
  mk_args None None None None None None None None (Some status_min) None None
          None None None.

Definition sample_message : ConsoleMessage :=
  mk_msg (py "log") (py "ready") (Some (py "https://example.com/")) None None.

Definition sample_log (type text : pystr) : ConsoleEntry :=
  mk_log type text (py "https://example.com/") None None
         (py "2024-05-01T10:00:00.000Z").

Definition sample_event (id : Z) (status : option Z) : NetEvent :=
  mk_event id (py "request") (py "https://example.com/") (py "GET") [] None
           (py "document") (py "2024-05-01T10:00:00.000Z")
           status ((λ _, py "OK") <$> status) ((λ _, []) <$> status)
           None None.

Definition sample_request (id : Z) : Request :=
  mk_request id (py "https://example.com/") (py "GET") (py "document")
             (Ok [(py "accept", py "*/*")]) (Ok None).

Definition sample_response (id : Z) (content_type : pystr) (body : list byte)
    : Response :=
  mk_response id 200 (py "OK") (Ok [(py "content-type", content_type)]) (Ok body).


(** ** More predicates used in the statements *)

(** The session a closure was made for. *)
Definition callback_session (cb : Callback) : pystr :=
  match cb with
  | ConsoleCallback sid _ | RequestCallback sid _ | ResponseCallback sid _ => sid
  end.

(** The fields of a network event that [handle_request] writes. *)
Definition request_part (e : NetEvent)
    : Z * pystr * pystr * pystr * Headers * option pystr * pystr * pystr :=
  (ev_id e, ev_type e, ev_url e, ev_method e, ev_headers e, ev_post_data e,
   ev_resource_type e, ev_timestamp e).

(** What the delivery of browser events may do to the state: the sessions and
    the pages stay, no list of a session disappears, every console log is
    extended at its end and every list of network events keeps the request
    parts it has, in their order, and is extended at its end. *)
Definition recorded_grows (st st' : state) : Prop :=
  _sessions st' = _sessions st
  ∧ pages st' = pages st
  ∧ (∀ sid logs, _console_logs st !! sid = Some logs →
       ∃ logs', _console_logs st' !! sid = Some logs' ∧ logs `prefix_of` logs')
  ∧ (∀ sid events, _network_events st !! sid = Some events →
       ∃ events', _network_events st' !! sid = Some events'
                  ∧ request_part <$> events `prefix_of` request_part <$> events').

(** Every response body that is stored is shorter than the bound of
    [handle_response]. *)
Definition bodies_small (st : state) : Prop :=
  ∀ sid events e text,
    _network_events st !! sid = Some events → e ∈ events →
    ev_response_body e = Some text → Z.of_nat (length text) < 10240.

(** What a tool call may do to the recorded logs and events: the list of a
    session is left as it is, or an empty one is made for a session that had
    none. *)
Definition records_kept (st st' : state) : Prop :=
  (∀ sid, _console_logs st' !! sid = _console_logs st !! sid
          ∨ (_console_logs st !! sid = None ∧ _console_logs st' !! sid = Some []))
  ∧ (∀ sid, _network_events st' !! sid = _network_events st !! sid
            ∨ (_network_events st !! sid = None
               ∧ _network_events st' !! sid = Some [])).

(** ** The listing of the tools (server.py, [handle_list_tools]) *)

(** The schema of one argument: its ["type"] and, when given, its
    ["description"]. *)
Record PropertySchema := mk_property {
  property_type : pystr;
  property_description : option pystr
}.

(** An [inputSchema]: the ["type"], the ["properties"] in the order of the
    display and the ["required"] list, [None] when the key is absent. *)
Record InputSchema := mk_schema {
  schema_type : pystr;
  schema_properties : list (pystr * PropertySchema);
  schema_required : option (list pystr)
}.

(** [types.Tool(name=..., description=..., inputSchema=...)]. *)
Record Tool := mk_tool {
  tool_name : pystr;
  tool_description : pystr;
  inputSchema : InputSchema
}.

(** [handle_list_tools]. *)
Definition handle_list_tools : list Tool :=
  [ mk_tool (py "playwright_new_session") (py "Create a new browser session")
      (mk_schema (py "object")
         [ (py "url", mk_property (py "string")
                        (Some (py "Initial URL to navigate to"))) ]
         None);
    mk_tool (py "playwright_navigate")
      (py "Navigate to a URL, this op will auto create a session")
      (mk_schema (py "object")
         [ (py "url", mk_property (py "string") None) ]
         (Some [py "url"]));
    mk_tool (py "playwright_screenshot")
      (py "Take a screenshot of the current page or a specific element")
      (mk_schema (py "object")
         [ (py "name", mk_property (py "string") None);
           (py "selector",
            mk_property (py "string")
              (Some (py "CSS selector for element to screenshot, null is full page"))) ]
         (Some [py "name"]));
    mk_tool (py "playwright_click")
      (py "Click an element on the page using CSS selector")
      (mk_schema (py "object")
         [ (py "selector", mk_property (py "string")
                             (Some (py "CSS selector for element to click"))) ]
         (Some [py "selector"]));
    mk_tool (py "playwright_fill") (py "Fill out an input field")
      (mk_schema (py "object")
         [ (py "selector", mk_property (py "string")
                             (Some (py "CSS selector for input field")));
           (py "value", mk_property (py "string") (Some (py "Value to fill"))) ]
         (Some [py "selector"; py "value"]));
    mk_tool (py "playwright_evaluate")
      (py "Execute JavaScript in the browser console")
      (mk_schema (py "object")
         [ (py "script", mk_property (py "string")
                           (Some (py "JavaScript code to execute"))) ]
         (Some [py "script"]));
    mk_tool (py "playwright_click_text")
      (py "Click an element on the page by its text content")
      (mk_schema (py "object")
         [ (py "text", mk_property (py "string")
                         (Some (py "Text content of the element to click"))) ]
         (Some [py "text"]));
    mk_tool (py "playwright_get_text_content")
      (py "Get the text content of all elements")
      (mk_schema (py "object") [] None);
    mk_tool (py "playwright_get_html_content")
      (py "Get the HTML content of the page")
      (mk_schema (py "object")
         [ (py "selector", mk_property (py "string")
                             (Some (py "CSS selector for the element"))) ]
         (Some [py "selector"]));
    mk_tool (py "playwright_get_console_logs")
      (py "Get the browser console logs")
      (mk_schema (py "object")
         [ (py "type",
            mk_property (py "string")
              (Some (py "Filter logs by type (e.g., 'log', 'error', 'warning')")));
           (py "limit", mk_property (py "integer")
                          (Some (py "Maximum number of logs to retrieve"))) ]
         None);
    mk_tool (py "playwright_get_network_activity")
      (py "Get the browser network activity")
      (mk_schema (py "object")
         [ (py "url", mk_property (py "string")
                        (Some (py "Filter by URL substring")));
           (py "method", mk_property (py "string")
                           (Some (py "Filter by HTTP method (GET, POST, etc.)")));
           (py "status_min", mk_property (py "integer")
                               (Some (py "Minimum status code to include")));
           (py "status_max", mk_property (py "integer")
                               (Some (py "Maximum status code to include")));
           (py "resource_type",
            mk_property (py "string")
              (Some (py "Filter by resource type (document, stylesheet, image, etc.)")));
           (py "limit", mk_property (py "integer")
                          (Some (py "Maximum number of events to retrieve")));
           (py "show_headers",
            mk_property (py "boolean")
              (Some (py "Include request and response headers")));
           (py "show_body",
            mk_property (py "boolean")
              (Some (py "Include response body for text responses"))) ]
         None) ].

(** ** More sample data *)

(** A driver for which the click opens a new page, page 3. *)
Definition popup_driver : Driver := {|
  async_playwright_start := Ok tt;
  chromium_launch := Ok 1%nat;
  browser_new_page _ := Ok 2%nat;
  uuid4 := py "sid-1";
  page_goto _ _ := Ok tt;
  page_evaluate _ _ := Ok (py "2024-05-01T10:00:00.000Z");
  page_unique_texts _ := Ok [py "Example Domain"];
  locator_click _ _ := Ok tt;
  locator_click_text _ _ := Ok tt;
  locator_fill _ _ _ := Ok tt;
  locator_inner_html _ _ := Ok (py "<h1>Example Domain</h1>");
  take_screenshot _ _ _ := Ok (py "iVBORw0KGgo=");
  wait_for_new_page _ := Ok 3%nat;
  wait_for_load_state _ := Ok tt
|}.

(** The failure of a wait that runs out of time. *)
Definition timed_out : exn := mk_exn TimeoutError (py "Timeout 30000ms exceeded.").

(** A driver for which no element is found and no address is reached. *)
Definition stuck_driver : Driver := {|
  async_playwright_start := Ok tt;
  chromium_launch := Ok 1%nat;
  browser_new_page _ := Ok 2%nat;
  uuid4 := py "sid-1";
  page_goto _ _ := Raise timed_out;
  page_evaluate _ _ := Ok (py "2024-05-01T10:00:00.000Z");
  page_unique_texts _ := Ok [py "Example Domain"];
  locator_click _ _ := Raise timed_out;
  locator_click_text _ _ := Raise timed_out;
  locator_fill _ _ _ := Raise timed_out;
  locator_inner_html _ _ := Raise timed_out;
  take_screenshot _ _ _ := Raise timed_out;
  wait_for_new_page _ := Raise timed_out;
  wait_for_load_state _ := Ok tt
|}.

(** The failure of a launch without an installed browser. *)
Definition no_executable : exn :=
  mk_exn PlaywrightError (py "Executable doesn't exist").

(** A driver that cannot launch the browser. *)
Definition no_browser_driver : Driver := {|
  async_playwright_start := Ok tt;
  chromium_launch := Raise no_executable;
  browser_new_page _ := Ok 2%nat;
  uuid4 := py "sid-1";
  page_goto _ _ := Ok tt;
  page_evaluate _ _ := Ok (py "2024-05-01T10:00:00.000Z");
  page_unique_texts _ := Ok [];
  locator_click _ _ := Ok tt;
  locator_click_text _ _ := Ok tt;
  locator_fill _ _ _ := Ok tt;
  locator_inner_html _ _ := Ok [];
  take_screenshot _ _ _ := Ok [];
  wait_for_new_page _ := Raise timed_out;
  wait_for_load_state _ := Ok tt
|}.

Definition selector_arguments (selector : pystr) : Arguments :=
  mk_args None None (Some selector) None None None None None None None None
          None None None.

(** A response whose body cannot be read. *)
Definition bodiless_response (id : Z) : Response :=
  mk_response id 204 (py "No Content") (Ok [])
    (Raise (mk_exn PlaywrightError (py "No resource with given identifier found"))).

(** The state of [one_session] with one pending request in its list. *)
Definition one_pending : state :=
  set_network_events <[py "sid-1" := [sample_event 7 None]]> one_session.

(** * Properties *)

Ltac mrun :=
  unfold mbind, mret, M_bind, M_ret, bind, ret, raise, await, gets, modify in *;
  simpl in *.

(** ** Insertion-ordered dictionaries *)

Section dict_facts.
Context {V : Type}.
Implicit Types (d : list (pystr * V)) (k : pystr) (v : V).

Lemma dict_set_fresh k v d : k ∉ dict_keys d → dict_set k v d = d ++ [(k, v)].
Proof.
  induction d as [|[k' v'] d IH]; simpl; [done|].
  intros Hk. apply not_elem_of_cons in Hk as [Hne Hk].
  destruct (decide (k = k')); [done|]. by rewrite IH.
Qed.

Lemma dict_get_snoc k v d :
  k ∉ dict_keys d → dict_get k (d ++ [(k, v)]) = Some v.
Proof.
  induction d as [|[k' v'] d IH]; simpl.
  - intros _. by rewrite decide_True.
  - intros Hk. apply not_elem_of_cons in Hk as [Hne Hk].
    rewrite decide_False by done. auto.
Qed.

Lemma dict_keys_snoc k v d : dict_keys (d ++ [(k, v)]) = dict_keys d ++ [k].
Proof. unfold dict_keys. by rewrite fmap_app. Qed.

Lemma dict_keys_set k v d k' :
  k' ∈ dict_keys (dict_set k v d) → k' = k ∨ k' ∈ dict_keys d.
Proof.
  induction d as [|[k0 v0] d IH]; simpl.
  - intros ->%list_elem_of_singleton. by left.
  - destruct (decide (k = k0)) as [->|]; simpl.
    + intros [->|?]%elem_of_cons; [by left|]. right. by apply elem_of_cons; right.
    + intros [->|?]%elem_of_cons.
      * right. apply elem_of_cons. by left.
      * destruct IH as [?|?]; [done|by left|]. right. by apply elem_of_cons; right.
Qed.
End dict_facts.

(** ** What the set-up of listeners leaves alone *)

Lemma setup_console_frame p sid st :
  let r := ConsoleLogHandler._setup_console_log_listener p sid st in
  r.2 = Ok tt ∧ _sessions r.1 = _sessions st
  ∧ _network_events r.1 = _network_events st.
Proof.
  unfold ConsoleLogHandler._setup_console_log_listener, page_on, setattr. mrun.
  destruct (_console_logs st !! sid); simpl;
    match goal with |- context [hasattr ?a ?b ?c] => destruct (hasattr a b c) end;
    done.
Qed.

Lemma setup_network_frame p sid st :
  let r := NetworkHandler._setup_network_listener p sid st in
  r.2 = Ok tt ∧ _sessions r.1 = _sessions st
  ∧ _console_logs r.1 = _console_logs st.
Proof.
  unfold NetworkHandler._setup_network_listener, page_on, setattr. mrun.
  destruct (_network_events st !! sid); simpl;
    match goal with |- context [hasattr ?a ?b ?c] => destruct (hasattr a b c) end;
    done.
Qed.

Lemma initialize_session_frame sid p handlers st :
  let r := SessionInitializer.initialize_session sid p handlers st in
  r.2 = Ok tt ∧ _sessions r.1 = _sessions st.
Proof.
  unfold SessionInitializer.initialize_session. mrun.
  destruct (bool_decide (py "playwright_get_console_logs" ∈ handlers)).
  - pose proof (setup_console_frame p sid st) as (Hok & Hs & _).
    destruct (ConsoleLogHandler._setup_console_log_listener p sid st) as [st1 o1].
    simpl in *. subst o1.
    destruct (bool_decide (py "playwright_get_network_activity" ∈ handlers)).
    + pose proof (setup_network_frame p sid st1) as (Hok' & Hs' & _).
      destruct (NetworkHandler._setup_network_listener p sid st1) as [st2 o2].
      simpl in *. split; congruence.
    + done.
  - destruct (bool_decide (py "playwright_get_network_activity" ∈ handlers)).
    + pose proof (setup_network_frame p sid st) as (Hok' & Hs' & _).
      destruct (NetworkHandler._setup_network_listener p sid st) as [st2 o2].
      simpl in *. split; congruence.
    + done.
Qed.

(** ** The active session *)

Section new_session.
Context `{Render}.

(** What [NewSessionToolHandler.handle] does to the session mapping: nothing
    when the launch fails, and otherwise one assignment under the new id. *)
Lemma new_session_sessions drv arguments st :
  let st' := (NewSessionToolHandler.handle drv arguments st).1 in
  match async_playwright_start drv, chromium_launch drv with
  | Ok _, Ok b =>
      match browser_new_page drv b with
      | Ok p => _sessions st' = dict_set (uuid4 drv) (mk_session b p) (_sessions st)
      | Raise _ => _sessions st' = _sessions st
      end
  | _, _ => _sessions st' = _sessions st
  end.
Proof.
  unfold NewSessionToolHandler.handle. mrun.
  destruct (async_playwright_start drv) as [[]|]; [|done].
  destruct (chromium_launch drv) as [b|]; [|done].
  destruct (browser_new_page drv b) as [p|]; [|done].
  match goal with |- context [SessionInitializer.initialize_session ?a ?b ?c ?d] =>
    pose proof (initialize_session_frame a b c d) as (Hok & Hs);
    destruct (SessionInitializer.initialize_session a b c d) as [st1 o1] end.
  simpl in *. subst o1.
  destruct (opt_truthy (arg_url arguments)); simpl; [|done].
  match goal with |- context [page_goto ?a ?b ?c] => destruct (page_goto a b c) end; done.
Qed.

Lemma run_sessions_keys calls st k :
  k ∈ dict_keys (_sessions (run_sessions calls st)) →
  k ∈ dict_keys (_sessions st) ∨ k ∈ (λ c, uuid4 c.1) <$> calls.
Proof.
  revert st. induction calls as [|[drv a] calls IH]; intros st; simpl; [by left|].
  intros Hk. apply IH in Hk as [Hk|Hk].
  - pose proof (new_session_sessions drv a st) as Hs. simpl in Hs.
    destruct (async_playwright_start drv); [|rewrite Hs in Hk; by left].
    destruct (chromium_launch drv) as [b|]; [|rewrite Hs in Hk; by left].
    destruct (browser_new_page drv b); [|rewrite Hs in Hk; by left].
    rewrite Hs in Hk. apply dict_keys_set in Hk as [->|?]; [|by left].
    right. apply elem_of_cons. by left.
  - right. apply elem_of_cons. by right.
Qed.

Lemma get_active_snoc st d sid session :
  _sessions st = d ++ [(sid, session)] → sid ∉ dict_keys d →
  BaseToolHandler._get_active_session st = (st, Ok (sid, session))
  ∧ last_session_page st = (st, Ok (sid, page session)).
Proof.
  intros Hs Hk. unfold BaseToolHandler._get_active_session, last_session_page. mrun.
  rewrite Hs. rewrite dict_keys_snoc, last_snoc, dict_get_snoc by done.
  destruct d; done.
Qed.

(** Claim C1. After any sequence of calls of the session-creating tool that
    ends with a call whose browser and page were opened, and whose identifier
    was not used before, the active-session lookup of [BaseToolHandler] and
    the inlined lookup of the handlers of server.py both return the session of
    that last call, with its browser and page. On an empty mapping the lookup
    raises the [ValueError] that stands for "no active session". *)
Theorem active_session_is_latest (st : state) (calls : list (Driver * Arguments))
    (drv : Driver) (arguments : Arguments) (b p : nat) :
  async_playwright_start drv = Ok tt →
  chromium_launch drv = Ok b →
  browser_new_page drv b = Ok p →
  uuid4 drv ∉ dict_keys (_sessions st) →
  uuid4 drv ∉ (λ c, uuid4 c.1) <$> calls →
  let st' := run_sessions (calls ++ [(drv, arguments)]) st in
  BaseToolHandler._get_active_session st'
    = (st', Ok (uuid4 drv, mk_session b p))
  ∧ last_session_page st' = (st', Ok (uuid4 drv, p))
  ∧ ∀ st0, _sessions st0 = [] →
      BaseToolHandler._get_active_session st0
      = (st0, Raise (mk_exn ValueError
          (py "No active browser session(self._sessions={}). Please create a new session first."))).
Proof.
  intros Hstart Hlaunch Hpage Hfresh Hfresh' st'.
  assert (∃ d, _sessions st' = d ++ [(uuid4 drv, mk_session b p)]
               ∧ uuid4 drv ∉ dict_keys d) as (d & Hd & Hk).
  { subst st'. unfold run_sessions. rewrite foldl_app. simpl.
    fold (run_sessions calls st).
    pose proof (new_session_sessions drv arguments (run_sessions calls st)) as Hs.
    simpl in Hs. rewrite Hstart, Hlaunch, Hpage in Hs.
    assert (uuid4 drv ∉ dict_keys (_sessions (run_sessions calls st))) as Hn.
    { intros [?|?]%run_sessions_keys; done. }
    exists (_sessions (run_sessions calls st)). split; [|done].
    rewrite Hs. by apply dict_set_fresh. }
  destruct (get_active_snoc st' d _ _ Hd Hk) as [H1 H2].
  split; [done|]. split; [done|].
  intros st0 H0. unfold BaseToolHandler._get_active_session. mrun. by rewrite H0.
Qed.


End new_session.

Lemma active_session_is_latest_witness :
  let first := (sample_driver (py "sid-1") 1 2, no_arguments) in
  let second := sample_driver (py "sid-2") 3 4 in
  let st' := run_sessions (H := plain_render)
               ([first] ++ [(second, url_arguments (py "example.com"))])
               initial_state in
  BaseToolHandler._get_active_session st'
  = (st', Ok (py "sid-2", mk_session 3 4)).
Proof.
  intros first second st'.
  refine (proj1 (active_session_is_latest (H := plain_render) initial_state
                   [first] second (url_arguments (py "example.com")) 3 4
                   eq_refl eq_refl eq_refl _ _)).
  - apply not_elem_of_nil.
  - compute_done.
Defined.


(** ** Queries: filter, then keep the latest *)

Lemma slice_from_neg {A} (n : Z) (l : list A) :
  0 < n → slice_from (- n) l = lastn (Z.to_nat n) l.
Proof.
  intros Hn. unfold slice_from, lastn.
  replace (- n <? 0) with true by (symmetry; apply Z.ltb_lt; lia).
  f_equal. lia.
Qed.

Lemma lastn_length {A} (n : nat) (l : list A) :
  length (lastn n l) = (n `min` length l)%nat.
Proof. unfold lastn. rewrite length_drop. lia. Qed.

Lemma lastn_suffix {A} (n : nat) (l : list A) :
  l = take (length l - n) l ++ lastn n l.
Proof. unfold lastn. by rewrite take_drop. Qed.

Lemma is_Some_b_false {A} (o : option A) : is_Some_b o = false → o = None.
Proof. by destruct o. Qed.

Lemma args_falsy (a : Arguments) :
  args_truthy a = false →
  arg_url a = None ∧ arg_type a = None ∧ arg_method a = None
  ∧ arg_status_min a = None ∧ arg_status_max a = None
  ∧ arg_resource_type a = None ∧ arg_limit a = None.
Proof.
  unfold args_truthy. rewrite !orb_false_iff.
  intros H. destruct_and!. repeat split; by apply is_Some_b_false.
Qed.

Section filters.
Context {A : Type}.
Implicit Types (l : list A) (p q : A → bool).

Lemma filter_bool_all p l : (∀ x, p x = true) → filter (λ x, p x) l = l.
Proof.
  intros Hp. induction l as [|x l IH]; [done|].
  rewrite filter_cons_True by (rewrite Hp; done). by rewrite IH.
Qed.

Lemma filter_bool_and p q l :
  filter (λ x, q x) (filter (λ x, p x) l) = filter (λ x, p x && q x) l.
Proof.
  rewrite list_filter_filter. apply list_filter_iff.
  intros x. rewrite andb_True. tauto.
Qed.

Lemma stage_field (f : A → pystr) (wanted : option pystr) l :
  match wanted with
  | Some t => if str_truthy t then filter (λ x, f x = t) l else l
  | None => l
  end = filter (λ x, field_matches wanted (f x)) l.
Proof.
  destruct wanted as [t|]; simpl.
  - destruct (str_truthy t).
    + apply list_filter_iff. intros x. by rewrite bool_decide_spec.
    + by rewrite (filter_bool_all (λ _, true)).
  - by rewrite (filter_bool_all (λ _, true)).
Qed.
End filters.

Lemma filter_logs_matches (a : Arguments) (logs : list ConsoleEntry) :
  ConsoleLogHandler.filter_logs a logs = filter (λ log, log_matches a log) logs.
Proof.
  unfold ConsoleLogHandler.filter_logs, log_matches.
  destruct (args_truthy a) eqn:Ha.
  - apply (stage_field log_type).
  - apply args_falsy in Ha as (_ & -> & _).
    by rewrite (filter_bool_all (λ _, true)).
Qed.

Lemma filter_events_matches (a : Arguments) (events : list NetEvent) :
  NetworkHandler.filter_events a events = filter (λ e, event_matches a e) events.
Proof.
  unfold NetworkHandler.filter_events, event_matches.
  destruct (args_truthy a) eqn:Ha.
  - rewrite (stage_field ev_resource_type).
    assert (∀ (o : option Z) (f : Z → NetEvent → bool) (l : list NetEvent),
              match o with Some m => filter (λ e, f m e) l | None => l end
              = filter (λ e, Is_true match o with Some m => f m e | None => true end) l)
      as Hopt.
    { intros [m|] f l; [done|]. by rewrite (filter_bool_all (λ _, true)). }
    rewrite (Hopt (arg_status_max a) NetworkHandler.status_le).
    rewrite (Hopt (arg_status_min a) NetworkHandler.status_ge).
    rewrite (stage_field ev_method).
    assert (match arg_url a with
            | Some u => if str_truthy u
                        then filter (λ e, str_in u (ev_url e)) events else events
            | None => events
            end
            = filter (λ e, Is_true match arg_url a with
                           | Some u => if str_truthy u then str_in u (ev_url e)
                                       else true
                           | None => true
                           end) events) as ->.
    { destruct (arg_url a) as [u|]; [destruct (str_truthy u)|];
        by rewrite ?(filter_bool_all (λ _, true)). }
    rewrite !filter_bool_and. apply list_filter_iff.
    intros x. rewrite !andb_True. tauto.
  - apply args_falsy in Ha as (-> & _ & -> & -> & -> & -> & _).
    by rewrite (filter_bool_all (λ _, true)).
Qed.

(** Claim C2. With a positive [limit] of [N], the selection of the console
    query and that of the network query are the last [N] entries of the
    history filtered by the conjunction of the given filters, in the order of
    the history; their number is the smaller of [N] and the number of
    matching entries. *)
Theorem query_returns_latest_matches (arguments : Arguments) (N : Z)
    (logs : list ConsoleEntry) (events : list NetEvent) :
  0 < N →
  arg_limit arguments = Some N →
  let matching_logs := filter (λ log, log_matches arguments log) logs in
  let matching_events := filter (λ e, event_matches arguments e) events in
  ConsoleLogHandler.select_logs arguments logs = lastn (Z.to_nat N) matching_logs
  ∧ (length (ConsoleLogHandler.select_logs arguments logs)
     = Z.to_nat N `min` length matching_logs)%nat
  ∧ NetworkHandler.select_events arguments events
    = lastn (Z.to_nat N) matching_events
  ∧ (length (NetworkHandler.select_events arguments events)
     = Z.to_nat N `min` length matching_events)%nat.
Proof.
  intros HN Hlimit matching_logs matching_events.
  assert (args_truthy arguments = true) as Ha.
  { unfold args_truthy. rewrite Hlimit. simpl. by rewrite !orb_true_r. }
  assert (ConsoleLogHandler.select_logs arguments logs
          = lastn (Z.to_nat N) matching_logs) as Hlogs.
  { unfold ConsoleLogHandler.select_logs. rewrite Ha, Hlimit. simpl.
    by rewrite slice_from_neg, filter_logs_matches. }
  assert (NetworkHandler.select_events arguments events
          = lastn (Z.to_nat N) matching_events) as Hevents.
  { unfold NetworkHandler.select_events. rewrite Ha, Hlimit. simpl.
    by rewrite slice_from_neg, filter_events_matches. }
  rewrite Hlogs, Hevents, !lastn_length. done.
Qed.

Lemma query_returns_latest_matches_witness :
  let logs := [ sample_log (py "error") (py "a"); sample_log (py "log") (py "b");
                sample_log (py "error") (py "c"); sample_log (py "error") (py "d") ] in
  ConsoleLogHandler.select_logs (limit_arguments (Some (py "error")) 2) logs
  = lastn 2 (filter (λ log, log_matches (limit_arguments (Some (py "error")) 2) log)
               logs).
Proof.
  intros logs.
  refine (proj1 (query_returns_latest_matches
                   (limit_arguments (Some (py "error")) 2) 2 logs
                   [sample_event 1 (Some 200)] _ eq_refl)).
  lia.
Defined.


Lemma slice_from_subseteq {A} (s : Z) (l : list A) : slice_from s l ⊆ l.
Proof. apply subseteq_drop. Qed.

(** Claim C10. When [status_min] or [status_max] is given, every event that
    the network query selects has a status: an event whose response has not
    arrived is selected for no bounds. *)
Theorem pending_requests_never_match_status (arguments : Arguments)
    (events : list NetEvent) (e : NetEvent) :
  is_Some (arg_status_min arguments) ∨ is_Some (arg_status_max arguments) →
  e ∈ NetworkHandler.select_events arguments events →
  e ∈ events ∧ is_Some (ev_status e).
Proof.
  intros Hgiven He. unfold NetworkHandler.select_events in He.
  apply slice_from_subseteq in He. rewrite filter_events_matches in He.
  apply list_elem_of_filter in He as [Hm He]. split; [done|].
  unfold event_matches in Hm. rewrite !andb_True in Hm.
  destruct Hm as ((((_ & _) & Hmin) & Hmax) & _).
  unfold NetworkHandler.status_ge, NetworkHandler.status_le in *.
  destruct (ev_status e); [done|].
  destruct Hgiven as [[m Hm]|[m Hm]]; rewrite Hm in *; done.
Qed.

Lemma pending_requests_never_match_status_witness :
  let events := [sample_event 1 None; sample_event 2 (Some 404)] in
  sample_event 2 (Some 404) ∈ events
  ∧ is_Some (ev_status (sample_event 2 (Some 404))).
Proof.
  intros events.
  refine (pending_requests_never_match_status (status_arguments 0) events
            (sample_event 2 (Some 404)) _ _).
  - left. by eexists.
  - replace (NetworkHandler.select_events (status_arguments 0) events)
      with [sample_event 2 (Some 404)] by (vm_compute; reflexivity).
    apply elem_of_cons. by left.
Defined.


(** ** Network events *)

Lemma list_alter_Some {A} (f : A → A) (l : list A) i x :
  l !! i = Some x → alter f i l = <[i := f x]> l.
Proof.
  revert i. induction l as [|y l IH]; intros [|i]; simpl; try done.
  - by intros [= ->].
  - intros Hi. f_equal. by apply IH.
Qed.

Lemma set_events_insert_twice sid (l1 l2 : list NetEvent) st :
  set_network_events <[sid := l2]> (set_network_events <[sid := l1]> st)
  = set_network_events <[sid := l2]> st.
Proof. unfold set_network_events. simpl. by rewrite insert_insert_eq. Qed.

Lemma alter_event sid i f st events event :
  _network_events st !! sid = Some events → events !! i = Some event →
  set_network_events (alter (alter f i) sid) st
  = set_network_events <[sid := <[i := f event]> events]> st.
Proof.
  intros Hs Hi. unfold set_network_events.
  by rewrite (alter_alt_Some _ _ _ _ Hs), (list_alter_Some _ _ _ _ Hi).
Qed.

Lemma alter_event_again sid i f st0 events event x :
  events !! i = Some event →
  set_network_events (alter (alter f i) sid)
    (set_network_events <[sid := <[i := x]> events]> st0)
  = set_network_events <[sid := <[i := f x]> events]> st0.
Proof.
  intros Hi.
  rewrite (alter_event sid i f _ (<[i := x]> events) x).
  - by rewrite set_events_insert_twice, list_insert_insert_eq.
  - simpl. apply lookup_insert_eq.
  - apply list_lookup_insert_eq. by eapply lookup_lt_Some.
Qed.

Lemma handle_response_matched sid response st events i event headers :
  _network_events st !! sid = Some events →
  list_find (λ e, ev_id e = resp_request_id response) events = Some (i, event) →
  resp_all_headers response = Ok headers →
  NetworkHandler.handle_response sid response st
  = (set_network_events <[sid := <[i := patched response headers event]> events]> st,
     Ok tt).
Proof.
  intros Hs Hfind Hh.
  pose proof Hfind as (Hi & _ & _)%list_find_Some.
  unfold NetworkHandler.handle_response, NetworkHandler.update_event,
    try_except, patched. mrun.
  rewrite Hs, Hfind, Hh. simpl.
  rewrite (alter_event _ _ _ _ _ _ Hs Hi).
  destruct (resp_body response) as [body|e]; simpl; [|done].
  rewrite (alter_event_again _ _ _ _ _ _ _ Hi).
  destruct ((Z.of_nat (length body) <? 10240)
            && NetworkHandler.textual (headers_get (py "content-type") [] headers));
    simpl; [|done].
  destruct (decode_utf8 body) as [text|]; simpl; [|done].
  by rewrite (alter_event_again _ _ _ _ _ _ _ Hi).
Qed.

Lemma handle_response_unmatched sid response st events :
  _network_events st !! sid = Some events →
  list_find (λ e, ev_id e = resp_request_id response) events = None →
  NetworkHandler.handle_response sid response st = (st, Ok tt).
Proof.
  intros Hs Hfind. unfold NetworkHandler.handle_response, try_except. mrun.
  by rewrite Hs, Hfind.
Qed.

Lemma handle_response_length sid response st events :
  _network_events st !! sid = Some events →
  ∃ events', _network_events (NetworkHandler.handle_response sid response st).1 !! sid
             = Some events'
             ∧ length events' = length events.
Proof.
  intros Hs.
  destruct (list_find (λ e, ev_id e = resp_request_id response) events)
    as [[i event]|] eqn:Hfind.
  - destruct (resp_all_headers response) as [headers|e] eqn:Hh.
    + rewrite (handle_response_matched _ _ _ _ _ _ _ Hs Hfind Hh). simpl.
      rewrite lookup_insert_eq. eexists. split; [done|]. apply length_insert.
    + exists events. split; [|done].
      unfold NetworkHandler.handle_response, try_except. mrun.
      rewrite Hs, Hfind, Hh. simpl. by destruct (isinstance_Exception e).
  - rewrite (handle_response_unmatched _ _ _ _ Hs Hfind). eauto.
Qed.

Lemma handle_request_appends drv sid p request st events headers ts :
  _network_events st !! sid = Some events →
  req_all_headers request = Ok headers →
  page_evaluate drv p (Some (py "new Date().toISOString()")) = Ok ts →
  NetworkHandler.handle_request drv sid p request st
  = (set_network_events
       <[sid := events ++
          [mk_event (req_id request) (py "request") (req_url request)
             (req_method request) headers
             (match req_post_data request with Ok d => d | Raise _ => None end)
             (req_resource_type request) ts None None None None None]]> st,
     Ok tt).
Proof.
  intros Hs Hh Hts. unfold NetworkHandler.handle_request, try_except. mrun.
  rewrite Hh. simpl.
  destruct (req_post_data request); simpl; rewrite Hts; simpl; by rewrite Hs.
Qed.

(** Claim C3. In a session's list of network events: a request whose headers
    and timestamp are read appends one event whose five response fields are
    unset; a response whose request identity is that of an event of the list,
    and whose headers are read, replaces the first such event, at its
    position, by the same event with [status], [status_text] and
    [response_headers] set, and touches nothing else; a response with no
    matching event leaves the state as it is; and no response ever changes the
    number of events. *)
Theorem network_event_patched_in_place (drv : Driver) (sid : pystr) (p : nat)
    (st : state) (events : list NetEvent) (request : Request)
    (response : Response) :
  _network_events st !! sid = Some events →
  (∀ headers ts,
     req_all_headers request = Ok headers →
     page_evaluate drv p (Some (py "new Date().toISOString()")) = Ok ts →
     ∃ event,
       NetworkHandler.handle_request drv sid p request st
       = (set_network_events <[sid := events ++ [event]]> st, Ok tt)
       ∧ ev_id event = req_id request
       ∧ ev_status event = None ∧ ev_status_text event = None
       ∧ ev_response_headers event = None ∧ ev_response_size event = None
       ∧ ev_response_body event = None)
  ∧ (∀ i event headers,
       list_find (λ e, ev_id e = resp_request_id response) events
       = Some (i, event) →
       resp_all_headers response = Ok headers →
       ∃ event',
         NetworkHandler.handle_response sid response st
         = (set_network_events <[sid := <[i := event']> events]> st, Ok tt)
         ∧ ev_status event' = Some (resp_status response)
         ∧ ev_status_text event' = Some (resp_status_text response)
         ∧ ev_response_headers event' = Some headers
         ∧ ev_id event' = ev_id event ∧ ev_type event' = ev_type event
         ∧ ev_url event' = ev_url event ∧ ev_method event' = ev_method event
         ∧ ev_headers event' = ev_headers event
         ∧ ev_post_data event' = ev_post_data event
         ∧ ev_resource_type event' = ev_resource_type event
         ∧ ev_timestamp event' = ev_timestamp event)
  ∧ (list_find (λ e, ev_id e = resp_request_id response) events = None →
     NetworkHandler.handle_response sid response st = (st, Ok tt))
  ∧ (∃ events',
       _network_events (NetworkHandler.handle_response sid response st).1 !! sid
       = Some events'
       ∧ length events' = length events).
Proof.
  intros Hs. repeat split.
  - intros headers ts Hh Hts. eexists. split.
    + by apply handle_request_appends.
    + done.
  - intros i event headers Hfind Hh. exists (patched response headers event).
    split; [by apply handle_response_matched|].
    unfold patched.
    destruct (resp_body response) as [body|]; simpl; [|done].
    destruct ((Z.of_nat (length body) <? 10240) && _); simpl; [|done].
    by destruct (decode_utf8 body).
  - by apply handle_response_unmatched.
  - by apply handle_response_length.
Qed.

Lemma network_event_patched_in_place_witness :
  let st := set_network_events <[py "sid-1" := [sample_event 7 None]]> one_session in
  let response := sample_response 7 (py "text/html") [] in
  ∃ event',
    NetworkHandler.handle_response (py "sid-1") response st
    = (set_network_events <[py "sid-1" := <[0%nat := event']> [sample_event 7 None]]> st,
       Ok tt)
    ∧ ev_status event' = Some 200
    ∧ ev_status_text event' = Some (py "OK")
    ∧ ev_response_headers event' = Some [(py "content-type", py "text/html")]
    ∧ ev_id event' = 7 ∧ ev_type event' = py "request"
    ∧ ev_url event' = py "https://example.com/" ∧ ev_method event' = py "GET"
    ∧ ev_headers event' = []
    ∧ ev_post_data event' = None
    ∧ ev_resource_type event' = py "document"
    ∧ ev_timestamp event' = py "2024-05-01T10:00:00.000Z".
Proof.
  intros st response.
  refine (proj1 (proj2 (network_event_patched_in_place
                          (sample_driver (py "sid-1") 1 2) (py "sid-1") 2 st
                          [sample_event 7 None] (sample_request 8) response _))
            0%nat (sample_event 7 None) [(py "content-type", py "text/html")]
            eq_refl eq_refl).
  apply lookup_insert_eq.
Defined.


(** Claim C7. For a response that matches a pending event and whose headers
    and body are read, the event gets a [response_body] if and only if the
    content type contains "json", "text", "javascript" or "css", the body is
    shorter than 10240 bytes and the body decodes as UTF-8; the stored text is
    the decoded body. So a decodable textual body under the ceiling is stored,
    and a body of 10240 bytes or more, or of another content type, is not. *)
Theorem response_body_kept_iff (sid : pystr) (st : state)
    (events : list NetEvent) (response : Response) (i : nat) (event : NetEvent)
    (headers : Headers) (body : list byte) :
  _network_events st !! sid = Some events →
  list_find (λ e, ev_id e = resp_request_id response) events = Some (i, event) →
  ev_response_body event = None →
  resp_all_headers response = Ok headers →
  resp_body response = Ok body →
  let content_type := headers_get (py "content-type") [] headers in
  ∃ event',
    _network_events (NetworkHandler.handle_response sid response st).1 !! sid
    = Some (<[i := event']> events)
    ∧ <[i := event']> events !! i = Some event'
    ∧ ev_response_size event' = Some (Z.of_nat (length body))
    ∧ (is_Some (ev_response_body event') ↔
       NetworkHandler.textual content_type = true
       ∧ Z.of_nat (length body) < 10240
       ∧ is_Some (decode_utf8 body))
    ∧ (∀ text, ev_response_body event' = Some text →
               decode_utf8 body = Some text)
    ∧ (NetworkHandler.textual content_type = true →
       Z.of_nat (length body) < 10240 →
       ∀ text, decode_utf8 body = Some text →
               ev_response_body event' = Some text)
    ∧ (10240 ≤ Z.of_nat (length body) → ev_response_body event' = None)
    ∧ (NetworkHandler.textual content_type = false →
       ev_response_body event' = None).
Proof.
  intros Hs Hfind Hnone Hh Hb content_type.
  pose proof Hfind as (Hi & _ & _)%list_find_Some.
  exists (patched response headers event).
  rewrite (handle_response_matched _ _ _ _ _ _ _ Hs Hfind Hh). simpl.
  rewrite lookup_insert_eq. split; [done|].
  split; [apply list_lookup_insert_eq; by eapply lookup_lt_Some|].
  unfold patched. rewrite Hb. fold content_type.
  destruct (Z.ltb_spec (Z.of_nat (length body)) 10240) as [Hlt|Hge];
    destruct (NetworkHandler.textual content_type) eqn:Ht; simpl;
    try destruct (decode_utf8 body) as [text|] eqn:Hd; simpl;
    rewrite ?Hnone;
    repeat split; try done; try lia;
    try (by intros []%is_Some_None);
    try (by intros (? & ? & []%is_Some_None));
    try (intros (? & ? & ?); done || lia);
    try (intros; congruence || lia).
Qed.

Lemma response_body_kept_iff_witness :
  let st := set_network_events <[py "sid-1" := [sample_event 7 None]]> one_session in
  let response := sample_response 7 (py "application/json") [x7b; x7d] in
  ∃ event',
    _network_events (NetworkHandler.handle_response (py "sid-1") response st).1
      !! py "sid-1"
    = Some (<[0%nat := event']> [sample_event 7 None])
    ∧ ev_response_body event' = Some (py "{}").
Proof.
  intros st response.
  destruct (response_body_kept_iff (py "sid-1") st [sample_event 7 None] response
              0%nat (sample_event 7 None)
              [(py "content-type", py "application/json")] [x7b; x7d]
              (lookup_insert_eq _ _ _) eq_refl eq_refl eq_refl eq_refl)
    as (event' & Hbucket & _ & _ & _ & _ & Hkept & _).
  exists event'. split; [exact Hbucket|].
  apply Hkept; [reflexivity|reflexivity|reflexivity].
Defined.


(** ** Attaching listeners *)

Lemma setup_console_run p sid st :
  ConsoleLogHandler._setup_console_log_listener p sid st
  = (if hasattr p "_console_listener_added" st then ensure_logs sid st
     else set_pages
            <[p := mk_page ({["_console_listener_added"]} ∪ attrs (page_obj p st))
                    (subscriptions (page_obj p st)
                     ++ [("console", ConsoleCallback sid p)])]>
            (ensure_logs sid st),
     Ok tt).
Proof.
  unfold ConsoleLogHandler._setup_console_log_listener, page_on, setattr,
    ensure_logs. mrun.
  destruct (_console_logs st !! sid); simpl.
  - destruct (hasattr p "_console_listener_added" st) eqn:Hm; simpl; [done|].
    unfold set_pages, page_obj. simpl. rewrite lookup_insert_eq. simpl.
    by rewrite insert_insert_eq.
  - unfold hasattr, page_obj. simpl.
    fold (page_obj p st). fold (hasattr p "_console_listener_added" st).
    destruct (hasattr p "_console_listener_added" st) eqn:Hm; simpl; [done|].
    unfold set_pages, page_obj. simpl. rewrite lookup_insert_eq. simpl.
    by rewrite insert_insert_eq.
Qed.

Lemma setup_network_run p sid st :
  NetworkHandler._setup_network_listener p sid st
  = (if hasattr p "_network_listener_added" st then ensure_events sid st
     else set_pages
            <[p := mk_page ({["_network_listener_added"]} ∪ attrs (page_obj p st))
                    (subscriptions (page_obj p st)
                     ++ [("request", RequestCallback sid p);
                         ("response", ResponseCallback sid p)])]>
            (ensure_events sid st),
     Ok tt).
Proof.
  unfold NetworkHandler._setup_network_listener, page_on, setattr,
    ensure_events. mrun.
  destruct (_network_events st !! sid); simpl.
  - destruct (hasattr p "_network_listener_added" st) eqn:Hm; simpl; [done|].
    unfold set_pages, page_obj. simpl. rewrite !lookup_insert_eq. simpl.
    by rewrite !insert_insert_eq, <-app_assoc.
  - unfold hasattr, page_obj. simpl.
    fold (page_obj p st). fold (hasattr p "_network_listener_added" st).
    destruct (hasattr p "_network_listener_added" st) eqn:Hm; simpl; [done|].
    unfold set_pages, page_obj. simpl. rewrite !lookup_insert_eq. simpl.
    by rewrite !insert_insert_eq, <-app_assoc.
Qed.

Lemma page_obj_ensure_logs q sid st : page_obj q (ensure_logs sid st) = page_obj q st.
Proof. unfold ensure_logs. by destruct (_console_logs st !! sid). Qed.

Lemma page_obj_ensure_events q sid st :
  page_obj q (ensure_events sid st) = page_obj q st.
Proof. unfold ensure_events. by destruct (_network_events st !! sid). Qed.

Lemma ensure_logs_bucket sid st : is_Some (_console_logs (ensure_logs sid st) !! sid).
Proof.
  unfold ensure_logs. destruct (_console_logs st !! sid) eqn:Hl; simpl.
  - by rewrite Hl.
  - by rewrite lookup_insert_eq.
Qed.

Lemma ensure_logs_keeps sid sid0 st :
  is_Some (_console_logs st !! sid0) →
  is_Some (_console_logs (ensure_logs sid st) !! sid0).
Proof.
  unfold ensure_logs. destruct (_console_logs st !! sid) eqn:Hl; simpl; [done|].
  intros Hs. destruct (decide (sid = sid0)) as [->|].
  - by rewrite lookup_insert_eq.
  - by rewrite lookup_insert_ne.
Qed.

Lemma console_logs_ensure_events sid st :
  _console_logs (ensure_events sid st) = _console_logs st.
Proof. unfold ensure_events. by destruct (_network_events st !! sid). Qed.

Lemma page_obj_set_pages p obj st : page_obj p (set_pages <[p := obj]> st) = obj.
Proof. unfold page_obj, set_pages. simpl. by rewrite lookup_insert_eq. Qed.

Lemma setup_console_console_inv p sid o st :
  console_inv p o st →
  console_inv p (from_option Some (Some sid) o)
    (ConsoleLogHandler._setup_console_log_listener p sid st).1.
Proof.
  intros (Hm & Hsubs & Hlogs). rewrite setup_console_run. simpl.
  rewrite Hm. destruct o as [sid0|]; simpl.
  - unfold console_inv, hasattr, subscribed in *.
    rewrite !page_obj_ensure_logs. split; [done|]. split; [done|].
    by apply ensure_logs_keeps.
  - unfold console_inv, hasattr, subscribed in *.
    rewrite !page_obj_set_pages. simpl. split; [|split].
    + apply bool_decide_eq_true. set_solver.
    + by rewrite list.filter_app, Hsubs.
    + simpl. apply ensure_logs_bucket.
Qed.

Lemma setup_console_network_inv p sid o st :
  network_inv p o st →
  network_inv p o (ConsoleLogHandler._setup_console_log_listener p sid st).1.
Proof.
  intros (Hm & Hreq & Hresp). rewrite setup_console_run. simpl.
  unfold network_inv, hasattr, subscribed in *.
  destruct (bool_decide ("_console_listener_added" ∈ attrs (page_obj p st))).
  - by rewrite !page_obj_ensure_logs.
  - rewrite !page_obj_set_pages. simpl. rewrite !list.filter_app, Hreq, Hresp.
    split; [|by rewrite !app_nil_r].
    rewrite <-Hm. apply bool_decide_ext.
    rewrite elem_of_union, elem_of_singleton.
    split; [by intros [[=]|?]|by right].
Qed.

Lemma setup_network_network_inv p sid o st :
  network_inv p o st →
  network_inv p (from_option Some (Some sid) o)
    (NetworkHandler._setup_network_listener p sid st).1.
Proof.
  intros (Hm & Hreq & Hresp). rewrite setup_network_run. simpl.
  rewrite Hm. destruct o as [sid0|]; simpl.
  - unfold network_inv, hasattr, subscribed in *.
    by rewrite !page_obj_ensure_events.
  - unfold network_inv, hasattr, subscribed in *.
    rewrite !page_obj_set_pages. simpl. split; [|split].
    + apply bool_decide_eq_true. set_solver.
    + by rewrite list.filter_app, Hreq.
    + by rewrite list.filter_app, Hresp.
Qed.

Lemma setup_network_console_inv p sid o st :
  console_inv p o st →
  console_inv p o (NetworkHandler._setup_network_listener p sid st).1.
Proof.
  intros (Hm & Hsubs & Hlogs). rewrite setup_network_run. simpl.
  unfold console_inv, hasattr, subscribed in *.
  destruct (bool_decide ("_network_listener_added" ∈ attrs (page_obj p st))).
  - rewrite !page_obj_ensure_events, console_logs_ensure_events. done.
  - rewrite !page_obj_set_pages. simpl. rewrite !list.filter_app, Hsubs.
    rewrite console_logs_ensure_events.
    split; [|by rewrite !app_nil_r].
    rewrite <-Hm. apply bool_decide_ext.
    rewrite elem_of_union, elem_of_singleton.
    split; [by intros [[=]|?]|by right].
Qed.

Lemma initialize_session_run sid p st :
  SessionInitializer.initialize_session sid p tool_names st
  = (NetworkHandler._setup_network_listener p sid
       (ConsoleLogHandler._setup_console_log_listener p sid st).1).
Proof.
  unfold SessionInitializer.initialize_session.
  replace (bool_decide (py "playwright_get_console_logs" ∈ tool_names))
    with true by (symmetry; apply bool_decide_eq_true; set_solver).
  replace (bool_decide (py "playwright_get_network_activity" ∈ tool_names))
    with true by (symmetry; apply bool_decide_eq_true; set_solver).
  mrun. rewrite setup_console_run. simpl. done.
Qed.

Lemma attach_inv p c oc on st :
  console_inv p oc st → network_inv p on st →
  console_inv p (from_option Some (first_console [c]) oc) (attach p c st).1
  ∧ network_inv p (from_option Some (first_network [c]) on) (attach p c st).1.
Proof.
  intros Hc Hn. destruct c as [sid|sid|sid]; simpl.
  - rewrite initialize_session_run. split.
    + by apply setup_network_console_inv, setup_console_console_inv.
    + by apply setup_network_network_inv, setup_console_network_inv.
  - split.
    + by apply setup_console_console_inv.
    + destruct on; by apply setup_console_network_inv.
  - split.
    + destruct oc; by apply setup_network_console_inv.
    + by apply setup_network_network_inv.
Qed.

Lemma attach_all_inv p calls oc on st :
  console_inv p oc st → network_inv p on st →
  console_inv p (from_option Some (first_console calls) oc) (attach_all p calls st)
  ∧ network_inv p (from_option Some (first_network calls) on) (attach_all p calls st).
Proof.
  revert oc on st. induction calls as [|c calls IH]; intros oc on st Hc Hn.
  - simpl. by destruct oc, on.
  - simpl. destruct (attach_inv p c oc on st Hc Hn) as [Hc' Hn'].
    destruct (IH _ _ _ Hc' Hn') as [Hc'' Hn''].
    split.
    + destruct oc; simpl in *; [done|]. by destruct c.
    + destruct on; simpl in *; [done|]. by destruct c.
Qed.

Lemma fresh_page_inv p st :
  pages st !! p = None → console_inv p None st ∧ network_inv p None st.
Proof.
  intros Hp. unfold console_inv, network_inv, hasattr, subscribed, page_obj.
  rewrite Hp. simpl. done.
Qed.

Lemma deliver_subscribed drv subs ev st :
  deliver drv subs ev st
  = deliver drv (filter (λ s, s.1 = event_name ev) subs) ev st.
Proof.
  revert st. induction subs as [|[name cb] subs IH]; intros st; [done|].
  rewrite filter_cons. simpl.
  destruct (decide (name = event_name ev)) as [Heq|Hne].
  - simpl. rewrite bool_decide_eq_true_2 by done.
    destruct (invoke drv cb ev st) as [st' []]; by rewrite !IH.
  - rewrite bool_decide_eq_false_2 by done. apply IH.
Qed.

Lemma handle_console_appends drv sid p msg st logs url ts :
  _console_logs st !! sid = Some logs →
  msg_page_url msg = Some url →
  page_evaluate drv p (Some (py "new Date().toISOString()")) = Ok ts →
  ConsoleLogHandler.handle_console drv sid p msg st
  = (set_console_logs
       <[sid := logs ++ [mk_log (msg_type msg) (msg_text msg) url
                           (msg_lineNumber msg) (msg_columnNumber msg) ts]]> st,
     Ok tt).
Proof.
  intros Hl Hu Hts. unfold ConsoleLogHandler.handle_console. mrun.
  by rewrite Hu, Hts, Hl.
Qed.

(** Claim C8. On a page the server has not touched, after any sequence of
    attach calls (session initialisation, or the set-up done by either log
    handler) the page has exactly one console subscription if some call set up
    the console listener and none otherwise, and exactly one request and one
    response subscription if some call set up the network listeners and none
    otherwise; the closures are those of the first such call. A console
    message whose page URL and timestamp are read then adds exactly one entry,
    to the log of that session, and nothing escapes the delivery. *)
Theorem attach_is_idempotent (drv : Driver) (p : nat)
    (calls : list AttachCall) (st : state) :
  pages st !! p = None →
  let st' := attach_all p calls st in
  subscribed "console" p st'
  = match first_console calls with
    | Some sid => [("console", ConsoleCallback sid p)]
    | None => []
    end
  ∧ subscribed "request" p st'
    = match first_network calls with
      | Some sid => [("request", RequestCallback sid p)]
      | None => []
      end
  ∧ subscribed "response" p st'
    = match first_network calls with
      | Some sid => [("response", ResponseCallback sid p)]
      | None => []
      end
  ∧ ∀ sid msg url ts,
      first_console calls = Some sid →
      msg_page_url msg = Some url →
      page_evaluate drv p (Some (py "new Date().toISOString()")) = Ok ts →
      ∃ logs,
        _console_logs st' !! sid = Some logs
        ∧ emit drv p (ConsoleEvent msg) st'
          = (set_console_logs
               <[sid := logs ++ [mk_log (msg_type msg) (msg_text msg) url
                                   (msg_lineNumber msg) (msg_columnNumber msg)
                                   ts]]> st',
             []).
Proof.
  intros Hp st'.
  destruct (fresh_page_inv p st Hp) as [Hc Hn].
  destruct (attach_all_inv p calls None None st Hc Hn) as [Hc' Hn'].
  simpl in Hc', Hn'. fold st' in Hc', Hn'.
  destruct Hc' as (_ & Hsubs & Hlogs). destruct Hn' as (_ & Hreq & Hresp).
  split; [done|]. split; [done|]. split; [done|].
  intros sid msg url ts Hfirst Hu Hts. rewrite Hfirst in *.
  destruct Hlogs as [logs Hlogs]. exists logs. split; [done|].
  unfold emit. rewrite deliver_subscribed. simpl.
  unfold subscribed in Hsubs. rewrite Hsubs. simpl.
  by rewrite (handle_console_appends _ _ _ _ _ _ _ _ Hlogs Hu Hts).
Qed.

Lemma attach_is_idempotent_witness :
  let calls := [ InitializeSession (py "sid-1");
                 SetupConsoleLogListener (py "sid-1");
                 SetupNetworkListener (py "sid-1");
                 InitializeSession (py "sid-2") ] in
  subscribed "console" 5 (attach_all 5 calls initial_state)
  = [("console", ConsoleCallback (py "sid-1") 5)].
Proof.
  intros calls.
  exact (proj1 (attach_is_idempotent (sample_driver (py "sid-1") 1 5) 5 calls
                  initial_state eq_refl)).
Defined.


(** ** Tools without a session *)

Lemma with_active_page_empty rest st :
  _sessions st = [] → with_active_page rest st = (st, Ok no_active_session).
Proof. intros H0. unfold with_active_page. mrun. by rewrite H0. Qed.

Lemma get_active_empty st :
  _sessions st = [] →
  BaseToolHandler._get_active_session st
  = (st, Raise (mk_exn ValueError
       (py "No active browser session(self._sessions={}). Please create a new session first."))).
Proof. intros H0. unfold BaseToolHandler._get_active_session. mrun. by rewrite H0. Qed.

Section tools.
Context `{Render}.

Lemma tool_handlers_keys : dict_keys tool_handlers = tool_names.
Proof. reflexivity. Qed.

Lemma page_tool_without_session drv name arguments st :
  _sessions st = [] → name ∈ page_tools →
  handle_call_tool drv name arguments st = (st, Ok no_active_session).
Proof.
  intros H0 Hin. unfold page_tools in Hin.
  repeat (apply elem_of_cons in Hin as [->|Hin]);
    [..|by apply elem_of_nil in Hin].
  - change (ScreenshotToolHandler.handle drv arguments st = (st, Ok no_active_session)).
    by apply with_active_page_empty.
  - change (ClickToolHandler.handle drv arguments st = (st, Ok no_active_session)).
    by apply with_active_page_empty.
  - change (FillToolHandler.handle drv arguments st = (st, Ok no_active_session)).
    by apply with_active_page_empty.
  - change (EvaluateToolHandler.handle drv arguments st = (st, Ok no_active_session)).
    by apply with_active_page_empty.
  - change (ClickTextToolHandler.handle drv arguments st = (st, Ok no_active_session)).
    by apply with_active_page_empty.
  - change (GetTextContentToolHandler.handle drv arguments st = (st, Ok no_active_session)).
    by apply with_active_page_empty.
  - change (GetHtmlContentToolHandler.handle drv arguments st = (st, Ok no_active_session)).
    by apply with_active_page_empty.
Qed.

Lemma log_tool_without_session drv name arguments st :
  _sessions st = [] → name ∈ log_tools →
  handle_call_tool drv name arguments st
  = (st, Ok [TextContent
       (py "No active browser session(self._sessions={}). Please create a new session first.")]).
Proof.
  intros H0 Hin. unfold log_tools in Hin.
  repeat (apply elem_of_cons in Hin as [->|Hin]);
    [..|by apply elem_of_nil in Hin].
  - change (handle_call_tool drv _ arguments st)
      with (ConsoleLogHandler.handle arguments st).
    unfold ConsoleLogHandler.handle, ConsoleLogHandler.handle_body, try_except.
    unfold mbind, M_bind, bind. by rewrite (get_active_empty _ H0).
  - change (handle_call_tool drv _ arguments st)
      with (NetworkHandler.handle arguments st).
    unfold NetworkHandler.handle, NetworkHandler.handle_body, try_except.
    unfold mbind, M_bind, bind. by rewrite (get_active_empty _ H0).
Qed.

(** The run of [NewSessionToolHandler.handle] when the browser starts and no
    initial URL is given. *)
Lemma new_session_run drv arguments st b p :
  async_playwright_start drv = Ok tt →
  chromium_launch drv = Ok b →
  browser_new_page drv b = Ok p →
  opt_truthy (arg_url arguments) = false →
  ∃ st1 text,
    NewSessionToolHandler.handle drv arguments st = (st1, Ok [TextContent text])
    ∧ _sessions st1 = dict_set (uuid4 drv) (mk_session b p) (_sessions st).
Proof.
  intros Hstart Hlaunch Hpage Hurl.
  unfold NewSessionToolHandler.handle. mrun.
  rewrite Hstart, Hlaunch. simpl. rewrite Hpage. simpl.
  match goal with |- context [SessionInitializer.initialize_session ?a ?b ?c ?d] =>
    pose proof (initialize_session_frame a b c d) as (Hok & Hs);
    destruct (SessionInitializer.initialize_session a b c d) as [st1 o1] end.
  simpl in *. subst o1. rewrite Hurl. simpl. eauto.
Qed.

(** Claim C4. With an empty session mapping, every tool that acts on the page
    of the active session and both log tools return one text content that
    says there is no session, and leave the state as it is. The navigate tool
    instead creates a session (when the browser and the page open) and goes
    on: the mapping then holds that one session, and the result is that of
    the navigation to the normalised URL on the new page. *)
Theorem no_session_reported_as_text (drv : Driver) (arguments : Arguments)
    (st : state) :
  _sessions st = [] →
  (∀ name, name ∈ page_tools →
     handle_call_tool drv name arguments st = (st, Ok no_active_session))
  ∧ (∀ name, name ∈ log_tools →
       handle_call_tool drv name arguments st
       = (st, Ok [TextContent
            (py "No active browser session(self._sessions={}). Please create a new session first.")]))
  ∧ (∀ b p url,
       async_playwright_start drv = Ok tt →
       chromium_launch drv = Ok b →
       browser_new_page drv b = Ok p →
       arg_url arguments = Some url →
       let st1 := (NewSessionToolHandler.handle drv no_arguments st).1 in
       _sessions st1 = [(uuid4 drv, mk_session b p)]
       ∧ handle_call_tool drv (py "playwright_navigate") arguments st
         = (st1,
            match page_goto drv p (normalize_url url) with
            | Raise e => Raise e
            | Ok _ =>
                match page_unique_texts drv p with
                | Raise e => Raise e
                | Ok texts =>
                    Ok [TextContent
                          (py "session_id=" ++ repr_str (uuid4 drv)
                           ++ py " Navigated to " ++ normalize_url url ++ nl
                           ++ py "page_text_content[:200]:" ++ nl ++ nl
                           ++ repr_contents
                                (slice_to 200
                                   [TextContent
                                      (py "Text content of all elements: "
                                       ++ GetTextContentToolHandler.str_texts texts)]))]
                end
            end)).
Proof.
  intros H0. split; [|split].
  - intros name Hin. by apply page_tool_without_session.
  - intros name Hin. by apply log_tool_without_session.
  - intros b p url Hstart Hlaunch Hpage Hurl st1.
    destruct (new_session_run drv no_arguments st b p Hstart Hlaunch Hpage eq_refl)
      as (st1' & text & Hrun & Hs).
    assert (st1 = st1') as <- by (subst st1; by rewrite Hrun).
    rewrite H0 in Hs. simpl in Hs. split; [done|].
    change (handle_call_tool drv _ arguments st)
      with (NavigateToolHandler.handle drv arguments st).
    destruct (get_active_snoc st1 [] _ _ Hs) as [_ Hlast];
      [apply not_elem_of_nil|].
    unfold NavigateToolHandler.handle. mrun.
    rewrite H0. simpl. rewrite Hrun. simpl. rewrite Hlast. simpl.
    rewrite Hurl. simpl.
    destruct (page_goto drv p (normalize_url url)); simpl; [|done].
    unfold GetTextContentToolHandler.handle, with_active_page. mrun.
    rewrite Hs. simpl. rewrite Hlast. simpl.
    by destruct (page_unique_texts drv p).
Qed.


End tools.

Lemma no_session_reported_as_text_witness :
  handle_call_tool (H := plain_render) (sample_driver (py "sid-1") 1 2)
    (py "playwright_evaluate") (script_arguments (py "document.title"))
    initial_state
  = (initial_state, Ok no_active_session).
Proof.
  refine (proj1 (no_session_reported_as_text (H := plain_render)
                   (sample_driver (py "sid-1") 1 2)
                   (script_arguments (py "document.title")) initial_state
                   eq_refl) (py "playwright_evaluate") _).
  compute_done.
Defined.

(** ** Failures *)

Lemma clauses_convert (prefix : pystr) (body : M state (list Content)) st st' e :
  body st = (st', Raise e) →
  isinstance_Exception e = true →
  try_except body
    [ (isinstance_ValueError, λ e, mret [TextContent (str_exn e)]);
      (isinstance_Exception, λ e, mret [TextContent (prefix ++ str_exn e)]) ] st
  = (st', Ok [TextContent (if isinstance_ValueError e then str_exn e
                           else prefix ++ str_exn e)]).
Proof.
  intros Hbody He. unfold try_except. rewrite Hbody. simpl.
  destruct (isinstance_ValueError e); [done|]. by rewrite He.
Qed.

Lemma get_active_outcome st :
  ∃ o, BaseToolHandler._get_active_session st = (st, o)
       ∧ match o with Ok _ => True | Raise e => isinstance_Exception e = true end.
Proof.
  unfold BaseToolHandler._get_active_session. mrun.
  destruct (dict_empty (_sessions st));
    [eexists; split; [reflexivity|done]|].
  destruct (list.last (dict_keys (_sessions st))) as [sid|];
    [|eexists; split; [reflexivity|done]].
  destruct (dict_get sid (_sessions st)); eexists; split; reflexivity || done.
Qed.

Lemma console_body_outcome arguments st :
  ∃ st' o, ConsoleLogHandler.handle_body arguments st = (st', o)
    ∧ match o with
      | Ok c => ∃ text, c = [TextContent text]
      | Raise e => isinstance_Exception e = true
      end.
Proof.
  unfold ConsoleLogHandler.handle_body.
  destruct (get_active_outcome st) as (o & Hrun & Ho).
  unfold mbind, M_bind, bind. rewrite Hrun.
  destruct o as [[sid session]|e]; [|by do 2 eexists].
  rewrite setup_console_run. simpl. unfold gets, mret, M_ret, ret.
  do 2 eexists. split; [reflexivity|]. by eexists.
Qed.

Section failures.
Context `{Render}.

Lemma network_body_outcome arguments st :
  ∃ st' o, NetworkHandler.handle_body arguments st = (st', o)
    ∧ match o with
      | Ok c => ∃ text, c = [TextContent text]
      | Raise e => isinstance_Exception e = true
      end.
Proof.
  unfold NetworkHandler.handle_body.
  destruct (get_active_outcome st) as (o & Hrun & Ho).
  unfold mbind, M_bind, bind. rewrite Hrun.
  destruct o as [[sid session]|e]; [|by do 2 eexists].
  rewrite setup_network_run. simpl. unfold gets, mret, M_ret, ret.
  do 2 eexists. split; [reflexivity|]. by eexists.
Qed.

(** Claim C6, as amended. In the handlers of the console-log and of the
    network-activity tool, every failure of class [Exception] raised by the
    body of the [try] is turned into one text content (the message itself for
    a [ValueError], the message after a fixed prefix otherwise); a call of
    either tool through the dispatcher therefore returns a text content for
    every state and every argument. *)
Theorem log_handlers_convert_failures (drv : Driver) (arguments : Arguments)
    (st : state) :
  (∀ (body : M state (list Content)) st' e,
     body st = (st', Raise e) →
     isinstance_Exception e = true →
     try_except body ConsoleLogHandler.except_clauses st
     = (st', Ok [TextContent
                   (if isinstance_ValueError e then str_exn e
                    else py "Error retrieving console logs: " ++ str_exn e)])
     ∧ try_except body NetworkHandler.except_clauses st
       = (st', Ok [TextContent
                     (if isinstance_ValueError e then str_exn e
                      else py "Error retrieving network activity: " ++ str_exn e)]))
  ∧ (∃ st' text,
       handle_call_tool drv (py "playwright_get_console_logs") arguments st
       = (st', Ok [TextContent text]))
  ∧ (∃ st' text,
       handle_call_tool drv (py "playwright_get_network_activity") arguments st
       = (st', Ok [TextContent text])).
Proof.
  split; [|split].
  - intros body st' e Hbody He. split; by apply clauses_convert.
  - change (handle_call_tool drv _ arguments st)
      with (try_except (ConsoleLogHandler.handle_body arguments)
              ConsoleLogHandler.except_clauses st).
    destruct (console_body_outcome arguments st) as (st' & [c|e] & Hrun & Ho).
    + destruct Ho as [text ->]. exists st', text.
      unfold try_except. by rewrite Hrun.
    + exists st'. eexists.
      by apply (clauses_convert (py "Error retrieving console logs: ")).
  - change (handle_call_tool drv _ arguments st)
      with (try_except (NetworkHandler.handle_body arguments)
              NetworkHandler.except_clauses st).
    destruct (network_body_outcome arguments st) as (st' & [c|e] & Hrun & Ho).
    + destruct Ho as [text ->]. exists st', text.
      unfold try_except. by rewrite Hrun.
    + exists st'. eexists.
      by apply (clauses_convert (py "Error retrieving network activity: ")).
Qed.


End failures.

Lemma log_handlers_convert_failures_witness :
  try_except (raise context_destroyed) ConsoleLogHandler.except_clauses
    initial_state
  = (initial_state,
     Ok [TextContent (py "Error retrieving console logs: "
                      ++ py "Execution context was destroyed")]).
Proof.
  exact (proj1 (proj1 (log_handlers_convert_failures (H := plain_render)
                         (sample_driver (py "sid-1") 1 2) no_arguments
                         initial_state)
                  (raise context_destroyed) initial_state context_destroyed
                  eq_refl eq_refl)).
Defined.

(** The request and response closures let no [Exception] escape. *)
Lemma handle_request_swallows drv sid p request st e :
  (NetworkHandler.handle_request drv sid p request st).2 = Raise e →
  isinstance_Exception e = false.
Proof.
  unfold NetworkHandler.handle_request, try_except.
  match goal with |- context [let (_, _) := ?body st in _] =>
    destruct (body st) as [st' [[]|e']] end; simpl; [done|].
  destruct (isinstance_Exception e') eqn:He'; simpl; [done|]. by intros [= <-].
Qed.

Lemma handle_response_swallows sid response st e :
  (NetworkHandler.handle_response sid response st).2 = Raise e →
  isinstance_Exception e = false.
Proof.
  unfold NetworkHandler.handle_response, try_except.
  match goal with |- context [let (_, _) := ?body st in _] =>
    destruct (body st) as [st' [[]|e']] end; simpl; [done|].
  destruct (isinstance_Exception e') eqn:He'; simpl; [done|]. by intros [= <-].
Qed.

(** The console closure has no handler: a failure of the clock evaluation
    leaves it as it is. *)
Lemma handle_console_raises drv sid p msg st url e :
  msg_page_url msg = Some url →
  page_evaluate drv p (Some (py "new Date().toISOString()")) = Raise e →
  ConsoleLogHandler.handle_console drv sid p msg st = (st, Raise e).
Proof.
  intros Hu He. unfold ConsoleLogHandler.handle_console. mrun. by rewrite Hu, He.
Qed.

(** Claim C5, at the failing input. On the page of a session created by the
    session tool there is one console subscription; when the evaluation of
    the clock expression fails with an [Exception] while a console message is
    delivered, the failure escapes the console closure and no entry is
    added. *)
Theorem console_callback_failure_escapes :
  subscribed "console" 2 one_session
  = [("console", ConsoleCallback (py "sid-1") 2)]
  ∧ emit failing_driver 2 (ConsoleEvent sample_message) one_session
    = (one_session, [context_destroyed])
  ∧ isinstance_Exception context_destroyed = true.
Proof. vm_compute. done. Qed.

(** Claim C6, as stated, fails: with an active session, a failure of
    [page.evaluate] inside the evaluate tool leaves the handler and the
    dispatcher as an exception. *)
Theorem evaluate_failure_reaches_caller :
  let r := handle_call_tool (H := plain_render) failing_driver
             (py "playwright_evaluate") (script_arguments (py "document.title"))
             one_session in
  r = (one_session, Raise context_destroyed)
  ∧ isinstance_Exception context_destroyed = true
  ∧ ¬ ∃ contents, r.2 = Ok contents.
Proof.
  assert (handle_call_tool (H := plain_render) failing_driver
            (py "playwright_evaluate") (script_arguments (py "document.title"))
            one_session = (one_session, Raise context_destroyed)) as Hr
    by (vm_compute; done).
  simpl. rewrite Hr. split; [done|]. split; [done|]. by intros [c [=]].
Qed.

(** Claim C9, at the failing input. Navigation to a page whose text has 300
    characters: the slice [[:200]] is taken of the one-element list of
    contents, so the rendered snippet holds the whole text. *)
Theorem navigate_snippet_is_not_truncated `{Render} :
  NavigateToolHandler.handle long_page_driver
    (url_arguments (py "example.com")) one_session
  = (one_session,
     Ok [TextContent
           (py "session_id=" ++ repr_str (py "sid-1") ++ py " Navigated to "
            ++ py "https://example.com" ++ nl
            ++ py "page_text_content[:200]:" ++ nl ++ nl
            ++ repr_contents
                 [TextContent (py "Text content of all elements: "
                               ++ GetTextContentToolHandler.str_texts [long_text])])])
  ∧ length long_text = 300%nat.
Proof. split; reflexivity. Qed.

(** ** The handlers return the formatted selection *)

Lemma setup_console_bucket p sid st :
  default [] (_console_logs (ConsoleLogHandler._setup_console_log_listener p sid st).1
              !! sid)
  = default [] (_console_logs st !! sid).
Proof.
  rewrite setup_console_run. simpl.
  assert (default [] (_console_logs (ensure_logs sid st) !! sid)
          = default [] (_console_logs st !! sid)) as Hb.
  { unfold ensure_logs. destruct (_console_logs st !! sid) eqn:Hl; simpl.
    - by rewrite Hl.
    - by rewrite lookup_insert_eq. }
  by destruct (hasattr p "_console_listener_added" st).
Qed.

Lemma setup_network_bucket p sid st :
  default [] (_network_events (NetworkHandler._setup_network_listener p sid st).1
              !! sid)
  = default [] (_network_events st !! sid).
Proof.
  rewrite setup_network_run. simpl.
  assert (default [] (_network_events (ensure_events sid st) !! sid)
          = default [] (_network_events st !! sid)) as Hb.
  { unfold ensure_events. destruct (_network_events st !! sid) eqn:Hl; simpl.
    - by rewrite Hl.
    - by rewrite lookup_insert_eq. }
  by destruct (hasattr p "_network_listener_added" st).
Qed.

Lemma console_handle_selects arguments st sid session :
  BaseToolHandler._get_active_session st = (st, Ok (sid, session)) →
  ConsoleLogHandler.handle arguments st
  = ((ConsoleLogHandler._setup_console_log_listener (page session) sid st).1,
     Ok [TextContent
           (let lines :=
              ConsoleLogHandler.format_log
              <$> ConsoleLogHandler.select_logs arguments
                    (default [] (_console_logs st !! sid)) in
            match lines with
            | [] => py "No console logs available."
            | _ :: _ => str_join nl lines
            end)]).
Proof.
  intros Hactive.
  unfold ConsoleLogHandler.handle, ConsoleLogHandler.handle_body, try_except.
  unfold mbind, M_bind, bind. rewrite Hactive.
  pose proof (setup_console_bucket (page session) sid st) as Hb.
  rewrite setup_console_run in *. simpl in *.
  unfold gets, mret, M_ret, ret. by rewrite Hb.
Qed.

Lemma network_handle_selects `{Render} arguments st sid session :
  BaseToolHandler._get_active_session st = (st, Ok (sid, session)) →
  NetworkHandler.handle arguments st
  = ((NetworkHandler._setup_network_listener (page session) sid st).1,
     Ok [TextContent
           (let lines :=
              mjoin (NetworkHandler.format_event arguments
                     <$> NetworkHandler.select_events arguments
                           (default [] (_network_events st !! sid))) in
            match lines with
            | [] => py "No network activity recorded."
            | _ :: _ => str_join nl lines
            end)]).
Proof.
  intros Hactive.
  unfold NetworkHandler.handle, NetworkHandler.handle_body, try_except.
  unfold mbind, M_bind, bind. rewrite Hactive.
  pose proof (setup_network_bucket (page session) sid st) as Hb.
  rewrite setup_network_run in *. simpl in *.
  unfold gets, mret, M_ret, ret. by rewrite Hb.
Qed.

(** ** Scenarios of the specification *)

(** A new session without a URL, then the console logs: the placeholder. *)
Example scenario_no_console_logs :
  (ConsoleLogHandler.handle no_arguments one_session).2
  = Ok [TextContent (py "No console logs available.")].
Proof. vm_compute. reflexivity. Qed.

(** [status_min = 400] when the only request resolved with status 200. *)
Example scenario_status_filter_empties :
  (NetworkHandler.handle (H := plain_render) (status_arguments 400)
     (set_network_events <[py "sid-1" := [sample_event 1 (Some 200)]]> one_session)).2
  = Ok [TextContent (py "No network activity recorded.")].
Proof. vm_compute. reflexivity. Qed.

(** A URL without a scheme gets [https://]. *)
Example scenario_scheme_is_added :
  normalize_url (py "example.com") = py "https://example.com"
  ∧ normalize_url (py "http://example.com") = py "http://example.com".
Proof. vm_compute. done. Qed.

(** A limit of zero selects the whole filtered history, and a negative limit
    drops that many of the oldest entries: [logs[-0:]] and [logs[2:]]. *)
Example limit_zero_and_negative :
  slice_from (- 0) [1; 2; 3] = [1; 2; 3] ∧ slice_from (- (-2)) [1; 2; 3] = [3].
Proof. vm_compute. done. Qed.

(** Some byte strings and their strict UTF-8 decoding. *)
Example decode_utf8_samples :
  decode_utf8 [xc3; xa9] = Some [233%N]
  ∧ decode_utf8 [xf0; x9f; x98; x80] = Some [128512%N]
  ∧ decode_utf8 [xe9] = None
  ∧ decode_utf8 [xc0; x80] = None
  ∧ decode_utf8 [xed; xa0; x80] = None.
Proof. vm_compute. done. Qed.

(** * Further properties of the handlers *)

(** * Further properties of the handlers *)

(** ** More on insertion-ordered dictionaries *)

Section dict_more.
Context {V : Type}.
Implicit Types (d : list (pystr * V)) (k : pystr) (v : V).

Lemma dict_get_set_eq k v d : dict_get k (dict_set k v d) = Some v.
Proof.
  induction d as [|[k' v'] d IH]; simpl.
  - by rewrite decide_True.
  - destruct (decide (k = k')) as [->|Hne]; simpl.
    + by rewrite decide_True.
    + by rewrite decide_False.
Qed.

Lemma dict_get_set_ne k k' v d :
  k ≠ k' → dict_get k' (dict_set k v d) = dict_get k' d.
Proof.
  intros Hne. induction d as [|[k0 v0] d IH]; simpl.
  - by rewrite decide_False.
  - destruct (decide (k = k0)) as [->|Hne0]; simpl.
    + by rewrite !decide_False.
    + destruct (decide (k' = k0)); [done|]. apply IH.
Qed.

Lemma dict_keys_set_present k v d :
  is_Some (dict_get k d) → dict_keys (dict_set k v d) = dict_keys d.
Proof.
  induction d as [|[k0 v0] d IH]; simpl.
  - by intros [? [=]].
  - destruct (decide (k = k0)) as [->|Hne]; simpl; [done|].
    intros Hs. f_equal. by apply IH.
Qed.

Lemma dict_keys_set_prefix k v d :
  dict_keys d `prefix_of` dict_keys (dict_set k v d).
Proof.
  induction d as [|[k0 v0] d IH]; simpl.
  - apply prefix_nil.
  - destruct (decide (k = k0)) as [->|Hne]; simpl.
    + done.
    + by apply prefix_cons.
Qed.

Lemma dict_get_Some_keys k v d : dict_get k d = Some v → k ∈ dict_keys d.
Proof.
  induction d as [|[k0 v0] d IH]; simpl; [done|].
  destruct (decide (k = k0)) as [->|Hne].
  - intros _. apply elem_of_cons. by left.
  - intros Hg. apply elem_of_cons. right. by apply IH.
Qed.
End dict_more.

(** ** The page of the active session *)

Lemma get_active_inv st sid session :
  BaseToolHandler._get_active_session st = (st, Ok (sid, session)) →
  dict_empty (_sessions st) = false
  ∧ list.last (dict_keys (_sessions st)) = Some sid
  ∧ dict_get sid (_sessions st) = Some session.
Proof.
  unfold BaseToolHandler._get_active_session. mrun.
  destruct (dict_empty (_sessions st)); [done|].
  destruct (list.last (dict_keys (_sessions st))) as [sid'|]; [|done].
  destruct (dict_get sid' (_sessions st)) as [s|] eqn:Hg; [|done].
  by intros [= -> ->].
Qed.

Lemma get_active_intro st sid session :
  dict_empty (_sessions st) = false →
  list.last (dict_keys (_sessions st)) = Some sid →
  dict_get sid (_sessions st) = Some session →
  BaseToolHandler._get_active_session st = (st, Ok (sid, session)).
Proof.
  intros He Hl Hg. unfold BaseToolHandler._get_active_session. mrun.
  by rewrite He, Hl, Hg.
Qed.

Lemma with_active_page_run rest st sid session :
  BaseToolHandler._get_active_session st = (st, Ok (sid, session)) →
  with_active_page rest st = rest sid (page session) st.
Proof.
  intros (He & Hl & Hg)%get_active_inv.
  unfold with_active_page, last_session_page. mrun. by rewrite He, Hl, Hg.
Qed.

Lemma dict_empty_set {V} k (v : V) d : dict_empty (dict_set k v d) = false.
Proof. destruct d as [|[k0 v0] d]; simpl; [done|]. by destruct (decide (k = k0)). Qed.

(** The assignment of a new page to the active session keeps it active. *)
Lemma set_page_keeps_active st sid session new_page :
  BaseToolHandler._get_active_session st = (st, Ok (sid, session)) →
  let st' := set_sessions
               (dict_set sid (mk_session (browser session) new_page)) st in
  BaseToolHandler._get_active_session st'
  = (st', Ok (sid, mk_session (browser session) new_page))
  ∧ dict_keys (_sessions st') = dict_keys (_sessions st).
Proof.
  intros (He & Hl & Hg)%get_active_inv st'.
  assert (dict_keys (_sessions st') = dict_keys (_sessions st)) as Hk.
  { subst st'. simpl. apply dict_keys_set_present. by rewrite Hg. }
  split; [|done]. apply get_active_intro.
  - subst st'. simpl. apply dict_empty_set.
  - by rewrite Hk.
  - subst st'. simpl. apply dict_get_set_eq.
Qed.

(** The decorator, for a wrapped handler that returns. *)
Lemma update_page_after_click_run drv func arguments st sid session st1 result :
  BaseToolHandler._get_active_session st = (st, Ok (sid, session)) →
  func arguments st = (st1, Ok result) →
  update_page_after_click drv func arguments st
  = match wait_for_new_page drv (page session) with
    | Ok new_page =>
        match wait_for_load_state drv new_page with
        | Ok _ =>
            match dict_get sid (_sessions st1) with
            | Some session1 =>
                (set_sessions
                   (dict_set sid (mk_session (browser session1) new_page)) st1,
                 Ok result)
            | None => (st1, Ok result)
            end
        | Raise _ => (st1, Ok result)
        end
    | Raise _ => (st1, Ok result)
    end.
Proof.
  intros Hactive Hfunc. unfold update_page_after_click.
  rewrite (with_active_page_run _ _ _ _ Hactive).
  unfold try_except, set_session_page. mrun. rewrite Hfunc. simpl.
  destruct (wait_for_new_page drv (page session)) as [new_page|]; simpl; [|done].
  destruct (wait_for_load_state drv new_page) as [[]|]; simpl; [|done].
  by destruct (dict_get sid (_sessions st1)).
Qed.

Lemma update_page_after_click_fails drv func arguments st sid session st1 e :
  BaseToolHandler._get_active_session st = (st, Ok (sid, session)) →
  func arguments st = (st1, Raise e) →
  update_page_after_click drv func arguments st = (st1, Raise e).
Proof.
  intros Hactive Hfunc. unfold update_page_after_click.
  rewrite (with_active_page_run _ _ _ _ Hactive). mrun. by rewrite Hfunc.
Qed.

Lemma click_inner_run drv arguments st sid session :
  BaseToolHandler._get_active_session st = (st, Ok (sid, session)) →
  ClickToolHandler.handle_inner drv arguments st
  = (st, match locator_click drv (page session) (arg_selector arguments) with
         | Ok _ => Ok [TextContent (py "Clicked element with selector "
                                    ++ default (py "None") (arg_selector arguments))]
         | Raise e => Raise e
         end).
Proof.
  intros Hactive. unfold ClickToolHandler.handle_inner.
  rewrite (with_active_page_run _ _ _ _ Hactive). mrun.
  by destruct (locator_click drv (page session) (arg_selector arguments)).
Qed.

Lemma click_text_inner_run drv arguments st sid session :
  BaseToolHandler._get_active_session st = (st, Ok (sid, session)) →
  ClickTextToolHandler.handle_inner drv arguments st
  = (st, match locator_click_text drv (page session) (arg_text arguments) with
         | Ok _ => Ok [TextContent (py "Clicked element with text "
                                    ++ default (py "None") (arg_text arguments))]
         | Raise e => Raise e
         end).
Proof.
  intros Hactive. unfold ClickTextToolHandler.handle_inner.
  rewrite (with_active_page_run _ _ _ _ Hactive). mrun.
  by destruct (locator_click_text drv (page session) (arg_text arguments)).
Qed.

(** Property X1. When the wait armed by [update_page_after_click] yields a
    new page and that page finishes loading, a successful click (by selector
    or by text) returns its usual text and replaces the page of the active
    session by the new page: the session keeps its browser and its position,
    it is still the active one, the keys of the mapping are unchanged and no
    other session is touched. *)
Theorem adoption_replaces_tracked_page (drv : Driver) (arguments : Arguments)
    (st : state) (sid : pystr) (session : Session) (new_page : nat) :
  BaseToolHandler._get_active_session st = (st, Ok (sid, session)) →
  wait_for_new_page drv (page session) = Ok new_page →
  wait_for_load_state drv new_page = Ok tt →
  let st' := set_sessions
               (dict_set sid (mk_session (browser session) new_page)) st in
  (locator_click drv (page session) (arg_selector arguments) = Ok tt →
   ClickToolHandler.handle drv arguments st
   = (st', Ok [TextContent (py "Clicked element with selector "
                            ++ default (py "None") (arg_selector arguments))]))
  ∧ (locator_click_text drv (page session) (arg_text arguments) = Ok tt →
     ClickTextToolHandler.handle drv arguments st
     = (st', Ok [TextContent (py "Clicked element with text "
                              ++ default (py "None") (arg_text arguments))]))
  ∧ BaseToolHandler._get_active_session st'
    = (st', Ok (sid, mk_session (browser session) new_page))
  ∧ last_session_page st' = (st', Ok (sid, new_page))
  ∧ dict_keys (_sessions st') = dict_keys (_sessions st)
  ∧ (∀ sid', sid' ≠ sid →
       dict_get sid' (_sessions st') = dict_get sid' (_sessions st)).
Proof.
  intros Hactive Hwait Hload st'.
  pose proof Hactive as (He & Hl & Hg)%get_active_inv.
  destruct (set_page_keeps_active st sid session new_page Hactive) as [Hact' Hk].
  fold st' in Hact', Hk.
  split; [|split; [|split; [|split; [|split]]]].
  - intros Hclick. unfold ClickToolHandler.handle.
    rewrite (update_page_after_click_run drv _ arguments st sid session st
               [TextContent (py "Clicked element with selector "
                             ++ default (py "None") (arg_selector arguments))]
               Hactive).
    + by rewrite Hwait, Hload, Hg.
    + by rewrite (click_inner_run _ _ _ _ _ Hactive), Hclick.
  - intros Hclick. unfold ClickTextToolHandler.handle.
    rewrite (update_page_after_click_run drv _ arguments st sid session st
               [TextContent (py "Clicked element with text "
                             ++ default (py "None") (arg_text arguments))]
               Hactive).
    + by rewrite Hwait, Hload, Hg.
    + by rewrite (click_text_inner_run _ _ _ _ _ Hactive), Hclick.
  - done.
  - apply get_active_inv in Hact' as (He' & Hl' & Hg').
    unfold last_session_page. mrun. by rewrite Hl', Hg'.
  - done.
  - intros sid' Hne. subst st'. simpl. by apply dict_get_set_ne.
Qed.

Lemma adoption_replaces_tracked_page_witness :
  let st' := set_sessions (dict_set (py "sid-1") (mk_session 1 3)) one_session in
  ClickToolHandler.handle popup_driver (selector_arguments (py "a#more"))
    one_session
  = (st', Ok [TextContent (py "Clicked element with selector " ++ py "a#more")])
  ∧ BaseToolHandler._get_active_session st'
    = (st', Ok (py "sid-1", mk_session 1 3)).
Proof.
  intros st'.
  pose proof (adoption_replaces_tracked_page popup_driver
                (selector_arguments (py "a#more")) one_session (py "sid-1")
                (mk_session 1 2) 3 eq_refl eq_refl eq_refl)
    as (Hclick & _ & Hactive & _).
  split; [exact (Hclick eq_refl)|exact Hactive].
Defined.



(** Property X3. When the click itself raises, the exception reaches the
    caller of the decorated handler, the wait for a new page is never
    consulted and the state is unchanged. *)
Theorem failed_click_adopts_nothing (drv : Driver) (arguments : Arguments)
    (st : state) (sid : pystr) (session : Session) (e : exn) :
  BaseToolHandler._get_active_session st = (st, Ok (sid, session)) →
  (locator_click drv (page session) (arg_selector arguments) = Raise e →
   ClickToolHandler.handle drv arguments st = (st, Raise e))
  ∧ (locator_click_text drv (page session) (arg_text arguments) = Raise e →
     ClickTextToolHandler.handle drv arguments st = (st, Raise e)).
Proof.
  intros Hactive. split; intros Hclick.
  - unfold ClickToolHandler.handle.
    apply (update_page_after_click_fails _ _ _ _ _ _ _ _ Hactive).
    by rewrite (click_inner_run _ _ _ _ _ Hactive), Hclick.
  - unfold ClickTextToolHandler.handle.
    apply (update_page_after_click_fails _ _ _ _ _ _ _ _ Hactive).
    by rewrite (click_text_inner_run _ _ _ _ _ Hactive), Hclick.
Qed.

Lemma failed_click_adopts_nothing_witness :
  ClickToolHandler.handle stuck_driver (selector_arguments (py "a#more"))
    one_session
  = (one_session, Raise timed_out).
Proof.
  exact (proj1 (failed_click_adopts_nothing stuck_driver
                  (selector_arguments (py "a#more")) one_session (py "sid-1")
                  (mk_session 1 2) timed_out eq_refl) eq_refl).
Defined.

(** ** What the tools do to the state *)

Lemma dict_get_key_is_Some {V} k (d : list (pystr * V)) :
  k ∈ dict_keys d → is_Some (dict_get k d).
Proof.
  induction d as [|[k0 v0] d IH]; simpl.
  - by intros ?%elem_of_nil.
  - destruct (decide (k = k0)); [by eexists|].
    intros [?|?]%elem_of_cons; [done|]. by apply IH.
Qed.

(** On a non-empty mapping the lookup of the active session returns: the
    last key is a key of the mapping. *)
Lemma get_active_total st :
  _sessions st ≠ [] →
  ∃ sid session,
    BaseToolHandler._get_active_session st = (st, Ok (sid, session)).
Proof.
  intros Hne.
  assert (dict_empty (_sessions st) = false) as He
    by (by destruct (_sessions st)).
  assert (dict_keys (_sessions st) ≠ []) as Hk.
  { unfold dict_keys. by destruct (_sessions st). }
  apply last_is_Some in Hk as [sid Hl].
  assert (sid ∈ dict_keys (_sessions st)) as Hin.
  { apply last_Some in Hl as [l' ->]. apply elem_of_app. right.
    apply elem_of_cons. by left. }
  apply dict_get_key_is_Some in Hin as [session Hg].
  exists sid, session. by apply get_active_intro.
Qed.

Lemma with_active_page_state rest st :
  (∀ sid p, (rest sid p st).1 = st) → (with_active_page rest st).1 = st.
Proof.
  intros Hrest. unfold with_active_page, last_session_page. mrun.
  destruct (dict_empty (_sessions st)); [done|].
  destruct (list.last (dict_keys (_sessions st))) as [sid|]; [|done].
  destruct (dict_get sid (_sessions st)) as [session|]; [|done].
  simpl. apply Hrest.
Qed.

Section state_effects.
Context `{Render}.

(** Property X4. The screenshot, fill, evaluate, text-content and
    HTML-content handlers never change the state of the server (sessions,
    console logs, network events, page instrumentation), whatever the driver
    answers and whether or not a session exists. *)
Theorem page_reading_tools_keep_state (drv : Driver) (arguments : Arguments)
    (st : state) :
  (ScreenshotToolHandler.handle drv arguments st).1 = st
  ∧ (FillToolHandler.handle drv arguments st).1 = st
  ∧ (EvaluateToolHandler.handle drv arguments st).1 = st
  ∧ (GetTextContentToolHandler.handle drv arguments st).1 = st
  ∧ (GetHtmlContentToolHandler.handle drv arguments st).1 = st.
Proof.
  repeat split; apply with_active_page_state; intros sid p; mrun.
  - by destruct (take_screenshot drv p (arg_selector arguments) (arg_name arguments)).
  - by destruct (locator_fill drv p (arg_selector arguments) (arg_value arguments))
      as [[]|].
  - by destruct (page_evaluate drv p (arg_script arguments)).
  - by destruct (page_unique_texts drv p).
  - by destruct (locator_inner_html drv p (arg_selector arguments)).
Qed.

Lemma navigate_on_sessions drv arguments st :
  _sessions st ≠ [] → (NavigateToolHandler.handle drv arguments st).1 = st.
Proof.
  intros Hne.
  destruct (get_active_total st Hne) as (sid & session & Hactive).
  pose proof Hactive as (He & Hl & Hg)%get_active_inv.
  unfold NavigateToolHandler.handle, last_session_page. mrun.
  rewrite He. simpl. rewrite Hl, Hg. simpl.
  destruct (arg_url arguments) as [url|]; simpl; [|done].
  destruct (page_goto drv (page session) (normalize_url url)); simpl; [|done].
  pose proof (page_reading_tools_keep_state drv no_arguments st)
    as (_ & _ & _ & Htext & _).
  destruct (GetTextContentToolHandler.handle drv no_arguments st) as [st1 [c|e]];
    simpl in *; by subst.
Qed.

Lemma new_session_keys drv arguments st :
  dict_keys (_sessions st)
  `prefix_of` dict_keys (_sessions (NewSessionToolHandler.handle drv arguments st).1).
Proof.
  pose proof (new_session_sessions drv arguments st) as Hs. simpl in Hs.
  destruct (async_playwright_start drv); [|by rewrite Hs].
  destruct (chromium_launch drv) as [b|]; [|by rewrite Hs].
  destruct (browser_new_page drv b); rewrite Hs; [|done].
  apply dict_keys_set_prefix.
Qed.

Lemma navigate_keys drv arguments st :
  dict_keys (_sessions st)
  `prefix_of` dict_keys (_sessions (NavigateToolHandler.handle drv arguments st).1).
Proof.
  destruct (_sessions st) as [|kv d] eqn:Hs.
  - apply prefix_nil.
  - rewrite navigate_on_sessions by (by rewrite Hs). by rewrite Hs.
Qed.

Lemma decorated_keys drv func arguments st :
  (∀ st0, (func arguments st0).1 = st0) →
  dict_keys (_sessions st)
  `prefix_of` dict_keys (_sessions (update_page_after_click drv func arguments st).1).
Proof.
  intros Hfunc. unfold update_page_after_click, with_active_page,
    last_session_page, try_except, set_session_page. mrun.
  destruct (dict_empty (_sessions st)); [done|].
  destruct (list.last (dict_keys (_sessions st))) as [sid|]; [|done].
  destruct (dict_get sid (_sessions st)) as [session|] eqn:Hg; [|done].
  simpl. pose proof (Hfunc st) as Hst.
  destruct (func arguments st) as [st1 [result|e]]; simpl in *; subst st1;
    [|done].
  destruct (wait_for_new_page drv (page session)) as [np|]; simpl; [|done].
  destruct (wait_for_load_state drv np) as [[]|]; simpl; [|done].
  rewrite Hg. simpl. apply dict_keys_set_prefix.
Qed.

Lemma console_handle_sessions arguments st :
  _sessions (ConsoleLogHandler.handle arguments st).1 = _sessions st.
Proof.
  unfold ConsoleLogHandler.handle, ConsoleLogHandler.handle_body, try_except.
  destruct (get_active_outcome st) as (o & Hrun & Ho).
  unfold mbind, M_bind, bind. rewrite Hrun.
  destruct o as [[sid session]|e]; simpl.
  - pose proof (setup_console_frame (page session) sid st) as (Hok & Hs & _).
    destruct (ConsoleLogHandler._setup_console_log_listener (page session) sid st)
      as [st1 o1]. simpl in *. by subst o1.
  - destruct (isinstance_ValueError e); [done|]. by rewrite Ho.
Qed.

Lemma network_handle_sessions arguments st :
  _sessions (NetworkHandler.handle arguments st).1 = _sessions st.
Proof.
  unfold NetworkHandler.handle, NetworkHandler.handle_body, try_except.
  destruct (get_active_outcome st) as (o & Hrun & Ho).
  unfold mbind, M_bind, bind. rewrite Hrun.
  destruct o as [[sid session]|e]; simpl.
  - pose proof (setup_network_frame (page session) sid st) as (Hok & Hs & _).
    destruct (NetworkHandler._setup_network_listener (page session) sid st)
      as [st1 o1]. simpl in *. by subst o1.
  - destruct (isinstance_ValueError e); [done|]. by rewrite Ho.
Qed.

Lemma dict_get_Some_elem {V} k (v : V) d : dict_get k d = Some v → (k, v) ∈ d.
Proof.
  induction d as [|[k0 v0] d IH]; simpl; [done|].
  destruct (decide (k = k0)) as [->|Hne].
  - intros [= ->]. apply elem_of_cons. by left.
  - intros Hg. apply elem_of_cons. right. by apply IH.
Qed.

(** Property X5. No tool call removes or reorders a session: for every
    tool name (known or not) and every answer of the driver, the session
    identifiers before the call are a prefix of the identifiers after it. *)
Theorem sessions_are_never_removed (drv : Driver) (name : pystr)
    (arguments : Arguments) (st : state) :
  dict_keys (_sessions st)
  `prefix_of` dict_keys (_sessions (handle_call_tool drv name arguments st).1).
Proof.
  unfold handle_call_tool.
  destruct (dict_get name tool_handlers) as [handler|] eqn:Hget; [|done].
  apply dict_get_Some_elem in Hget. unfold tool_handlers in Hget.
  pose proof (page_reading_tools_keep_state drv arguments st)
    as (Hshot & Hfill & Heval & Htext & Hhtml).
  repeat (apply elem_of_cons in Hget as [[= -> ->]|Hget]);
    [..|by apply elem_of_nil in Hget].
  - apply navigate_keys.
  - by rewrite Hshot.
  - apply decorated_keys. intros st0.
    apply with_active_page_state. intros sid p. mrun.
    by destruct (locator_click drv p (arg_selector arguments)) as [[]|].
  - by rewrite Hfill.
  - by rewrite Heval.
  - apply decorated_keys. intros st0.
    apply with_active_page_state. intros sid p. mrun.
    by destruct (locator_click_text drv p (arg_text arguments)) as [[]|].
  - by rewrite Htext.
  - by rewrite Hhtml.
  - apply new_session_keys.
  - by rewrite console_handle_sessions.
  - by rewrite network_handle_sessions.
Qed.

(** Property X6. When the browser and the page open but the initial
    [page.goto] of [playwright_new_session] raises, the exception reaches the
    caller and the session registered before the navigation stays: it is the
    last key of the mapping and the active session of later calls. *)
Theorem failed_navigation_keeps_session (drv : Driver) (arguments : Arguments)
    (st : state) (b p : nat) (url : pystr) (e : exn) :
  async_playwright_start drv = Ok tt →
  chromium_launch drv = Ok b →
  browser_new_page drv b = Ok p →
  uuid4 drv ∉ dict_keys (_sessions st) →
  arg_url arguments = Some url →
  str_truthy url = true →
  page_goto drv p (normalize_url url) = Raise e →
  ∃ st',
    NewSessionToolHandler.handle drv arguments st = (st', Raise e)
    ∧ _sessions st' = _sessions st ++ [(uuid4 drv, mk_session b p)]
    ∧ BaseToolHandler._get_active_session st'
      = (st', Ok (uuid4 drv, mk_session b p)).
Proof.
  intros Hstart Hlaunch Hpage Hfresh Hurl Htruthy Hgoto.
  pose proof (new_session_sessions drv arguments st) as Hs. simpl in Hs.
  rewrite Hstart, Hlaunch, Hpage in Hs.
  unfold NewSessionToolHandler.handle in *. mrun.
  rewrite Hstart, Hlaunch in *. simpl in *. rewrite Hpage in *. simpl in *.
  match goal with |- context [SessionInitializer.initialize_session ?a ?b ?c ?d] =>
    pose proof (initialize_session_frame a b c d) as (Hok & Hs');
    destruct (SessionInitializer.initialize_session a b c d) as [st1 o1] end.
  simpl in *. subst o1. rewrite Hurl in *. simpl in *.
  rewrite Htruthy in *. simpl in *. rewrite Hgoto in *. simpl in *.
  exists st1. split; [done|].
  rewrite dict_set_fresh in Hs by done. split; [done|].
  by apply (get_active_snoc st1 (_sessions st)).
Qed.

(** Property X7. When starting Playwright, launching the browser or
    opening the page raises, [playwright_new_session] raises that exception
    and leaves the state unchanged: no session is registered. *)
Theorem failed_launch_changes_nothing (drv : Driver) (arguments : Arguments)
    (st : state) (e : exn) :
  async_playwright_start drv = Raise e
  ∨ (async_playwright_start drv = Ok tt ∧ chromium_launch drv = Raise e)
  ∨ (∃ b, async_playwright_start drv = Ok tt ∧ chromium_launch drv = Ok b
          ∧ browser_new_page drv b = Raise e) →
  NewSessionToolHandler.handle drv arguments st = (st, Raise e).
Proof.
  unfold NewSessionToolHandler.handle. mrun.
  intros [->|[[-> ->]|(b & -> & -> & Hp)]]; simpl; [done|done|].
  by rewrite Hp.
Qed.

(** Property X8. [playwright_navigate] called without a [url] raises
    [AttributeError] (the handler calls [startswith] on [None]). With a
    session the state is unchanged; without one the session that the handler
    creates first stays registered although the call fails. *)
Theorem navigate_without_url (drv : Driver) (arguments : Arguments) (st : state) :
  arg_url arguments = None →
  let missing := mk_exn AttributeError
                   (py "'NoneType' object has no attribute 'startswith'") in
  (_sessions st ≠ [] →
   NavigateToolHandler.handle drv arguments st = (st, Raise missing))
  ∧ (∀ b p,
       _sessions st = [] →
       async_playwright_start drv = Ok tt →
       chromium_launch drv = Ok b →
       browser_new_page drv b = Ok p →
       let st1 := (NewSessionToolHandler.handle drv no_arguments st).1 in
       NavigateToolHandler.handle drv arguments st = (st1, Raise missing)
       ∧ _sessions st1 = [(uuid4 drv, mk_session b p)]).
Proof.
  intros Hurl missing. split.
  - intros Hne.
    destruct (get_active_total st Hne) as (sid & session & Hactive).
    pose proof Hactive as (He & Hl & Hg)%get_active_inv.
    unfold NavigateToolHandler.handle, last_session_page. mrun.
    rewrite He. simpl. rewrite Hl, Hg. simpl. by rewrite Hurl.
  - intros b p H0 Hstart Hlaunch Hpage st1.
    destruct (new_session_run drv no_arguments st b p Hstart Hlaunch Hpage eq_refl)
      as (st1' & text & Hrun & Hs).
    assert (st1 = st1') as <- by (subst st1; by rewrite Hrun).
    rewrite H0 in Hs. simpl in Hs. split; [|done].
    destruct (get_active_snoc st1 [] _ _ Hs) as [_ Hlast];
      [apply not_elem_of_nil|].
    unfold NavigateToolHandler.handle. mrun.
    rewrite H0. simpl. rewrite Hrun. simpl. rewrite Hlast. simpl.
    by rewrite Hurl.
Qed.

End state_effects.

Lemma failed_navigation_keeps_session_witness :
  ∃ st',
    NewSessionToolHandler.handle (H := plain_render) stuck_driver
      (url_arguments (py "example.com")) initial_state
    = (st', Raise timed_out)
    ∧ _sessions st' = [] ++ [(py "sid-1", mk_session 1 2)]
    ∧ BaseToolHandler._get_active_session st'
      = (st', Ok (py "sid-1", mk_session 1 2)).
Proof.
  refine (failed_navigation_keeps_session (H := plain_render) stuck_driver
            (url_arguments (py "example.com")) initial_state 1 2
            (py "example.com") timed_out eq_refl eq_refl eq_refl _ eq_refl
            eq_refl eq_refl).
  apply not_elem_of_nil.
Defined.

Lemma failed_launch_changes_nothing_witness :
  NewSessionToolHandler.handle (H := plain_render) no_browser_driver
    (url_arguments (py "example.com")) one_session
  = (one_session, Raise no_executable).
Proof.
  refine (failed_launch_changes_nothing (H := plain_render) no_browser_driver
            (url_arguments (py "example.com")) one_session no_executable _).
  right. left. by split.
Defined.

Lemma navigate_without_url_witness :
  NavigateToolHandler.handle (H := plain_render) (sample_driver (py "sid-1") 1 2)
    (selector_arguments (py "a#more")) one_session
  = (one_session,
     Raise (mk_exn AttributeError
              (py "'NoneType' object has no attribute 'startswith'"))).
Proof.
  refine (proj1 (navigate_without_url (H := plain_render)
                   (sample_driver (py "sid-1") 1 2)
                   (selector_arguments (py "a#more")) one_session eq_refl) _).
  by vm_compute.
Defined.


(** ** Strings: prefixes and substrings *)

Lemma startswith_spec (s p : pystr) :
  startswith s p = true ↔ ∃ rest, s = p ++ rest.
Proof.
  revert s. induction p as [|a p IH]; intros s; simpl.
  - destruct s; (split; [by eexists|done]).
  - destruct s as [|b s]; simpl.
    + split; [done|]. by intros [rest [=]].
    + rewrite andb_true_iff, N.eqb_eq, IH. split.
      * intros [-> [rest ->]]. by exists rest.
      * intros [rest [= -> ->]]. split; [done|]. by exists rest.
Qed.

Lemma str_in_spec (needle hay : pystr) :
  str_in needle hay = true ↔ ∃ before after, hay = before ++ needle ++ after.
Proof.
  induction hay as [|c hay IH].
  - destruct needle as [|a needle]; simpl.
    + split; [|done]. intros _. by exists [], [].
    + split; [done|]. intros (before & after & Hh).
      by destruct before.
  - change (str_in needle (c :: hay))
      with (startswith (c :: hay) needle || str_in needle hay).
    rewrite orb_true_iff, startswith_spec, IH. split.
    + intros [[rest ->]|(before & after & ->)].
      * by exists [], rest.
      * by exists (c :: before), after.
    + intros (before & after & Hh). destruct before as [|b before]; simpl in Hh.
      * left. by exists after.
      * right. injection Hh as -> ->. by exists before, after.
Qed.

(** Property X10. The address normalisation of the navigation tools
    either keeps the address or prefixes it with "https://"; its result always
    starts with "http://" or "https://"; it is idempotent; and an address that
    already starts with one of the two schemes is kept as it is. *)
Theorem normalize_url_gives_scheme (url : pystr) :
  (normalize_url url = url ∨ normalize_url url = py "https://" ++ url)
  ∧ (∃ rest, normalize_url url = py "http://" ++ rest
             ∨ normalize_url url = py "https://" ++ rest)
  ∧ normalize_url (normalize_url url) = normalize_url url
  ∧ (∀ rest, url = py "http://" ++ rest ∨ url = py "https://" ++ rest →
             normalize_url url = url).
Proof.
  assert (∀ u rest, u = py "http://" ++ rest ∨ u = py "https://" ++ rest →
                    normalize_url u = u) as Hkeep.
  { intros u rest Hu. unfold normalize_url.
    destruct Hu as [Hu|Hu].
    - replace (startswith u (py "http://")) with true; [done|].
      symmetry. apply startswith_spec. by exists rest.
    - replace (startswith u (py "https://")) with true;
        [by rewrite andb_false_r|].
      symmetry. apply startswith_spec. by exists rest. }
  assert (∃ rest, normalize_url url = py "http://" ++ rest
                  ∨ normalize_url url = py "https://" ++ rest) as [rest Hscheme].
  { unfold normalize_url.
    destruct (startswith url (py "http://")) eqn:H1; simpl.
    - apply startswith_spec in H1 as [rest ->]. exists rest. by left.
    - destruct (startswith url (py "https://")) eqn:H2; simpl.
      + apply startswith_spec in H2 as [rest ->]. exists rest. by right.
      + exists url. by right. }
  split; [|split; [by exists rest|split]].
  - unfold normalize_url.
    destruct (negb (startswith url (py "http://"))
              && negb (startswith url (py "https://"))); [by right|by left].
  - by apply (Hkeep _ rest).
  - intros rest'. apply Hkeep.
Qed.

(** ** Limits of the queries *)

Lemma slice_from_pos {A} (k : Z) (l : list A) :
  0 ≤ k → slice_from k l = drop (Z.to_nat k) l.
Proof.
  intros Hk. unfold slice_from.
  replace (k <? 0) with false by (symmetry; apply Z.ltb_ge; lia).
  destruct (decide (k ≤ Z.of_nat (length l))) as [Hle|Hgt].
  - by replace (k `min` Z.of_nat (length l)) with k by lia.
  - replace (k `min` Z.of_nat (length l)) with (Z.of_nat (length l)) by lia.
    rewrite Nat2Z.id, !drop_ge; [done|lia|lia].
Qed.

Lemma args_truthy_limit a n : arg_limit a = Some n → args_truthy a = true.
Proof. intros Hl. unfold args_truthy. rewrite Hl. simpl. by rewrite !orb_true_r. Qed.

(** Property X12. Without a [limit] argument a console query returns the last
    100 matching entries and a network query the last 50 matching events. *)
Theorem default_limits (arguments : Arguments) (logs : list ConsoleEntry)
    (events : list NetEvent) :
  arg_limit arguments = None →
  ConsoleLogHandler.select_logs arguments logs
  = lastn 100 (filter (λ log, log_matches arguments log) logs)
  ∧ NetworkHandler.select_events arguments events
    = lastn 50 (filter (λ e, event_matches arguments e) events).
Proof.
  intros Hl. unfold ConsoleLogHandler.select_logs, NetworkHandler.select_events.
  rewrite Hl, filter_logs_matches, filter_events_matches. simpl.
  destruct (args_truthy arguments);
    by rewrite (slice_from_neg 100), (slice_from_neg 50) by lia.
Qed.

Lemma default_limits_witness :
  ConsoleLogHandler.select_logs no_arguments
    (replicate 120 (sample_log (py "log") (py "tick")))
  = replicate 100 (sample_log (py "log") (py "tick")).
Proof.
  exact (proj1 (default_limits no_arguments
                  (replicate 120 (sample_log (py "log") (py "tick"))) []
                  eq_refl)).
Defined.

(** Property X13. A [limit] that is zero or negative does not limit from
    the end: for [limit = -k] with [k >= 0] the slice [logs[-limit:]] is
    [logs[k:]], so the query skips the first [k] matching entries and returns
    the rest; [limit = 0] returns every matching entry. *)
Theorem limit_zero_or_negative (arguments : Arguments) (k : Z)
    (logs : list ConsoleEntry) (events : list NetEvent) :
  0 ≤ k →
  arg_limit arguments = Some (- k) →
  ConsoleLogHandler.select_logs arguments logs
  = drop (Z.to_nat k) (filter (λ log, log_matches arguments log) logs)
  ∧ NetworkHandler.select_events arguments events
    = drop (Z.to_nat k) (filter (λ e, event_matches arguments e) events).
Proof.
  intros Hk Hl. unfold ConsoleLogHandler.select_logs, NetworkHandler.select_events.
  rewrite (args_truthy_limit _ _ Hl), Hl, filter_logs_matches,
    filter_events_matches. simpl.
  rewrite Z.opp_involutive. by rewrite !slice_from_pos by done.
Qed.

Lemma limit_zero_or_negative_witness :
  ConsoleLogHandler.select_logs (limit_arguments None 0)
    [sample_log (py "log") (py "a"); sample_log (py "error") (py "b")]
  = [sample_log (py "log") (py "a"); sample_log (py "error") (py "b")].
Proof.
  refine (proj1 (limit_zero_or_negative (limit_arguments None 0) 0
                   [sample_log (py "log") (py "a");
                    sample_log (py "error") (py "b")] [] _ eq_refl)).
  lia.
Defined.

(** Property X11. The filters of the two log queries keep exactly the
    entries that satisfy all the given criteria: a console entry is kept iff
    its type equals a given non-empty [type]; a network event is kept iff its
    URL contains the given [url] as a substring, its method and resource type
    equal the given non-empty ones, and it has a status within the given
    bounds. *)
Theorem filters_select_exactly (arguments : Arguments)
    (logs : list ConsoleEntry) (events : list NetEvent) :
  (∀ log, log ∈ ConsoleLogHandler.filter_logs arguments logs ↔
     log ∈ logs
     ∧ (∀ t, arg_type arguments = Some t → t ≠ [] → log_type log = t))
  ∧ (∀ e, e ∈ NetworkHandler.filter_events arguments events ↔
       e ∈ events
       ∧ (∀ u, arg_url arguments = Some u →
               ∃ before after, ev_url e = before ++ u ++ after)
       ∧ (∀ m, arg_method arguments = Some m → m ≠ [] → ev_method e = m)
       ∧ (∀ lo, arg_status_min arguments = Some lo →
                ∃ s, ev_status e = Some s ∧ lo ≤ s)
       ∧ (∀ hi, arg_status_max arguments = Some hi →
                ∃ s, ev_status e = Some s ∧ s ≤ hi)
       ∧ (∀ r, arg_resource_type arguments = Some r → r ≠ [] →
               ev_resource_type e = r)).
Proof.
  assert (∀ wanted x, field_matches wanted x = true ↔
            ∀ t, wanted = Some t → t ≠ [] → x = t) as Hfield.
  { intros [t|] x; simpl.
    - destruct t as [|c t]; simpl.
      + split; [|done]. by intros _ t [= <-].
      + rewrite bool_decide_eq_true. split.
        * by intros -> t' [= <-].
        * intros Ht. by apply Ht.
    - split; [|done]. by intros _ t. }
  split.
  - intros log. rewrite filter_logs_matches, list_elem_of_filter.
    unfold log_matches. rewrite Is_true_true, Hfield. tauto.
  - intros e. rewrite filter_events_matches, list_elem_of_filter.
    unfold event_matches. rewrite Is_true_true, !andb_true_iff, !Hfield.
    assert (match arg_url arguments with
            | Some u => if str_truthy u then str_in u (ev_url e) else true
            | None => true
            end = true
            ↔ ∀ u, arg_url arguments = Some u →
                   ∃ before after, ev_url e = before ++ u ++ after) as ->.
    { destruct (arg_url arguments) as [u|]; [|by split].
      destruct u as [|c u]; simpl.
      - split; [|done]. intros _ u [= <-]. by exists [], (ev_url e).
      - rewrite str_in_spec. split.
        + by intros Hin u' [= <-].
        + intros Hu. by apply Hu. }
    assert (match arg_status_min arguments with
            | Some m => NetworkHandler.status_ge m e
            | None => true
            end = true
            ↔ ∀ lo, arg_status_min arguments = Some lo →
                    ∃ s, ev_status e = Some s ∧ lo ≤ s) as ->.
    { unfold NetworkHandler.status_ge.
      destruct (arg_status_min arguments) as [m|]; [|by split].
      destruct (ev_status e) as [s|].
      - rewrite Z.leb_le. split.
        + intros Hle lo [= <-]. by exists s.
        + intros Hlo. destruct (Hlo m eq_refl) as (s' & [= <-] & Hle). done.
      - split; [done|]. intros Hlo. by destruct (Hlo m eq_refl) as (s' & [=] & _). }
    assert (match arg_status_max arguments with
            | Some m => NetworkHandler.status_le m e
            | None => true
            end = true
            ↔ ∀ hi, arg_status_max arguments = Some hi →
                    ∃ s, ev_status e = Some s ∧ s ≤ hi) as ->.
    { unfold NetworkHandler.status_le.
      destruct (arg_status_max arguments) as [m|]; [|by split].
      destruct (ev_status e) as [s|].
      - rewrite Z.leb_le. split.
        + intros Hle hi [= <-]. by exists s.
        + intros Hhi. destruct (Hhi m eq_refl) as (s' & [= <-] & Hle). done.
      - split; [done|]. intros Hhi. by destruct (Hhi m eq_refl) as (s' & [=] & _). }
    tauto.
Qed.

(** ** The closures and the recorded events *)

Lemma recorded_grows_refl st : recorded_grows st st.
Proof. repeat split; eauto. Qed.

Lemma recorded_grows_trans st1 st2 st3 :
  recorded_grows st1 st2 → recorded_grows st2 st3 → recorded_grows st1 st3.
Proof.
  intros (Hs & Hp & Hl & He) (Hs' & Hp' & Hl' & He').
  split; [congruence|]. split; [congruence|]. split.
  - intros sid logs Hlogs. destruct (Hl _ _ Hlogs) as (logs' & Hlogs' & Hpre).
    destruct (Hl' _ _ Hlogs') as (logs'' & Hlogs'' & Hpre').
    exists logs''. split; [done|]. by etrans.
  - intros sid events Hev. destruct (He _ _ Hev) as (ev' & Hev' & Hpre).
    destruct (He' _ _ Hev') as (ev'' & Hev'' & Hpre').
    exists ev''. split; [done|]. by etrans.
Qed.

Lemma request_part_patched response headers event :
  request_part (patched response headers event) = request_part event.
Proof.
  unfold patched.
  destruct (resp_body response) as [body|]; simpl; [|done].
  destruct ((Z.of_nat (length body) <? 10240) && _); simpl; [|done].
  by destruct (decode_utf8 body).
Qed.

(** The three shapes of the state after a closure has run. *)
Lemma handle_console_cases drv sid p msg st :
  ConsoleLogHandler.handle_console drv sid p msg st = (st, (ConsoleLogHandler.handle_console drv sid p msg st).2)
  ∨ ∃ logs entry,
      _console_logs st !! sid = Some logs
      ∧ ConsoleLogHandler.handle_console drv sid p msg st
        = (set_console_logs <[sid := logs ++ [entry]]> st, Ok tt).
Proof.
  unfold ConsoleLogHandler.handle_console. mrun.
  destruct (msg_page_url msg) as [url|]; simpl; [|by left].
  destruct (page_evaluate drv p _) as [ts|]; simpl; [|by left].
  destruct (_console_logs st !! sid) as [logs|] eqn:Hl; simpl; [|by left].
  right. by do 2 eexists.
Qed.

Lemma handle_request_cases drv sid p request st :
  (NetworkHandler.handle_request drv sid p request st).1 = st
  ∨ ∃ events event,
      _network_events st !! sid = Some events
      ∧ ev_response_body event = None
      ∧ NetworkHandler.handle_request drv sid p request st
        = (set_network_events <[sid := events ++ [event]]> st, Ok tt).
Proof.
  unfold NetworkHandler.handle_request, try_except. mrun.
  destruct (req_all_headers request) as [headers|e]; simpl;
    [|left; by destruct (isinstance_Exception e)].
  destruct (req_post_data request) as [d|e0]; simpl;
    (destruct (page_evaluate drv p _) as [ts|e]; simpl;
       [|left; by destruct (isinstance_Exception e)]);
    (destruct (_network_events st !! sid) as [events|] eqn:Hev; simpl;
       [|by left]);
    right; do 2 eexists;
    (split; [reflexivity|split; [|reflexivity]]); reflexivity.
Qed.

Lemma handle_response_cases sid response st :
  (NetworkHandler.handle_response sid response st).1 = st
  ∨ ∃ events i event headers,
      _network_events st !! sid = Some events
      ∧ events !! i = Some event
      ∧ NetworkHandler.handle_response sid response st
        = (set_network_events
             <[sid := <[i := patched response headers event]> events]> st,
           Ok tt).
Proof.
  destruct (_network_events st !! sid) as [events|] eqn:Hs.
  - destruct (list_find (λ e, ev_id e = resp_request_id response) events)
      as [[i event]|] eqn:Hfind.
    + destruct (resp_all_headers response) as [headers|e] eqn:Hh.
      * right. exists events, i, event, headers.
        pose proof Hfind as (Hi & _ & _)%list_find_Some.
        split; [done|]. split; [done|]. by apply handle_response_matched.
      * left. unfold NetworkHandler.handle_response, try_except. mrun.
        rewrite Hs, Hfind, Hh. simpl. by destruct (isinstance_Exception e).
    + left. by rewrite (handle_response_unmatched _ _ _ _ Hs Hfind).
  - left. unfold NetworkHandler.handle_response, try_except. mrun.
    by rewrite Hs.
Qed.

Lemma console_append_grows st sid logs entry :
  _console_logs st !! sid = Some logs →
  recorded_grows st (set_console_logs <[sid := logs ++ [entry]]> st).
Proof.
  intros Hl. split; [done|]. split; [done|]. split; [|by eauto].
  intros sid' logs' Hl'. simpl. destruct (decide (sid = sid')) as [->|Hne].
  - rewrite lookup_insert_eq. eexists. split; [done|].
    rewrite Hl in Hl'. injection Hl' as ->. by apply prefix_app_r.
  - rewrite lookup_insert_ne by done. eauto.
Qed.

Lemma request_append_grows st sid events event :
  _network_events st !! sid = Some events →
  recorded_grows st (set_network_events <[sid := events ++ [event]]> st).
Proof.
  intros Hev. split; [done|]. split; [done|]. split; [by eauto|].
  intros sid' events' Hev'. simpl. destruct (decide (sid = sid')) as [->|Hne].
  - rewrite lookup_insert_eq. eexists. split; [done|].
    rewrite Hev in Hev'. injection Hev' as ->.
    rewrite fmap_app. by apply prefix_app_r.
  - rewrite lookup_insert_ne by done. eauto.
Qed.

Lemma response_patch_grows st sid events i event response headers :
  _network_events st !! sid = Some events →
  events !! i = Some event →
  recorded_grows st
    (set_network_events
       <[sid := <[i := patched response headers event]> events]> st).
Proof.
  intros Hev Hi. split; [done|]. split; [done|]. split; [by eauto|].
  intros sid' events' Hev'. simpl. destruct (decide (sid = sid')) as [->|Hne].
  - rewrite lookup_insert_eq. eexists. split; [done|].
    rewrite Hev in Hev'. injection Hev' as ->.
    rewrite list_fmap_insert, request_part_patched.
    rewrite list_insert_id; [done|]. by rewrite list_lookup_fmap, Hi.
  - rewrite lookup_insert_ne by done. eauto.
Qed.

Lemma invoke_grows drv cb ev st : recorded_grows st (invoke drv cb ev st).1.
Proof.
  destruct cb as [sid p|sid p|sid p], ev as [msg|request|response]; simpl;
    try apply recorded_grows_refl.
  - destruct (handle_console_cases drv sid p msg st)
      as [->|(logs & entry & Hl & ->)]; simpl.
    + apply recorded_grows_refl.
    + by apply console_append_grows.
  - destruct (handle_request_cases drv sid p request st)
      as [->|(events & event & Hev & _ & ->)]; simpl.
    + apply recorded_grows_refl.
    + by apply request_append_grows.
  - destruct (handle_response_cases sid response st)
      as [->|(events & i & event & headers & Hev & Hi & ->)]; simpl.
    + apply recorded_grows_refl.
    + by apply response_patch_grows.
Qed.

Lemma deliver_grows drv subs ev st : recorded_grows st (deliver drv subs ev st).1.
Proof.
  revert st. induction subs as [|[name cb] subs IH]; intros st; simpl.
  - apply recorded_grows_refl.
  - destruct (bool_decide (name = event_name ev)); [|apply IH].
    pose proof (invoke_grows drv cb ev st) as Hinv.
    destruct (invoke drv cb ev st) as [st1 [[]|e]]; simpl in *.
    + by eapply recorded_grows_trans.
    + pose proof (IH st1) as Hrest.
      destruct (deliver drv subs ev st1) as [st2 escaped]. simpl in *.
      by eapply recorded_grows_trans.
Qed.

(** Property X15. The delivery of a browser event to the closures
    subscribed on a page never changes the sessions or the page
    instrumentation, never removes a list, only appends to console logs, and
    keeps the request parts of the recorded network events in their order
    (events are appended, and a response only fills response fields). *)
Theorem event_delivery_only_grows (drv : Driver) (page : nat)
    (ev : BrowserEvent) (st : state) :
  recorded_grows st (emit drv page ev st).1.
Proof. apply deliver_grows. Qed.

(** Property X14. A console, request or response closure changes
    only the lists of the session it was created for: the console log and the
    network events of every other session are the same after the call,
    whatever the event and the answers of the driver. *)
Theorem closures_touch_only_their_session (drv : Driver) (cb : Callback)
    (ev : BrowserEvent) (st : state) (sid : pystr) :
  sid ≠ callback_session cb →
  let st' := (invoke drv cb ev st).1 in
  _console_logs st' !! sid = _console_logs st !! sid
  ∧ _network_events st' !! sid = _network_events st !! sid.
Proof.
  intros Hne st'. subst st'.
  destruct cb as [sid0 p|sid0 p|sid0 p], ev as [msg|request|response];
    simpl in *; try done.
  - destruct (handle_console_cases drv sid0 p msg st)
      as [->|(logs & entry & Hl & ->)]; simpl; [done|].
    by rewrite lookup_insert_ne.
  - destruct (handle_request_cases drv sid0 p request st)
      as [->|(events & event & Hev & _ & ->)]; simpl; [done|].
    by rewrite lookup_insert_ne.
  - destruct (handle_response_cases sid0 response st)
      as [->|(events & i & event & headers & Hev & Hi & ->)]; simpl; [done|].
    by rewrite lookup_insert_ne.
Qed.

Lemma closures_touch_only_their_session_witness :
  let st' := (invoke (sample_driver (py "sid-2") 3 4)
                (RequestCallback (py "sid-2") 4)
                (RequestEvent (sample_request 8)) one_pending).1 in
  _console_logs st' !! py "sid-1" = _console_logs one_pending !! py "sid-1"
  ∧ _network_events st' !! py "sid-1" = _network_events one_pending !! py "sid-1".
Proof.
  refine (closures_touch_only_their_session (sample_driver (py "sid-2") 3 4)
            (RequestCallback (py "sid-2") 4) (RequestEvent (sample_request 8))
            one_pending (py "sid-1") _).
  by vm_compute.
Defined.

(** ** Splitting and joining lines *)

Lemma split_lines_aux_nonempty cur s : split_lines_aux cur s ≠ [].
Proof.
  revert cur. induction s as [|c s IH]; intros cur; simpl; [done|].
  destruct (c =? 10)%N; [done|apply IH].
Qed.

Lemma str_join_cons sep p rest :
  rest ≠ [] → str_join sep (p :: rest) = p ++ sep ++ str_join sep rest.
Proof. by destruct rest. Qed.

Lemma join_split_lines_aux cur s :
  str_join nl (split_lines_aux cur s) = rev cur ++ s.
Proof.
  revert cur. induction s as [|c s IH]; intros cur; simpl.
  - by rewrite app_nil_r.
  - destruct (c =? 10)%N eqn:Hc.
    + apply N.eqb_eq in Hc as ->.
      rewrite str_join_cons by apply split_lines_aux_nonempty.
      by rewrite IH.
    + rewrite IH. simpl. by rewrite <- app_assoc.
Qed.

Lemma join_split_lines s : str_join nl (split_lines s) = s.
Proof. apply join_split_lines_aux. Qed.

Lemma split_lines_aux_no_newline cur s line :
  10%N ∉ cur → line ∈ split_lines_aux cur s → 10%N ∉ line.
Proof.
  revert cur. induction s as [|c s IH]; intros cur Hcur; simpl.
  - intros ->%list_elem_of_singleton. by rewrite list_elem_of_In, <- in_rev, <- list_elem_of_In.
  - destruct (c =? 10)%N eqn:Hc.
    + intros [->|Hin]%elem_of_cons.
      * by rewrite list_elem_of_In, <- in_rev, <- list_elem_of_In.
      * apply (IH []); [|done]. by intros ?%elem_of_nil.
    + apply IH. apply N.eqb_neq in Hc.
      intros [?|?]%elem_of_cons; [congruence|done].
Qed.

Lemma split_lines_no_newline s line : line ∈ split_lines s → 10%N ∉ line.
Proof. apply split_lines_aux_no_newline. by intros ?%elem_of_nil. Qed.

Section shown_body.
Context `{Render}.

Lemma format_body_lines event body :
  ∃ pretty,
    NetworkHandler.format_body event body
    = (λ line, py "    " ++ line)
      <$> split_lines (if (1000 <? length pretty)%nat
                       then slice_to 1000 pretty ++ py "... [truncated]"
                       else pretty)
    ∧ (pretty = body
       ∨ ∃ h, ev_response_headers event = Some h
              ∧ str_in (py "json") (headers_get (py "content-type") [] h) = true
              ∧ json_pretty body = Some pretty).
Proof.
  unfold NetworkHandler.format_body.
  destruct (ev_response_headers event) as [h|]; [|by exists body; split; [|left]].
  destruct (str_in (py "json") (headers_get (py "content-type") [] h)) eqn:Hj;
    [|by exists body; split; [|left]].
  destruct (json_pretty body) as [pretty|] eqn:Hp; simpl.
  - exists pretty. split; [done|]. right. by exists h.
  - exists body. split; [done|]. by left.
Qed.

(** Property X19. The lines that show a response body all start with
    four spaces and contain no newline; with the indentation removed and
    joined by newlines again they give back the body (pretty-printed when the
    content type is JSON and the printer succeeds) if it has at most 1000
    characters, and otherwise its first 1000 characters followed by
    "... [truncated]"; at most 1015 characters are shown. *)
Theorem shown_body_is_cut_at_1000 (event : NetEvent) (body : pystr) :
  let lines := NetworkHandler.format_body event body in
  let shown := str_join nl (drop 4 <$> lines) in
  (∀ line, line ∈ lines → take 4 line = py "    " ∧ 10%N ∉ drop 4 line)
  ∧ (length shown ≤ 1015)%nat
  ∧ ∃ pretty,
      (pretty = body
       ∨ ∃ h, ev_response_headers event = Some h
              ∧ str_in (py "json") (headers_get (py "content-type") [] h) = true
              ∧ json_pretty body = Some pretty)
      ∧ ((length pretty ≤ 1000)%nat → shown = pretty)
      ∧ ((1000 < length pretty)%nat →
         shown = take 1000 pretty ++ py "... [truncated]").
Proof.
  intros lines shown. subst lines shown.
  destruct (format_body_lines event body) as (pretty & -> & Hpretty).
  unfold pystr in *.
  assert (∀ l : list (list N),
            drop 4 <$> ((λ line, py "    " ++ line) <$> l) = l) as Hstrip.
  { intros l. rewrite <- list_fmap_compose. rewrite <- (list_fmap_id l) at 2.
    apply list_fmap_ext. by intros i line _. }
  rewrite Hstrip, join_split_lines.
  split; [|split].
  - intros line (l0 & -> & Hin)%list_elem_of_fmap. split; [done|].
    change (drop 4 (py "    " ++ l0)) with l0. exact (split_lines_no_newline _ _ Hin).
  - destruct (1000 <? length pretty)%nat eqn:Hlen.
    + apply Nat.ltb_lt in Hlen. unfold slice_to.
      rewrite length_app, length_take.
      change (length (py "... [truncated]")) with 15%nat. lia.
    + apply Nat.ltb_ge in Hlen. lia.
  - exists pretty. split; [done|]. split; intros Hlen.
    + by apply Nat.ltb_ge in Hlen as ->.
    + by apply Nat.ltb_lt in Hlen as ->.
Qed.

End shown_body.

(** ** The decoder never lengthens *)

Lemma decode_utf8_N_length_aux n :
  ∀ bs s, (length bs ≤ n)%nat → decode_utf8_N bs = Some s →
          (length s ≤ length bs)%nat.
Proof.
  induction n as [|n IH]; intros bs s Hn.
  - destruct bs; [|simpl in Hn; lia]. by intros [= <-].
  - destruct bs as [|b0 r0]; [by intros [= <-]|]. simpl in Hn.
    cbn [decode_utf8_N].
    destruct (b0 <? 128)%N.
    { destruct (decode_utf8_N r0) as [s0|] eqn:Hr; [|done].
      intros [= <-]. simpl. apply IH in Hr; lia. }
    destruct (in_range 194 223 b0).
    { destruct r0 as [|b1 r1]; [done|]. destruct (is_cont b1); [|done].
      destruct (decode_utf8_N r1) as [s0|] eqn:Hr; [|done].
      intros [= <-]. simpl in *. apply IH in Hr; lia. }
    destruct (in_range 224 239 b0).
    { destruct r0 as [|b1 [|b2 r2]]; [done|done|].
      destruct (in_range _ _ b1 && is_cont b2); [|done].
      destruct (decode_utf8_N r2) as [s0|] eqn:Hr; [|done].
      intros [= <-]. simpl in *. apply IH in Hr; lia. }
    destruct (in_range 240 244 b0); [|done].
    destruct r0 as [|b1 [|b2 [|b3 r3]]]; [done|done|done|].
    destruct (in_range _ _ b1 && is_cont b2 && is_cont b3); [|done].
    destruct (decode_utf8_N r3) as [s0|] eqn:Hr; [|done].
    intros [= <-]. simpl in *. apply IH in Hr; lia.
Qed.

Lemma decode_utf8_length body text :
  decode_utf8 body = Some text → (length text ≤ length body)%nat.
Proof.
  unfold decode_utf8. intros Hd.
  apply (decode_utf8_N_length_aux _ _ _ (le_n _)) in Hd.
  by rewrite length_fmap in Hd.
Qed.

(** ** The bound on the stored bodies *)

Lemma patched_body response headers event text :
  ev_response_body (patched response headers event) = Some text →
  ev_response_body event = Some text ∨ Z.of_nat (length text) < 10240.
Proof.
  unfold patched. destruct (resp_body response) as [body|e]; simpl; [|by left].
  destruct (Z.of_nat (length body) <? 10240) eqn:Hlen; simpl; [|by left].
  destruct (NetworkHandler.textual _); simpl; [|by left].
  destruct (decode_utf8 body) as [t|] eqn:Hd; simpl; [|by left].
  intros [= <-]. right. apply decode_utf8_length in Hd.
  apply Z.ltb_lt in Hlen. lia.
Qed.

Lemma invoke_bodies_small drv cb ev st :
  bodies_small st → bodies_small (invoke drv cb ev st).1.
Proof.
  intros Hst.
  destruct cb as [sid p|sid p|sid p], ev as [msg|request|response]; simpl;
    try done.
  - destruct (handle_console_cases drv sid p msg st)
      as [->|(logs & entry & Hl & ->)]; simpl; [done|]. exact Hst.
  - destruct (handle_request_cases drv sid p request st)
      as [->|(events & event & Hev & Hnone & ->)]; simpl; [done|].
    intros sid' events' e text. simpl.
    destruct (decide (sid = sid')) as [<-|Hne].
    + rewrite lookup_insert_eq. intros [= <-] [Hin|Hin]%elem_of_app Hb.
      * by eapply Hst.
      * apply list_elem_of_singleton in Hin as ->. congruence.
    + rewrite lookup_insert_ne by done. apply Hst.
  - destruct (handle_response_cases sid response st)
      as [->|(events & i & event & headers & Hev & Hi & ->)]; simpl; [done|].
    intros sid' events' e text. simpl.
    destruct (decide (sid = sid')) as [<-|Hne].
    + rewrite lookup_insert_eq. intros [= <-] Hin Hb.
      apply list_elem_of_lookup in Hin as [j Hj].
      destruct (decide (i = j)) as [<-|Hij].
      * rewrite list_lookup_insert_eq in Hj
          by (by apply lookup_lt_Some in Hi).
        injection Hj as <-.
        apply patched_body in Hb as [Hb|Hb]; [|done].
        eapply Hst; [done| |done]. by eapply list_elem_of_lookup_2.
      * rewrite list_lookup_insert_ne in Hj by done.
        eapply Hst; [done| |done]. by eapply list_elem_of_lookup_2.
    + rewrite lookup_insert_ne by done. apply Hst.
Qed.

Lemma deliver_bodies_small drv subs ev st :
  bodies_small st → bodies_small (deliver drv subs ev st).1.
Proof.
  revert st. induction subs as [|[name cb] subs IH]; intros st Hst; simpl;
    [done|].
  destruct (bool_decide (name = event_name ev)); [|by apply IH].
  pose proof (invoke_bodies_small drv cb ev st Hst) as Hinv.
  destruct (invoke drv cb ev st) as [st1 [[]|e]]; simpl in *.
  - by apply IH.
  - pose proof (IH st1 Hinv) as Hrest.
    by destruct (deliver drv subs ev st1) as [st2 escaped].
Qed.

(** ** Tool calls and the recorded data *)

Lemma records_kept_refl st : records_kept st st.
Proof. split; intros sid; by left. Qed.

Lemma records_kept_same st st' :
  _console_logs st' = _console_logs st →
  _network_events st' = _network_events st → records_kept st st'.
Proof. intros Hl He. split; intros sid; left; congruence. Qed.

Lemma records_kept_trans st1 st2 st3 :
  records_kept st1 st2 → records_kept st2 st3 → records_kept st1 st3.
Proof.
  intros [Hl12 He12] [Hl23 He23]. split; intros sid.
  - destruct (Hl12 sid) as [H12|[H1 H2]], (Hl23 sid) as [H23|[H2' H3]].
    + left. congruence.
    + right. split; congruence.
    + right. split; congruence.
    + congruence.
  - destruct (He12 sid) as [H12|[H1 H2]], (He23 sid) as [H23|[H2' H3]].
    + left. congruence.
    + right. split; congruence.
    + right. split; congruence.
    + congruence.
Qed.

Lemma ensure_logs_kept sid st : records_kept st (ensure_logs sid st).
Proof.
  unfold ensure_logs. destruct (_console_logs st !! sid) eqn:Hl.
  - apply records_kept_refl.
  - split; intros sid'; simpl; [|by left].
    destruct (decide (sid = sid')) as [<-|Hne].
    + right. by rewrite lookup_insert_eq.
    + left. by rewrite lookup_insert_ne.
Qed.

Lemma ensure_events_kept sid st : records_kept st (ensure_events sid st).
Proof.
  unfold ensure_events. destruct (_network_events st !! sid) eqn:Hl.
  - apply records_kept_refl.
  - split; intros sid'; simpl; [by left|].
    destruct (decide (sid = sid')) as [<-|Hne].
    + right. by rewrite lookup_insert_eq.
    + left. by rewrite lookup_insert_ne.
Qed.

Lemma setup_console_kept p sid st :
  records_kept st (ConsoleLogHandler._setup_console_log_listener p sid st).1.
Proof.
  rewrite setup_console_run. simpl.
  destruct (hasattr p "_console_listener_added" st); [apply ensure_logs_kept|].
  eapply records_kept_trans; [apply ensure_logs_kept|].
  by apply records_kept_same.
Qed.

Lemma setup_network_kept p sid st :
  records_kept st (NetworkHandler._setup_network_listener p sid st).1.
Proof.
  rewrite setup_network_run. simpl.
  destruct (hasattr p "_network_listener_added" st); [apply ensure_events_kept|].
  eapply records_kept_trans; [apply ensure_events_kept|].
  by apply records_kept_same.
Qed.

Lemma initialize_session_kept sid p st :
  records_kept st (SessionInitializer.initialize_session sid p tool_names st).1.
Proof.
  rewrite initialize_session_run.
  eapply records_kept_trans; [apply setup_console_kept|apply setup_network_kept].
Qed.

Lemma records_kept_bodies st st' :
  records_kept st st' → bodies_small st → bodies_small st'.
Proof.
  intros [_ He] Hst sid events e text Hev Hin Hb.
  destruct (He sid) as [Heq|[_ Hnew]].
  - rewrite Heq in Hev. by eapply Hst.
  - rewrite Hnew in Hev. injection Hev as <-. by apply elem_of_nil in Hin.
Qed.

Section tool_records.
Context `{Render}.

Lemma new_session_kept drv arguments st :
  records_kept st (NewSessionToolHandler.handle drv arguments st).1.
Proof.
  unfold NewSessionToolHandler.handle. mrun.
  destruct (async_playwright_start drv) as [[]|]; [|apply records_kept_refl].
  destruct (chromium_launch drv) as [b|]; [|apply records_kept_refl].
  destruct (browser_new_page drv b) as [p|]; [|apply records_kept_refl].
  match goal with |- context [SessionInitializer.initialize_session ?a ?b ?c ?d] =>
    pose proof (initialize_session_frame a b c d) as (Hok & Hs);
    pose proof (initialize_session_kept a b d) as Hkept;
    destruct (SessionInitializer.initialize_session a b c d) as [st1 o1] end.
  simpl in *. subst o1.
  assert (records_kept st st1) as Hst1.
  { eapply records_kept_trans; [|exact Hkept]. by apply records_kept_same. }
  destruct (opt_truthy (arg_url arguments)); simpl; [|done].
  match goal with |- context [page_goto ?a ?b ?c] => destruct (page_goto a b c) end;
    done.
Qed.

Lemma navigate_kept drv arguments st :
  records_kept st (NavigateToolHandler.handle drv arguments st).1.
Proof.
  destruct (_sessions st) as [|kv d] eqn:Hs.
  - pose proof (new_session_kept drv no_arguments st) as Hnew.
    unfold NavigateToolHandler.handle, last_session_page. mrun.
    rewrite Hs. simpl.
    destruct (NewSessionToolHandler.handle drv no_arguments st) as [st1 [c|e]];
      simpl in *; [|done].
    destruct (list.last (dict_keys (_sessions st1))) as [sid|]; [|done].
    destruct (dict_get sid (_sessions st1)) as [session|]; [|done]. simpl.
    destruct (arg_url arguments) as [url|]; simpl; [|done].
    destruct (page_goto drv (page session) (normalize_url url)); simpl; [|done].
    pose proof (page_reading_tools_keep_state drv no_arguments st1)
      as (_ & _ & _ & Htext & _).
    destruct (GetTextContentToolHandler.handle drv no_arguments st1)
      as [st2 [c2|e2]]; simpl in *; by subst.
  - rewrite navigate_on_sessions by (by rewrite Hs). apply records_kept_refl.
Qed.

Lemma decorated_kept drv func arguments st :
  (∀ st0, (func arguments st0).1 = st0) →
  records_kept st (update_page_after_click drv func arguments st).1.
Proof.
  intros Hfunc. unfold update_page_after_click, with_active_page,
    last_session_page, try_except, set_session_page. mrun.
  destruct (dict_empty (_sessions st)); [apply records_kept_refl|].
  destruct (list.last (dict_keys (_sessions st))) as [sid|];
    [|apply records_kept_refl].
  destruct (dict_get sid (_sessions st)) as [session|] eqn:Hg;
    [|apply records_kept_refl].
  simpl. pose proof (Hfunc st) as Hst.
  destruct (func arguments st) as [st1 [result|e]]; simpl in *; subst st1;
    [|apply records_kept_refl].
  destruct (wait_for_new_page drv (page session)) as [np|]; simpl;
    [|apply records_kept_refl].
  destruct (wait_for_load_state drv np) as [[]|]; simpl;
    [|apply records_kept_refl].
  rewrite Hg. simpl. by apply records_kept_same.
Qed.

Lemma console_handle_kept arguments st :
  records_kept st (ConsoleLogHandler.handle arguments st).1.
Proof.
  unfold ConsoleLogHandler.handle, ConsoleLogHandler.handle_body, try_except.
  destruct (get_active_outcome st) as (o & Hrun & Ho).
  unfold mbind, M_bind, bind. rewrite Hrun.
  destruct o as [[sid session]|e]; simpl.
  - pose proof (setup_console_frame (page session) sid st) as (Hok & _).
    pose proof (setup_console_kept (page session) sid st) as Hkept.
    destruct (ConsoleLogHandler._setup_console_log_listener (page session) sid st)
      as [st1 o1]. simpl in *. by subst o1.
  - destruct (isinstance_ValueError e); [apply records_kept_refl|].
    rewrite Ho. apply records_kept_refl.
Qed.

Lemma network_handle_kept arguments st :
  records_kept st (NetworkHandler.handle arguments st).1.
Proof.
  unfold NetworkHandler.handle, NetworkHandler.handle_body, try_except.
  destruct (get_active_outcome st) as (o & Hrun & Ho).
  unfold mbind, M_bind, bind. rewrite Hrun.
  destruct o as [[sid session]|e]; simpl.
  - pose proof (setup_network_frame (page session) sid st) as (Hok & _).
    pose proof (setup_network_kept (page session) sid st) as Hkept.
    destruct (NetworkHandler._setup_network_listener (page session) sid st)
      as [st1 o1]. simpl in *. by subst o1.
  - destruct (isinstance_ValueError e); [apply records_kept_refl|].
    rewrite Ho. apply records_kept_refl.
Qed.

Lemma tool_call_records_kept drv name arguments st :
  records_kept st (handle_call_tool drv name arguments st).1.
Proof.
  unfold handle_call_tool.
  destruct (dict_get name tool_handlers) as [handler|] eqn:Hget;
    [|apply records_kept_refl].
  apply dict_get_Some_elem in Hget. unfold tool_handlers in Hget.
  pose proof (page_reading_tools_keep_state drv arguments st)
    as (Hshot & Hfill & Heval & Htext & Hhtml).
  repeat (apply elem_of_cons in Hget as [[= -> ->]|Hget]);
    [..|by apply elem_of_nil in Hget].
  - apply navigate_kept.
  - rewrite Hshot. apply records_kept_refl.
  - apply decorated_kept. intros st0.
    apply with_active_page_state. intros sid p. mrun.
    by destruct (locator_click drv p (arg_selector arguments)) as [[]|].
  - rewrite Hfill. apply records_kept_refl.
  - rewrite Heval. apply records_kept_refl.
  - apply decorated_kept. intros st0.
    apply with_active_page_state. intros sid p. mrun.
    by destruct (locator_click_text drv p (arg_text arguments)) as [[]|].
  - rewrite Htext. apply records_kept_refl.
  - rewrite Hhtml. apply records_kept_refl.
  - apply new_session_kept.
  - apply console_handle_kept.
  - apply network_handle_kept.
Qed.


(** Property X18. Invariant: if every stored response body is shorter
    than 10240 characters, this still holds after the delivery of any browser
    event and after any tool call (a decoded body has at most as many
    characters as the bytes read, and only bodies under 10240 bytes are
    decoded). *)
Theorem stored_bodies_stay_small (drv : Driver) (page : nat)
    (ev : BrowserEvent) (name : pystr) (arguments : Arguments) (st : state) :
  bodies_small st →
  bodies_small (emit drv page ev st).1
  ∧ bodies_small (handle_call_tool drv name arguments st).1.
Proof.
  intros Hst. split.
  - by apply deliver_bodies_small.
  - eapply records_kept_bodies; [apply tool_call_records_kept|done].
Qed.

End tool_records.

Lemma stored_bodies_stay_small_witness :
  bodies_small
    (emit (sample_driver (py "sid-1") 1 2) 2
       (ResponseEvent (sample_response 7 (py "text/html") [])) one_pending).1.
Proof.
  refine (proj1 (stored_bodies_stay_small (H := plain_render)
                   (sample_driver (py "sid-1") 1 2) 2
                   (ResponseEvent (sample_response 7 (py "text/html") []))
                   (py "playwright_get_network_activity") no_arguments
                   one_pending _)).
  assert (_network_events one_pending
          = {[ py "sid-1" := [sample_event 7 None] ]}) as Heq
    by (vm_compute; reflexivity).
  intros sid events e text Hs Hin Hb. rewrite Heq in Hs.
  apply lookup_singleton_Some in Hs as [_ <-].
  by apply list_elem_of_singleton in Hin as ->.
Defined.

(** ** Failures inside the network closures *)

(** Property X16. The request closure either appends one complete
    event or changes nothing. Nothing is recorded when the headers cannot be
    read, when the timestamp cannot be evaluated or when the session has no
    list (the [KeyError] is swallowed); a failure of class [Exception] is
    swallowed and any other is raised. A failure of [post_data], of any class,
    does not prevent the record: the event is appended with [post_data] None. *)
Theorem request_is_recorded_whole_or_not (drv : Driver) (sid : pystr)
    (p : nat) (request : Request) (st : state) :
  let swallowed e := if isinstance_Exception e then Ok tt else Raise e in
  NetworkHandler.handle_request drv sid p request st
  = match req_all_headers request,
          page_evaluate drv p (Some (py "new Date().toISOString()")),
          _network_events st !! sid with
    | Raise e, _, _ => (st, swallowed e)
    | Ok _, Raise e, _ => (st, swallowed e)
    | Ok _, Ok _, None => (st, Ok tt)
    | Ok headers, Ok timestamp, Some events =>
        (set_network_events
           <[sid := events ++
              [mk_event (req_id request) (py "request") (req_url request)
                 (req_method request) headers
                 (match req_post_data request with
                  | Ok post_data => post_data
                  | Raise _ => None
                  end)
                 (req_resource_type request) timestamp
                 None None None None None]]> st,
         Ok tt)
    end.
Proof.
  intros swallowed. subst swallowed.
  unfold NetworkHandler.handle_request, try_except. mrun.
  destruct (req_all_headers request) as [headers|e]; simpl;
    [|by destruct (isinstance_Exception e)].
  destruct (req_post_data request) as [d|e0]; simpl;
    (destruct (page_evaluate drv p _) as [ts|e]; simpl;
       [|by destruct (isinstance_Exception e)]);
    by destruct (_network_events st !! sid) as [events|].
Qed.

(** Property X17. For a response that matches a recorded
    event: when its headers cannot be read nothing is recorded (the failure is
    swallowed if it is of class [Exception], raised otherwise); when only its
    body cannot be read, whatever the class of the failure, the closure returns
    normally and the event gets the status, status text and headers while its
    size and body stay as they were; when both are read the event gets the
    status and the size, and its body is either left or the decoded text. *)
Theorem response_failures_keep_what_was_read (sid : pystr)
    (response : Response) (st : state) (events : list NetEvent) (i : nat)
    (event : NetEvent) :
  _network_events st !! sid = Some events →
  list_find (λ e, ev_id e = resp_request_id response) events = Some (i, event) →
  match resp_all_headers response, resp_body response with
  | Raise e, _ =>
      NetworkHandler.handle_response sid response st
      = (st, if isinstance_Exception e then Ok tt else Raise e)
  | Ok headers, Raise _ =>
      NetworkHandler.handle_response sid response st
      = (set_network_events
           <[sid := <[i := NetworkHandler.set_response (resp_status response)
                             (resp_status_text response) headers event]>
                      events]> st,
         Ok tt)
  | Ok headers, Ok body =>
      ∃ event',
        NetworkHandler.handle_response sid response st
        = (set_network_events <[sid := <[i := event']> events]> st, Ok tt)
        ∧ ev_status event' = Some (resp_status response)
        ∧ ev_response_size event' = Some (Z.of_nat (length body))
        ∧ (ev_response_body event' = ev_response_body event
           ∨ ev_response_body event' = decode_utf8 body)
  end.
Proof.
  intros Hs Hfind.
  destruct (resp_all_headers response) as [headers|e] eqn:Hh.
  - rewrite (handle_response_matched _ _ _ _ _ _ _ Hs Hfind Hh).
    unfold patched.
    destruct (resp_body response) as [body|e]; [|done].
    eexists. split; [reflexivity|].
    destruct (_ && _); [destruct (decode_utf8 body) eqn:Hd|]; simpl;
      repeat split; auto.
  - unfold NetworkHandler.handle_response, try_except. mrun.
    rewrite Hs, Hfind, Hh. simpl.
    destruct (resp_body response); by destruct (isinstance_Exception e).
Qed.

Lemma response_failures_keep_what_was_read_witness :
  NetworkHandler.handle_response (py "sid-1") (bodiless_response 7) one_pending
  = (set_network_events
       <[py "sid-1" :=
           <[0%nat := NetworkHandler.set_response 204 (py "No Content") []
                        (sample_event 7 None)]> [sample_event 7 None]]>
       one_pending,
     Ok tt).
Proof.
  exact (response_failures_keep_what_was_read (py "sid-1") (bodiless_response 7)
           one_pending [sample_event 7 None] 0 (sample_event 7 None)
           eq_refl eq_refl).
Defined.

(** ** The listing and the dispatch *)

Ltac by_computation :=
  match goal with |- ?P => refine (@bool_decide_unpack P _ _) end;
  vm_compute; exact I.

Section listing.
Context `{Render}.

Lemma listed_iff_handled name :
  name ∈ tool_name <$> handle_list_tools ↔ name ∈ dict_keys tool_handlers.
Proof.
  split; intros Hin.
  - change (tool_name <$> handle_list_tools) with
      ([ py "playwright_new_session"; py "playwright_navigate";
         py "playwright_screenshot"; py "playwright_click";
         py "playwright_fill"; py "playwright_evaluate";
         py "playwright_click_text"; py "playwright_get_text_content";
         py "playwright_get_html_content"; py "playwright_get_console_logs";
         py "playwright_get_network_activity" ]) in Hin.
    change (dict_keys tool_handlers) with tool_names.
    repeat (apply elem_of_cons in Hin as [->|Hin]);
      [..|by apply elem_of_nil in Hin]; by_computation.
  - change (dict_keys tool_handlers) with tool_names in Hin.
    unfold tool_names in Hin.
    repeat (apply elem_of_cons in Hin as [->|Hin]);
      [..|by apply elem_of_nil in Hin]; by_computation.
Qed.

(** Property X20. The tools that [handle_list_tools] lists are
    exactly those that [handle_call_tool] dispatches; a name that is not
    listed raises [ValueError("Unknown tool: <name>")] and leaves the state
    unchanged; no name is listed twice; and every argument a schema requires
    is declared among its properties. *)
Theorem listed_tools_are_the_callable_ones (drv : Driver) (name : pystr)
    (arguments : Arguments) (st : state) :
  (name ∈ tool_name <$> handle_list_tools ↔ is_Some (dict_get name tool_handlers))
  ∧ (name ∉ tool_name <$> handle_list_tools →
     handle_call_tool drv name arguments st
     = (st, Raise (mk_exn ValueError (py "Unknown tool: " ++ name))))
  ∧ NoDup (tool_name <$> handle_list_tools)
  ∧ Forall (λ tool,
              ∀ key, key ∈ default [] (schema_required (inputSchema tool)) →
                     key ∈ (schema_properties (inputSchema tool)).*1)
           handle_list_tools.
Proof.
  assert (name ∈ tool_name <$> handle_list_tools
          ↔ is_Some (dict_get name tool_handlers)) as Hiff.
  { rewrite listed_iff_handled. split.
    - apply dict_get_key_is_Some.
    - intros [handler Hget]. by eapply dict_get_Some_keys. }
  split; [done|]. split; [|split].
  - intros Hout. unfold handle_call_tool.
    destruct (dict_get name tool_handlers) as [handler|] eqn:Hget; [|done].
    destruct Hout. apply Hiff. by eexists.
  - by_computation.
  - unfold handle_list_tools.
    repeat apply Forall_cons_2; [..|apply Forall_nil_2]; simpl;
      intros key Hin;
      repeat (apply elem_of_cons in Hin as [->|Hin]);
      try (by apply elem_of_nil in Hin); by_computation.
Qed.

End listing.

(** ** The page adopted after a click and the listeners *)

Lemma click_adopts drv arguments st sid session new_page :
  BaseToolHandler._get_active_session st = (st, Ok (sid, session)) →
  wait_for_new_page drv (page session) = Ok new_page →
  wait_for_load_state drv new_page = Ok tt →
  locator_click drv (page session) (arg_selector arguments) = Ok tt →
  ClickToolHandler.handle drv arguments st
  = (set_sessions (dict_set sid (mk_session (browser session) new_page)) st,
     Ok [TextContent (py "Clicked element with selector "
                      ++ default (py "None") (arg_selector arguments))]).
Proof.
  intros Hactive Hwait Hload Hclick.
  pose proof Hactive as (He & Hl & Hg)%get_active_inv.
  unfold ClickToolHandler.handle.
  rewrite (update_page_after_click_run drv _ arguments st sid session st
             [TextContent (py "Clicked element with selector "
                           ++ default (py "None") (arg_selector arguments))]
             Hactive).
  - by rewrite Hwait, Hload, Hg.
  - by rewrite (click_inner_run _ _ _ _ _ Hactive), Hclick.
Qed.

Lemma emit_unsubscribed drv p ev st :
  subscriptions (page_obj p st) = [] → emit drv p ev st = (st, []).
Proof. unfold emit. by intros ->. Qed.

Section adopted.
Context `{Render}.

(** Property X22. The page adopted after a click gets
    no listener from the decorator: if the server never touched the new page,
    no event on it is recorded after the click. The next console query attaches
    the console closure of the active session to it, after which a console
    message on that page is appended to the log of the session; the next
    network query attaches the request and response closures. *)
Theorem adopted_page_is_heard_after_a_log_query (drv : Driver)
    (arguments : Arguments) (st : state) (sid : pystr) (session : Session)
    (new_page : nat) :
  BaseToolHandler._get_active_session st = (st, Ok (sid, session)) →
  wait_for_new_page drv (page session) = Ok new_page →
  wait_for_load_state drv new_page = Ok tt →
  locator_click drv (page session) (arg_selector arguments) = Ok tt →
  pages st !! new_page = None →
  let st' := (ClickToolHandler.handle drv arguments st).1 in
  (∀ drv' ev, emit drv' new_page ev st' = (st', []))
  ∧ (∀ query,
       let st'' := (ConsoleLogHandler.handle query st').1 in
       subscribed "console" new_page st''
       = [("console", ConsoleCallback sid new_page)]
       ∧ ∀ drv' msg url ts,
           msg_page_url msg = Some url →
           page_evaluate drv' new_page (Some (py "new Date().toISOString()"))
           = Ok ts →
           ∃ logs,
             _console_logs st'' !! sid = Some logs
             ∧ emit drv' new_page (ConsoleEvent msg) st''
               = (set_console_logs
                    <[sid := logs ++ [mk_log (msg_type msg) (msg_text msg) url
                                        (msg_lineNumber msg)
                                        (msg_columnNumber msg) ts]]> st'',
                  []))
  ∧ (∀ query,
       let st'' := (NetworkHandler.handle query st').1 in
       subscribed "request" new_page st''
       = [("request", RequestCallback sid new_page)]
       ∧ subscribed "response" new_page st''
         = [("response", ResponseCallback sid new_page)]).
Proof.
  intros Hactive Hwait Hload Hclick Hfresh st'. subst st'.
  rewrite (click_adopts _ _ _ _ _ _ Hactive Hwait Hload Hclick). simpl.
  set (st' := set_sessions
                (dict_set sid (mk_session (browser session) new_page)) st).
  destruct (set_page_keeps_active st sid session new_page Hactive)
    as [Hact' _]. fold st' in Hact'.
  assert (pages st' !! new_page = None) as Hfresh' by done.
  destruct (fresh_page_inv new_page st' Hfresh') as [Hc Hn].
  split; [|split].
  - intros drv' ev. apply emit_unsubscribed.
    unfold page_obj. by rewrite Hfresh'.
  - intros query. cbv zeta.
    rewrite (console_handle_selects _ _ _ _ Hact'). simpl.
    pose proof (setup_console_console_inv new_page sid None st' Hc)
      as (_ & Hsub & [logs Hlogs]). simpl in Hsub, Hlogs.
    split; [done|].
    intros drv' msg url ts Hurl Hts. exists logs. split; [done|].
    unfold emit. rewrite deliver_subscribed.
    change (event_name (ConsoleEvent msg)) with "console".
    fold (subscribed "console" new_page
            (ConsoleLogHandler._setup_console_log_listener new_page sid st').1).
    rewrite Hsub. simpl.
    by rewrite (handle_console_appends _ _ _ _ _ _ _ _ Hlogs Hurl Hts).
  - intros query. cbv zeta.
    rewrite (network_handle_selects _ _ _ _ Hact'). simpl.
    by pose proof (setup_network_network_inv new_page sid None st' Hn)
      as (_ & Hreq & Hresp).
Qed.

End adopted.

Lemma adopted_page_is_heard_after_a_log_query_witness :
  let st' := (ClickToolHandler.handle popup_driver
                (selector_arguments (py "a#more")) one_session).1 in
  emit popup_driver 3 (ConsoleEvent sample_message) st' = (st', [])
  ∧ subscribed "console" 3 (ConsoleLogHandler.handle no_arguments st').1
    = [("console", ConsoleCallback (py "sid-1") 3)].
Proof.
  intros st'.
  pose proof (adopted_page_is_heard_after_a_log_query (H := plain_render)
                popup_driver (selector_arguments (py "a#more")) one_session
                (py "sid-1") (mk_session 1 2) 3 eq_refl eq_refl eq_refl eq_refl
                eq_refl) as (Hquiet & Hconsole & _).
  split; [exact (Hquiet popup_driver (ConsoleEvent sample_message))|].
  exact (proj1 (Hconsole no_arguments)).
Defined.

(** ** Repeating a query *)

Lemma get_active_sessions st st1 o :
  _sessions st1 = _sessions st →
  BaseToolHandler._get_active_session st = (st, o) →
  BaseToolHandler._get_active_session st1 = (st1, o).
Proof.
  unfold BaseToolHandler._get_active_session. mrun. intros ->.
  destruct (dict_empty (_sessions st)); [by intros [= <-]|].
  destruct (list.last (dict_keys (_sessions st))) as [sid|]; [|by intros [= <-]].
  destruct (dict_get sid (_sessions st)); by intros [= <-].
Qed.

Lemma ensure_logs_idem sid st : ensure_logs sid (ensure_logs sid st) = ensure_logs sid st.
Proof.
  unfold ensure_logs at 1. by destruct (ensure_logs_bucket sid st) as [logs ->].
Qed.

Lemma ensure_events_bucket sid st :
  is_Some (_network_events (ensure_events sid st) !! sid).
Proof.
  unfold ensure_events. destruct (_network_events st !! sid) eqn:Hl; simpl.
  - by rewrite Hl.
  - by rewrite lookup_insert_eq.
Qed.

Lemma ensure_events_idem sid st :
  ensure_events sid (ensure_events sid st) = ensure_events sid st.
Proof.
  unfold ensure_events at 1. by destruct (ensure_events_bucket sid st) as [evs ->].
Qed.

Lemma hasattr_set_pages p name obj st :
  hasattr p name (set_pages <[p := obj]> st) = bool_decide (name ∈ attrs obj).
Proof. unfold hasattr. by rewrite page_obj_set_pages. Qed.

Lemma setup_console_idem p sid st :
  let st1 := (ConsoleLogHandler._setup_console_log_listener p sid st).1 in
  ConsoleLogHandler._setup_console_log_listener p sid st1 = (st1, Ok tt).
Proof.
  intros st1. subst st1. rewrite (setup_console_run p sid st). simpl.
  destruct (hasattr p "_console_listener_added" st) eqn:Hm.
  - rewrite setup_console_run.
    unfold hasattr in *. rewrite page_obj_ensure_logs, Hm.
    by rewrite ensure_logs_idem.
  - rewrite setup_console_run. rewrite hasattr_set_pages. simpl.
    rewrite bool_decide_eq_true_2
      by (apply elem_of_union; left; by apply elem_of_singleton).
    unfold ensure_logs at 1. simpl.
    by destruct (ensure_logs_bucket sid st) as [logs ->].
Qed.

Lemma setup_network_idem p sid st :
  let st1 := (NetworkHandler._setup_network_listener p sid st).1 in
  NetworkHandler._setup_network_listener p sid st1 = (st1, Ok tt).
Proof.
  intros st1. subst st1. rewrite (setup_network_run p sid st). simpl.
  destruct (hasattr p "_network_listener_added" st) eqn:Hm.
  - rewrite setup_network_run.
    unfold hasattr in *. rewrite page_obj_ensure_events, Hm.
    by rewrite ensure_events_idem.
  - rewrite setup_network_run. rewrite hasattr_set_pages. simpl.
    rewrite bool_decide_eq_true_2
      by (apply elem_of_union; left; by apply elem_of_singleton).
    unfold ensure_events at 1. simpl.
    by destruct (ensure_events_bucket sid st) as [evs ->].
Qed.

Section repeated.
Context `{Render}.

(** Property X23. Queries are repeatable: a second call of the console
    query (or of the network query) with the same arguments, with no event in
    between, returns the same result and leaves the state as the first call
    left it. *)
Theorem log_queries_are_repeatable (arguments : Arguments) (st : state) :
  (let r := ConsoleLogHandler.handle arguments st in
   ConsoleLogHandler.handle arguments r.1 = r)
  ∧ (let r := NetworkHandler.handle arguments st in
     NetworkHandler.handle arguments r.1 = r).
Proof.
  destruct (get_active_outcome st) as (o & Hrun & Ho).
  destruct o as [[sid session]|e].
  - split; cbv zeta.
    + rewrite (console_handle_selects _ _ _ _ Hrun). simpl.
      pose proof (setup_console_frame (page session) sid st) as (_ & Hs & _).
      simpl in Hs.
      rewrite (console_handle_selects _ _ sid session
                 (get_active_sessions _ _ _ Hs Hrun)).
      rewrite setup_console_idem. simpl. by rewrite setup_console_bucket.
    + rewrite (network_handle_selects _ _ _ _ Hrun). simpl.
      pose proof (setup_network_frame (page session) sid st) as (_ & Hs & _).
      simpl in Hs.
      rewrite (network_handle_selects _ _ sid session
                 (get_active_sessions _ _ _ Hs Hrun)).
      rewrite setup_network_idem. simpl. by rewrite setup_network_bucket.
  - assert ((ConsoleLogHandler.handle arguments st).1 = st) as Hc.
    { unfold ConsoleLogHandler.handle, ConsoleLogHandler.handle_body, try_except.
      unfold mbind, M_bind, bind. rewrite Hrun. simpl.
      destruct (isinstance_ValueError e); [done|]. by rewrite Ho. }
    assert ((NetworkHandler.handle arguments st).1 = st) as Hn.
    { unfold NetworkHandler.handle, NetworkHandler.handle_body, try_except.
      unfold mbind, M_bind, bind. rewrite Hrun. simpl.
      destruct (isinstance_ValueError e); [done|]. by rewrite Ho. }
    split; cbv zeta; [by rewrite Hc|by rewrite Hn].
Qed.

End repeated.
